(** * DNA set-model tooling: dataset preparation, GAST models, SFD fine-tuning

    A shallow embedding of the parts of the repository that carry checkable
    behaviour:

    - [scripts/prepare_local_dataset.py]  (module [PrepareLocalDataset]),
    - [common/models/gast.py] together with [CustomModel] of
      [deepdna/nn/models/custom_model.py]  (modules [CustomModel],
      [GastGenerator] and [GastDiscriminator]),
    - the class-weight computation of
      [scripts/finetuning/setbert_finetune_sfd_binary_classification.py]
      (module [SfdFinetune]),
    - [fit] and [subbatch_size] of [deepdna/nn/models/custom_model.py]
      (module [CustomModelFit]).

    Python values are modelled as follows: [int] is [Z], [str] is [string],
    a [dict] is a [gmap], a [list] is a [list].  A [float] is a binary64
    number: where the code multiplies and truncates one (the split index of
    the dataset script) the arithmetic is that of IEEE 754 with rounding to
    nearest, ties to even (module [Float]); where a claim is about exact
    rational arithmetic (the class weights) it is a rational. *)

From Stdlib Require Import ZArith QArith Qround Qcanon List String Ascii.
From Stdlib Require Import Permutation Lia DecimalString DecimalNat SpecFloat.
From stdpp Require Import base list gmap strings.

(** * Python floats

    A [float] is a binary64 number: a sign, a 53-bit significand and an
    exponent, or an infinity or a nan ([spec_float] of the standard library,
    whose operations round to nearest, ties to even, as the hardware does). *)

Module Float.

Definition prec : Z := 53.
Definition emax : Z := 1024.

Definition float : Type := spec_float.

(** [x * y] *)
Definition mul (x y : float) : float := SFmul prec emax x y.

(** [float(z)] of an [int], as [z * x] converts its left operand: the
    nearest number, ties to even.  (Python raises [OverflowError] where
    this is an infinity, from [2 ^ 1024] on.) *)
Definition of_Z (z : Z) : float := binary_normalize prec emax z 0 false.

(** The number a rational stands for: the number itself when the rational
    is the value of one, and the nearest number, ties to even, otherwise,
    which is what [float] makes of a decimal such as [0.29]. *)
Definition of_Q (q : Q) : float :=
  match Qnum q with
  | Z0 => S754_zero false
  | Zpos n =>
      SFdiv prec emax (S754_finite false n 0) (S754_finite false (Qden q) 0)
  | Zneg n =>
      SFdiv prec emax (S754_finite true n 0) (S754_finite false (Qden q) 0)
  end.

(** The value of a finite number. *)
Definition value (x : float) : Q :=
  match x with
  | S754_finite s m e =>
      let magnitude :=
        match e with
        | Zneg k => Zpos m # (2 ^ k)
        | _ => inject_Z (Z.shiftl (Zpos m) e)
        end in
      if s then (- magnitude)%Q else magnitude
  | _ => 0%Q
  end.


(** [int(x)]: truncation towards zero.  On an infinity Python raises
    [OverflowError] and on a nan [ValueError]; such a run does not complete,
    and the value given here for them, 0, describes no run: statements about
    [int] of a number that can be infinite assume [is_finite]. *)
Definition int (x : float) : Z :=
  match x with
  | S754_finite s m e =>
      let magnitude :=
        match e with
        | Zneg k => Z.shiftr (Zpos m) (Zpos k)
        | _ => Z.shiftl (Zpos m) e
        end in
      if s then (- magnitude)%Z else magnitude
  | _ => 0%Z
  end.


End Float.

(** * Python helpers shared by the scripts *)

Module Py.

(** ** Exceptions and results *)

Inductive exn :=
| AttributeError (attribute : string)
| TypeError (what : string)
| NameError (variable : string)
| KeyError (key : string)
| ZeroDivisionError.

Inductive result (A : Type) :=
| Ok (a : A)
| Raise (e : exn).
Arguments Ok {A}.
Arguments Raise {A}.

Definition bind {A B} (r : result A) (k : A → result B) : result B :=
  match r with
  | Ok a => k a
  | Raise e => Raise e
  end.

(** Python objects that occur as arguments and attributes of the models. *)
Inductive value :=
| VNone
| VBool (b : bool)
| VInt (z : Z)
| VStr (s : string).

(** Truth value of an object, as [if v:] tests it. *)
Definition truthy (v : value) : bool :=
  match v with
  | VNone => false
  | VBool b => b
  | VInt z => negb (z =? 0)%Z
  | VStr s => negb (String.eqb s "")
  end.

Definition of_option (o : option Z) : value :=
  match o with
  | Some z => VInt z
  | None => VNone
  end.

(** [a == b] *)
Definition equal (a b : value) : value :=
  match a, b with
  | VNone, VNone => VBool true
  | VBool x, VBool y => VBool (Bool.eqb x y)
  | VInt x, VInt y => VBool (x =? y)%Z
  | VStr x, VStr y => VBool (String.eqb x y)
  | _, _ => VBool false
  end.

(** [v - z] for an [int] [v]. *)
Definition minus (v : value) (z : Z) : result value :=
  match v with
  | VInt x => Ok (VInt (x - z))
  | _ => Raise (TypeError "unsupported operand type(s) for -")
  end.

(** [v + z] for an [int] [v]. *)
Definition plus (v : value) (z : Z) : result value :=
  match v with
  | VInt x => Ok (VInt (x + z))
  | _ => Raise (TypeError "unsupported operand type(s) for +")
  end.

(** The number of iterations of [for i in range(v)]. *)
Definition range (v : value) : result nat :=
  match v with
  | VInt n => Ok (Z.to_nat n)
  | _ => Raise (TypeError "object cannot be interpreted as an integer")
  end.

(** An instance dictionary: [self.x = v] is an insertion, and reading
    [self.x] raises [AttributeError] when [x] was never assigned. *)
Definition getattr (self : gmap string value) (x : string) : result value :=
  match self !! x with
  | Some v => Ok v
  | None => Raise (AttributeError x)
  end.

(** [d.update(pairs)]: a later pair replaces an earlier one with the same
    key. *)
Definition update {V} (d : gmap string V) (pairs : list (string * V))
    : gmap string V :=
  foldl (λ d kv, <[kv.1 := kv.2]> d) d pairs.

(** [dict(pairs)] and dictionary comprehensions. *)
Definition dict {V} (pairs : list (string * V)) : gmap string V :=
  update ∅ pairs.

(** Binding of keyword arguments to parameters: a parameter without
    default must be present, ... *)
Definition required (kw : gmap string value) (x : string) : result value :=
  match kw !! x with
  | Some v => Ok v
  | None => Raise (TypeError "missing a required argument")
  end.

(** ... and the parameters are used at these types. *)
Definition as_int (v : value) : result Z :=
  match v with
  | VInt z => Ok z
  | _ => Raise (TypeError "an int is expected")
  end.

Definition as_bool (v : value) : result bool :=
  match v with
  | VBool b => Ok b
  | _ => Raise (TypeError "a bool is expected")
  end.

Definition as_str (v : value) : result string :=
  match v with
  | VStr s => Ok s
  | _ => Raise (TypeError "a str is expected")
  end.

Definition as_optional_int (v : value) : result (option Z) :=
  match v with
  | VNone => Ok None
  | VInt z => Ok (Some z)
  | _ => Raise (TypeError "an int or None is expected")
  end.

(** [d[k]] *)
Definition getitem {V} (d : gmap string V) (k : string) : result V :=
  match d !! k with
  | Some v => Ok v
  | None => Raise (KeyError k)
  end.

(** [[f(x) for x in l]], stopping at the first exception. *)
Fixpoint for_each {A B} (f : A → result B) (l : list A) : result (list B) :=
  match l with
  | [] => Ok []
  | x :: l' =>
      bind (f x) (λ y, bind (for_each f l') (λ ys, Ok (y :: ys)))
  end.

(** [a / n] for a number [a] and an [int] [n], in exact arithmetic. *)
Definition truediv (a : Qc) (n : Z) : result Qc :=
  if (n =? 0)%Z then Raise ZeroDivisionError
  else Ok (a / Qc_of_Z n)%Qc.

(** ** Strings, numbers and slices *)

(** Characters of a [str], first to last. *)
Definition chars (s : string) : list ascii := list_ascii_of_string s.
Definition of_chars (l : list ascii) : string := string_of_list_ascii l.

(** [l] begins with [p]. *)
Fixpoint starts_with (p l : list ascii) : bool :=
  match p, l with
  | [], _ => true
  | _ :: _, [] => false
  | a :: p', b :: l' => Ascii.eqb a b && starts_with p' l'
  end.

(** [s.endswith(suffix)] *)
Definition endswith (s suffix : string) : bool :=
  starts_with (rev (chars suffix)) (rev (chars s)).

Fixpoint dropwhile {A} (f : A → bool) (l : list A) : list A :=
  match l with
  | [] => []
  | x :: l' => if f x then dropwhile f l' else l
  end.

(** [c in cs] for a character and a [str] used as a character set. *)
Definition char_in (cs : string) (c : ascii) : bool :=
  existsb (Ascii.eqb c) (chars cs).

(** [s.rstrip(cs)]: the argument is a set of characters, all trailing
    occurrences of which are removed. *)
Definition rstrip (s cs : string) : string :=
  of_chars (rev (dropwhile (char_in cs) (rev (chars s)))).

(** [re.sub("[^" + cls + "]", "", s)] for a class [cls] of plain letters:
    every character outside the class is deleted. *)
Definition re_sub_outside (cls s : string) : string :=
  of_chars (List.filter (char_in cls) (chars s)).

(** [str(i)] for a non-negative [int]. *)
Definition str (i : nat) : string := NilEmpty.string_of_uint (Nat.to_uint i).

(** [a > b] on numbers. *)
Definition gt (a b : Q) : bool := negb (Qle_bool a b).

(** A slice bound [k] of a sequence of length [n], as the slice
    [l[:k]] or [l[k:]] resolves it: negative bounds count from the end,
    and every bound is clipped to [0..n]. *)
Definition slice_bound (n : nat) (k : Z) : nat :=
  if (k <? 0)%Z then Z.to_nat (Z.max 0 (k + Z.of_nat n))
  else Z.to_nat (Z.min k (Z.of_nat n)).

(** [l[:k]] *)
Definition slice_to {A} (l : list A) (k : Z) : list A :=
  take (slice_bound (length l) k) l.

(** [l[k:]] *)
Definition slice_from {A} (l : list A) (k : Z) : list A :=
  drop (slice_bound (length l) k) l.

End Py.

#[global] Instance result_bind : MBind Py.result := λ A B k r, Py.bind r k.
#[global] Instance result_ret : MRet Py.result := @Py.Ok.

(** * scripts/prepare_local_dataset.py *)

Module PrepareLocalDataset.

(** ** pathlib.Path *)

(** A path is its anchor (empty for a relative path) and its components. *)
Record Path := mkPath { anchor : string; parts : list string }.

(** [p / s] for a single component [s]. *)
Definition div (p : Path) (s : string) : Path :=
  mkPath (anchor p) (parts p ++ [s]).
Infix "//" := div (at level 40, left associativity).

(** [p.name] *)
Definition name (p : Path) : string := List.last (parts p) "".

(** [p.parent] *)
Definition parent (p : Path) : Path :=
  mkPath (anchor p) (removelast (parts p)).

(** ** Sequence entries of dnadb *)

Record FastaEntry := mkFasta {
  fa_identifier : string;
  fa_sequence : string;
  fa_extra : string
}.

Record FastqEntry := mkFastq {
  fq_identifier : string;
  fq_sequence : string;
  fq_extra : string;
  fq_quality : string
}.

(** ** The parsed command line *)

Record Config := mkConfig {
  output_path : Path;
  data_files : list Path;
  test_split : Q;              (* --test-split, default 0.2: see below *)
  num_splits : Z;              (* --num-splits, default 1 *)
  clean_sequences : bool;
  output_db : bool;
  output_fasta_fastq : bool;
  compress : bool
}.

(** [test_split] is a float.  The record holds a rational that
    [Float.of_Q] rounds to it: its value, or the decimal given on the
    command line.  The two comparisons of the script with [0.0] are made on
    the rational, which is exact for a value, and for a decimal unless it is
    so small, below [2 ^ -1075] in magnitude, that it reads as zero. *)

(** ** What the script does to the file system *)

(** Where a write goes: a text file opened with mode ['w'] or a database
    built by a [FastaDbFactory]/[FastqDbFactory]. *)
Inductive store := TextFile | Db.

(** The description the source gives each write ("Writing test ..." and
    "Writing train ..."). *)
Inductive role := Test | Train.

Record write (A : Type) := mkWrite {
  w_store : store;
  w_role : role;
  w_path : Path;
  w_entries : list A
}.
Arguments mkWrite {A}.
Arguments w_store {A}.
Arguments w_role {A}.
Arguments w_path {A}.
Arguments w_entries {A}.

Inductive effect :=
| Mkdir (p : Path)            (* p.mkdir(parents=True, exist_ok=True) *)
| WriteFasta (w : write FastaEntry)
| WriteFastq (w : write FastqEntry)
| Compress (p : Path).        (* dnadb.utils.compress(p) *)

(** The value [main] hands to [sys.exit]: [Some c] for [return c],
    [None] when the function runs off its end. *)
Definition exit_code := option Z.

Section Script.

(** The injected [np.random.Generator]: its state, and [rng.shuffle(x)],
    which gives the list after its in-place shuffle and the advanced
    generator. *)
Variable Rng : Type.
Variable shuffle : ∀ A : Type, Rng → list A → list A * Rng.

(** [dna.ALL_BASES] of dnadb. *)
Variable ALL_BASES : string.

(** [fasta.entries(path)] and [fastq.entries(path)] of dnadb: the
    entries of an input file. *)
Variable fasta_entries : Path → list FastaEntry.
Variable fastq_entries : Path → list FastqEntry.

(** [path.exists()] when the script starts. *)
Variable path_exists : Path → bool.

Section Outputs.
Context {A : Type}.

(** [output_fasta_file] and [output_fastq_file]: the two differ in the
    entry type and the writer only. The result is the list [files]
    and the writes performed. *)
Definition output_file (config : Config) (filename : string)
    (entries : list A) (split_index : Z) (output_path : Path)
    : list Path * list (write A) :=
  let train_path := output_path in
  let '(train_path, files, done) :=
    if Py.gt (test_split config) 0 then
      let test_path := output_path // "test" in
      let train_path := output_path // "train" in
      (train_path,
       [test_path // filename],
       [mkWrite TextFile Test (test_path // filename)
                (Py.slice_to entries split_index)])
    else (train_path, [], []) in
  (files ++ [train_path // filename],
   done ++ [mkWrite TextFile Train (train_path // filename)
                    (Py.slice_from entries split_index)]).

(** [output_fasta_db] and [output_fastq_db]. *)
Definition output_database (config : Config) (filename : string)
    (entries : list A) (split_index : Z) (output_path : Path)
    : list (write A) :=
  let train_path := output_path in
  let '(train_path, done) :=
    if Py.gt (test_split config) 0 then
      let test_path := output_path // "test" in
      let train_path := output_path // "train" in
      (train_path,
       [mkWrite Db Test (test_path // filename)
                (Py.slice_to entries split_index)])
    else (train_path, []) in
  done ++ [mkWrite Db Train (train_path // filename)
                   (Py.slice_from entries split_index)].

(** The loop [for i in trange(config.num_splits)] of both
    [process_*_files], started at index [i] with [count] iterations
    to go. [entries] is the list object the loop shuffles in place. *)
Fixpoint split_loop (config : Config) (filename : string)
    (split_index : Z) (output_path : Path) (i count : nat)
    (entries : list A) (rng : Rng)
    : list Path * list (write A) * Rng :=
  match count with
  | O => ([], [], rng)
  | S count' =>
      let '(entries, rng) := shuffle A rng entries in
      let path :=
        if Py.gt (test_split config) 0
        then output_path // Py.str i else output_path in
      let '(files1, done1) :=
        if output_fasta_fastq config
        then output_file config filename entries split_index path
        else ([], []) in
      let done2 :=
        if output_db config
        then output_database config filename entries split_index path
        else [] in
      let '(files, done, rng) :=
        split_loop config filename split_index output_path
                   (S i) count' entries rng in
      (files1 ++ files, done1 ++ done2 ++ done, rng)
  end.
End Outputs.

Definition output_fasta_file := @output_file FastaEntry.
Definition output_fastq_file := @output_file FastqEntry.
Definition output_fasta_db := @output_database FastaEntry.
Definition output_fastq_db := @output_database FastqEntry.

(** [len(entries) * config.test_split]: the length becomes a float and
    the product is rounded. *)
Definition split_product {A} (config : Config) (entries : list A)
    : Float.float :=
  Float.mul (Float.of_Z (Z.of_nat (length entries)))
            (Float.of_Q (test_split config)).

(** [int(len(entries) * config.test_split)], the [split_index] of both
    [process_*_files]. *)
Definition split_index {A} (config : Config) (entries : list A) : Z :=
  Float.int (split_product config entries).

(** [entry.sequence = re.sub(f"[^{dna.ALL_BASES}]", '', entry.sequence)] *)
Definition clean (entry : FastaEntry) : FastaEntry :=
  mkFasta (fa_identifier entry)
          (Py.re_sub_outside ALL_BASES (fa_sequence entry))
          (fa_extra entry).

(** The entry list of a FASTA file as the split loop receives it. *)
Definition read_fasta (config : Config) (fasta_file : Path)
    : list FastaEntry :=
  let entries := fasta_entries fasta_file in
  if clean_sequences config then map clean entries else entries.

Fixpoint process_fasta_files (config : Config) (fasta_files : list Path)
    (output_path : Path) (rng : Rng)
    : list Path * list (write FastaEntry) * Rng :=
  match fasta_files with
  | [] => ([], [], rng)
  | fasta_file :: rest =>
      let entries := read_fasta config fasta_file in
      let split_index := split_index config entries in
      let filename := Py.rstrip (name fasta_file) ".gz" in
      let '(files1, done1, rng) :=
        split_loop config filename split_index output_path
                   0 (Z.to_nat (num_splits config)) entries rng in
      let '(files, done, rng) :=
        process_fasta_files config rest output_path rng in
      (files1 ++ files, done1 ++ done, rng)
  end.

Fixpoint process_fastq_files (config : Config) (fastq_files : list Path)
    (output_path : Path) (rng : Rng)
    : list Path * list (write FastqEntry) * Rng :=
  match fastq_files with
  | [] => ([], [], rng)
  | fastq_file :: rest =>
      let entries := fastq_entries fastq_file in
      let split_index := split_index config entries in
      let filename := Py.rstrip (name fastq_file) ".gz" in
      let '(files1, done1, rng) :=
        split_loop config filename split_index output_path
                   0 (Z.to_nat (num_splits config)) entries rng in
      let '(files, done, rng) :=
        process_fastq_files config rest output_path rng in
      (files1 ++ files, done1 ++ done, rng)
  end.

(** The file-type test of [main]. *)
Definition is_fasta (file : Path) : bool :=
  Py.endswith (name file) ".fasta" || Py.endswith (name file) ".fasta.gz".
Definition is_fastq (file : Path) : bool :=
  Py.endswith (name file) ".fastq" || Py.endswith (name file) ".fastq.gz".

(** The loop [for file in map(Path, config.data_files)] of [main]:
    [None] stands for its two [return 1]. *)
Fixpoint check_files (files fasta_files fastq_files : list Path)
    : option (list Path * list Path) :=
  match files with
  | [] => Some (fasta_files, fastq_files)
  | file :: rest =>
      if negb (path_exists file) then None
      else if is_fasta file
      then check_files rest (fasta_files ++ [file]) fastq_files
      else if is_fastq file
      then check_files rest fasta_files (fastq_files ++ [file])
      else None
  end.

(** The loop [for i in range(config.num_splits)] that creates the
    directories. *)
Fixpoint make_directories (config : Config) (output_path : Path)
    (i count : nat) : list effect :=
  match count with
  | O => []
  | S count' =>
      let train_path := output_path in
      let '(train_path, made) :=
        if Py.gt (test_split config) 0 then
          let train_path := output_path // Py.str i in
          let test_path := train_path // "test" in
          let train_path := train_path // "train" in
          (train_path, [Mkdir test_path])
        else (train_path, []) in
      made ++ [Mkdir train_path]
           ++ make_directories config output_path (S i) count'
  end.

(** [main], given the parsed command line and the generator of
    [tfs.rng()]. The messages printed before each [return 1] are not
    part of the result. *)
Definition main (config : Config) (rng0 : Rng)
    : exit_code * list effect :=
  let output_path := output_path config in
  if negb (path_exists (parent output_path)) then (Some 1%Z, [])
  else if (1 <? num_splits config)%Z && Qeq_bool (test_split config) 0
  then (Some 1%Z, [])
  else if negb (output_fasta_fastq config) && negb (output_db config)
  then (Some 1%Z, [])
  else
    match check_files (data_files config) [] [] with
    | None => (Some 1%Z, [])
    | Some (fasta_files, fastq_files) =>
        let made :=
          make_directories config output_path 0
                           (Z.to_nat (num_splits config)) in
        let rng := rng0 in
        let '(files_written, done, rng) :=
          if (0 <? length fasta_files)%nat then
            let '(files, done, rng) :=
              process_fasta_files config fasta_files output_path rng in
            (files, WriteFasta <$> done, rng)
          else ([], [], rng) in
        let '(files_written, done, rng) :=
          if (0 <? length fastq_files)%nat then
            let '(files, done', rng) :=
              process_fastq_files config fastq_files output_path rng in
            (files_written ++ files, done ++ (WriteFastq <$> done'), rng)
          else (files_written, done, rng) in
        let compressed :=
          if compress config then Compress <$> files_written else [] in
        (None, made ++ done ++ compressed)
    end.

End Script.

End PrepareLocalDataset.

(** * Specifications *)

(** ** The dataset-preparation script *)

Module DatasetSpec.
Import PrepareLocalDataset.

(** [s] with one trailing [".gz"] removed, if it has one. *)
Definition remove_gz_suffix (s : string) : string :=
  if Py.endswith s ".gz"
  then Py.of_chars (take (length (Py.chars s) - 3) (Py.chars s))
  else s.




Definition b2n (b : bool) : nat := if b then 1 else 0.





(** A file name with none of the four accepted endings. *)
Definition unknown_type (file : Path) : Prop :=
  Py.endswith (name file) ".fasta" = false ∧
  Py.endswith (name file) ".fasta.gz" = false ∧
  Py.endswith (name file) ".fastq" = false ∧
  Py.endswith (name file) ".fastq.gz" = false.

(** The five input errors of [main]. *)
Definition invalid_input (path_exists : Path → bool) (config : Config)
    : Prop :=
  path_exists (parent (output_path config)) = false
  ∨ ((1 < num_splits config)%Z ∧ (test_split config == 0)%Q)
  ∨ (output_fasta_fastq config = false ∧ output_db config = false)
  ∨ Exists (λ file, path_exists file = false) (data_files config)
  ∨ Exists unknown_type (data_files config).

(** The paths of the files and databases an execution writes. *)
Definition written_path (e : effect) : option Path :=
  match e with
  | WriteFasta w => Some (w_path w)
  | WriteFastq w => Some (w_path w)
  | _ => None
  end.
Definition written_paths (trace : list effect) : list Path :=
  omap written_path trace.

(** The data files in the order in which [main] processes them: the FASTA
    files, then the FASTQ files, each kind in the order of the command
    line. *)
Definition accepted_in_order (config : Config) : list Path :=
  List.filter is_fasta (data_files config)
  ++ List.filter is_fastq (data_files config).

End DatasetSpec.

(** ** A generator to run the script with *)

(** A linear congruential generator whose [shuffle] inserts each element at
    a drawn position. *)
Module Lcg.

Definition next (s : Z) : Z := ((1103515245 * s + 12345) mod 2147483648)%Z.

Fixpoint insert_at {A} (n : nat) (x : A) (l : list A) : list A :=
  match n, l with
  | S n', y :: l' => y :: insert_at n' x l'
  | _, _ => x :: l
  end.

Fixpoint shuffle (A : Type) (s : Z) (l : list A) : list A * Z :=
  match l with
  | [] => ([], s)
  | x :: l' =>
      let '(sh, s) := shuffle A s l' in
      (insert_at (Z.to_nat (s mod (Z.of_nat (length sh) + 1))) x sh, next s)
  end.

End Lcg.

Module DatasetExamples.
Import PrepareLocalDataset.

Definition e1 := mkFasta "s1" "ACGT" "".
Definition e2 := mkFasta "s2" "AC-GN" "".
Definition e3 := mkFasta "s3" "TTGA" "".
Definition q1 := mkFastq "r1" "ACGT" "" "IIII".
Definition fasta_entries (p : Path) : list FastaEntry := [e1; e2; e3].
Definition fastq_entries (p : Path) : list FastqEntry := [q1].
Definition ALL_BASES : string := "ACGTRYKMSWBDHVN".
Definition reads : Path := mkPath "" ["reads.fasta.gz"].
Definition out : Path := mkPath "" ["out"].

(** [prepare_local_dataset.py out reads.fasta.gz --test-split t
    --num-splits n --output-db --output-fasta-fastq], with
    [--clean-sequences] when [clean] is set. *)
Definition config (t : Q) (n : Z) (clean : bool) : Config :=
  mkConfig out [reads] t n clean true true false.

Definition process_fasta (t : Q) (n : Z) (clean : bool)
    : list (write FastaEntry) :=
  (process_fasta_files Z Lcg.shuffle ALL_BASES fasta_entries
     (config t n clean) [reads] out 42%Z).1.2.



End DatasetExamples.

(** * scripts/prepare_local_dataset.py: the trace of a run *)

Module DatasetTrace.
Import PrepareLocalDataset.

(** The directories an execution creates, in order. *)
Definition made_directory (e : effect) : option Path :=
  match e with
  | Mkdir p => Some p
  | _ => None
  end.
Definition made_directories (trace : list effect) : list Path :=
  omap made_directory trace.

(** The files an execution compresses, in order. *)
Definition compressed_file (e : effect) : option Path :=
  match e with
  | Compress p => Some p
  | _ => None
  end.
Definition compressed_files (trace : list effect) : list Path :=
  omap compressed_file trace.

(** The path of a write to a text file; a database has none. *)
Definition text_file {A} (w : write A) : option Path :=
  match w_store w with
  | TextFile => Some (w_path w)
  | Db => None
  end.

(** The text files an execution writes, in order. *)
Definition written_text_file (e : effect) : option Path :=
  match e with
  | WriteFasta w => text_file w
  | WriteFastq w => text_file w
  | _ => None
  end.
Definition written_text_files (trace : list effect) : list Path :=
  omap written_text_file trace.

(** The directories of split [i]: its [test] and [train] directories with a
    test fraction, the output directory itself without. *)
Definition split_directories (config : Config) (output_path : Path)
    (i : nat) : list Path :=
  if Py.gt (test_split config) 0
  then [output_path // Py.str i // "test"; output_path // Py.str i // "train"]
  else [output_path].

(** [config] with [--clean-sequences] set as [b] says. *)
Definition with_clean_sequences (config : Config) (b : bool) : Config :=
  {| output_path := output_path config;
     data_files := data_files config;
     test_split := test_split config;
     num_splits := num_splits config;
     clean_sequences := b;
     output_db := output_db config;
     output_fasta_fastq := output_fasta_fastq config;
     compress := compress config |}.

(** Role, path and entries of a write, without its store. *)
Definition content {A} (w : write A) : role * Path * list A :=
  (w_role w, w_path w, w_entries w).

(** A write with [f] applied to each of its entries. *)
Definition map_entries {A B} (f : A → B) (w : write A) : write B :=
  mkWrite (w_store w) (w_role w) (w_path w) (map f (w_entries w)).

(** [rng.shuffle] moves the elements of a list without looking at them:
    shuffling the images under [f] gives the images of the shuffled
    list, and advances the generator alike. *)
Definition by_position {Rng}
    (shuffle : ∀ A : Type, Rng → list A → list A * Rng) : Prop :=
  ∀ (A B : Type) (f : A → B) rng l,
    shuffle B rng (map f l)
    = (map f (shuffle A rng l).1, (shuffle A rng l).2).

(** The writes that go to text files, and those that go to databases. *)
Definition is_text {A} (w : write A) : bool :=
  match w_store w with TextFile => true | Db => false end.
Definition text_writes {A} (ws : list (write A)) : list (write A) :=
  List.filter is_text ws.
Definition database_writes {A} (ws : list (write A)) : list (write A) :=
  List.filter (λ w, negb (is_text w)) ws.

(** The name the outputs of a data file carry:
    [file.name.rstrip('.gz')]. *)
Definition output_name (file : Path) : string :=
  Py.rstrip (name file) ".gz".

(** The paths split [i] writes to for a data file whose outputs are
    named [filename], in the order of the writes: the text files, then the
    databases, each in every directory of the split. *)
Definition split_outputs (config : Config) (output_path : Path)
    (filename : string) (i : nat) : list Path :=
  let paths :=
    (λ d, d // filename) <$> split_directories config output_path i in
  (if output_fasta_fastq config then paths else [])
  ++ (if output_db config then paths else []).

(** The outputs of the data file [file], split by split: all carry the
    name of [file] with one trailing [".gz"] removed. *)
Definition outputs_of (config : Config) (file : Path) : list Path :=
  flat_map (split_outputs config (output_path config)
              (DatasetSpec.remove_gz_suffix (name file)))
           (seq 0 (Z.to_nat (num_splits config))).

(** The path of a write to a database; a text file has none. *)
Definition database {A} (w : write A) : option Path :=
  match w_store w with
  | TextFile => None
  | Db => Some (w_path w)
  end.

(** The databases an execution writes, in order. *)
Definition written_database (e : effect) : option Path :=
  match e with
  | WriteFasta w => database w
  | WriteFastq w => database w
  | _ => None
  end.
Definition written_databases (trace : list effect) : list Path :=
  omap written_database trace.

(** Where a write goes: store, role and path, without the entries. *)
Definition destination {A} (w : write A) : store * role * Path :=
  (w_store w, w_role w, w_path w).





(** The four phases of a run of [main] that passes the input checks. *)
Definition phases (dirs : list Path) (fasta : list (write FastaEntry))
    (fastq : list (write FastqEntry)) (compressed : list Path)
    : list effect :=
  (Mkdir <$> dirs) ++ (WriteFasta <$> fasta) ++ (WriteFastq <$> fastq)
  ++ (Compress <$> compressed).

End DatasetTrace.

(** * scripts/finetuning/setbert_finetune_sfd_binary_classification.py *)

Module SfdFinetune.
Import Py.

(** A sample of [sample.load_multiplexed_fasta]: its name, and a handle
    standing for its sequence store. *)
Record Sample := mkSample { name : string; store : nat }.

(** [sum(d.values())] for a dictionary of truth values. *)
Definition sum_values (d : gmap string bool) : Z :=
  map_fold (λ _ v acc, (Z.b2z v + acc)%Z) 0%Z d.

(** The samples kept by the two filters of [data_generators]. *)
Definition retained (targets : gmap string bool) (loaded : list Sample)
    : list Sample :=
  let samples :=
    List.filter (λ s, bool_decide (name s ∈ dom targets)) loaded in
  let to_keep : gset string :=
    list_to_set (name <$> samples) ∩ dom targets in
  List.filter (λ s, bool_decide (name s ∈ to_keep)) samples.

(** [data_generators] up to [class_weights]: [metadata] lists the rows
    (swab_label, oo_present) of the CSV file, [loaded] the samples of the
    multiplexed FASTA database. *)
Definition class_weights (metadata : list (string * bool))
    (loaded : list Sample) : result (list Qc) :=
  let targets := dict metadata in
  let samples := retained targets loaded in
  pairs ← for_each (λ s, t ← getitem targets (name s) ; Ok (name s, t))
                   samples ;
  let targets := dict pairs in
  let num_positive := sum_values targets in
  let num_negative := (Z.of_nat (size targets) - num_positive)%Z in
  for_each (λ s,
      t ← getitem targets (name s) ;
      if t : bool then truediv (Q2Qc (1 # 2)) num_positive
      else truediv (Q2Qc (1 # 2)) num_negative)
    samples.
End SfdFinetune.

(** ** The class weights of the fine-tuning script *)

Module WeightsSpec.
Import Py SfdFinetune.

Definition half : Qc := Q2Qc (1 # 2).

(** The target of a retained sample. *)
Definition label (targets : gmap string bool) (s : Sample) : bool :=
  default false (targets !! name s).

Definition total (ws : list Qc) : Qc := foldr Qcplus 0%Qc ws.

(** The joint weight of the samples whose target is [b]. *)
Definition mass (b : bool) (labels : list bool) (ws : list Qc) : Qc :=
  total (snd <$> List.filter (λ p, Bool.eqb p.1 b) (zip labels ws)).

Definition count (b : bool) (labels : list bool) : nat :=
  length (List.filter (Bool.eqb b) labels).

Definition sum_pairs (l : list (string * bool)) : Z :=
  foldr (λ kv acc, (Z.b2z kv.2 + acc)%Z) 0%Z l.

Definition of_nat (n : nat) : Qc := Qc_of_Z (Z.of_nat n).

Definition sa := mkSample "swab-a" 0.
Definition sb := mkSample "swab-b" 1.
Definition sc := mkSample "swab-c" 2.
Definition metadata : list (string * bool) :=
  [("swab-a", true); ("swab-b", false); ("swab-c", true); ("swab-d", false)].

End WeightsSpec.

(** * Keras layers, as the models construct them *)

Module Keras.
Import Py.

(** A symbolic tensor is the index of the node that produced it. *)
Definition tensor := nat.

(** The arguments shared by the set-attention layers of [settransformer]. *)
Record set_attention := mkSetAttention {
  embed_dim : value;
  num_heads : value;
  ff_dim : value;
  ff_activation : value;
  use_keras_mha : value;
  use_spectral_norm : value;
  prelayernorm : value;
  is_final : value
}.

Inductive layer :=
| Input (shape : list value) (dtype : value) (name : value)
| Embedding (input_dim output_dim : value)
| Flatten
| Concatenate
| Dense (units activation : value)
| Add
| SampleSet (max_set_size embed_dim : value)
| ConditionedSetAttentionBlock (num_anchors : value) (args : set_attention)
| InducedSetAttentionBlock (num_induce : value) (args : set_attention)
| InducedSetEncoder (num_seeds : value) (args : set_attention)
| spectral_dense (units use_spectral_norm : value).

(** A layer called on its input tensors. *)
Record node := mkNode { node_layer : layer; node_inputs : list tensor }.

(** Calling a layer on tensors: the new node is appended to the graph, and
    the tensor it produces is returned. *)
Definition call (l : layer) (inputs : list tensor) (graph : list node)
    : tensor * list node :=
  (length graph, graph ++ [mkNode l inputs]).

(** [keras.Model(inputs, outputs)] over the graph built so far. *)
Record Model := mkModel {
  graph : list node;
  inputs : list tensor;
  outputs : tensor
}.
End Keras.


(** * deepdna/nn/models/custom_model.py: CustomModel *)

Module CustomModel.
Import Py.

Section WithKeras.
(** [keras.Model.__init__] on the remaining keyword arguments: the
    attributes of a fresh model, or the exception it raises on keyword
    arguments it does not know. *)
Variable keras_Model_init : gmap string value → result (gmap string value).

Definition init (kwargs : gmap string value) : result (gmap string value) :=
  self ← keras_Model_init kwargs;
  Ok (<["_accumulation_steps" := VInt 1]> self).
End WithKeras.

Definition get_config : gmap string value := ∅.

(** [from_config(cls, config)] calls [cls] with the entries of [config] as
    keyword arguments. *)
Definition from_config {T} (cls : gmap string value → result T)
    (config : gmap string value) : result T :=
  cls config.

End CustomModel.

(** * common/models/gast.py: GastGenerator *)

Module GastGenerator.
Import Py Keras.

Record Args := mkArgs {
  max_set_size : Z;
  noise_dim : Z;
  embed_dim : Z;
  latent_dim : Z;
  stack : Z;
  num_heads : Z;
  num_anchors : Z;
  use_keras_mha : bool;          (* default False *)
  use_spectral_norm : bool;      (* default True *)
  activation : string;           (* default "relu" *)
  cond_dim : option Z;           (* default None *)
  ff_dim : option Z;             (* default None *)
  mlp_dim : option Z;            (* default None *)
  pre_layernorm : bool;          (* default True *)
  include_class : bool;          (* default False *)
  num_classes : option Z;        (* default None *)
  class_dim : option Z;          (* default None *)
  kwargs : gmap string value
}.

(** An instance: its attribute dictionary, and the Keras model held in
    [self.model]. *)
Record Instance := mkInstance {
  attrs : gmap string value;
  model : Model
}.

(** The names of the parameters of [__init__]. *)
Definition parameters : list string :=
  ["max_set_size"; "noise_dim"; "embed_dim"; "latent_dim"; "stack";
   "num_heads"; "num_anchors"; "use_keras_mha"; "use_spectral_norm";
   "activation"; "cond_dim"; "ff_dim"; "mlp_dim"; "pre_layernorm";
   "include_class"; "num_classes"; "class_dim"].

(** The loop [for i in range(self.stack)] of [build_model], at index [i]
    with [count] iterations to go. *)
Fixpoint build_stack (self : gmap string value) (condition : tensor)
    (count : nat) (i : Z) (y : tensor) (g : list node)
    : result (tensor * list node) :=
  match count with
  | O => Ok (y, g)
  | S count' =>
      latent_dim ← getattr self "latent_dim";
      num_heads ← getattr self "num_heads";
      num_anchors ← getattr self "num_anchors";
      ff_dim ← getattr self "ff_dim";
      activation ← getattr self "activation";
      use_keras_mha ← getattr self "use_keras_mha";
      use_spectral_norm ← getattr self "use_spectral_norm";
      pre_layernorm ← getattr self "pre_layernorm";
      stack ← getattr self "stack";
      last ← minus stack 1;
      let '(y1, g) :=
        call (ConditionedSetAttentionBlock num_anchors
                {| Keras.embed_dim := latent_dim;
                   Keras.num_heads := num_heads;
                   Keras.ff_dim := ff_dim;
                   Keras.ff_activation := activation;
                   Keras.use_keras_mha := use_keras_mha;
                   Keras.use_spectral_norm := use_spectral_norm;
                   Keras.prelayernorm := pre_layernorm;
                   Keras.is_final := equal (VInt i) last |})
             [y; condition] g in
      let '(y, g) := call Add [y; y1] g in
      build_stack self condition count' (i + 1) y g
  end.

Definition build_model (self : gmap string value) : result Model :=
  let g := [] in
  (* Inputs *)
  noise_dim ← getattr self "noise_dim";
  let '(noise, g) := call (Input [noise_dim] VNone (VStr "noise")) [] g in
  let '(cardinality, g) :=
    call (Input [VInt 1] (VStr "int32") (VStr "cardinality")) [] g in
  include_class ← getattr self "include_class";
  let '(label, g) :=
    if truthy include_class then
      let '(label, g) :=
        call (Input [VInt 1] (VStr "int32") (VStr "label")) [] g in
      (Some label, g)
    else (None, g) in
  (* Conditioning representation *)
  let condition := noise in
  include_class ← getattr self "include_class";
  '(condition, g) ←
    (if truthy include_class then
       num_samples ← getattr self "num_samples";
       class_dim ← getattr self "class_dim";
       label ← from_option Ok (Raise (NameError "label")) label;
       let '(condition, g) :=
         call (Embedding num_samples class_dim) [label] g in
       let '(condition, g) := call Flatten [condition] g in
       let '(condition, g) := call Concatenate [noise; condition] g in
       Ok (condition, g)
     else Ok (condition, g));
  cond_dim ← getattr self "cond_dim";
  activation ← getattr self "activation";
  let '(condition, g) := call (Dense cond_dim activation) [condition] g in
  (* Conditioned sample set *)
  max_set_size ← getattr self "max_set_size";
  embed_dim ← getattr self "embed_dim";
  let '(y, g) := call (SampleSet max_set_size embed_dim) [cardinality] g in
  stack ← getattr self "stack";
  count ← range stack;
  '(y, g) ← build_stack self condition count 0 y g;
  latent_dim ← getattr self "latent_dim";
  use_spectral_norm ← getattr self "use_spectral_norm";
  let '(y, g) := call (spectral_dense latent_dim use_spectral_norm) [y] g in
  include_class ← getattr self "include_class";
  if truthy include_class then
    label ← from_option Ok (Raise (NameError "label")) label;
    Ok (mkModel g [noise; label; cardinality] y)
  else Ok (mkModel g [noise; cardinality] y).

(** The assignments of [__init__] up to [self.model]. *)
Definition assign (a : Args) (self : gmap string value)
    : result (gmap string value) :=
  let self := <["max_set_size" := VInt (max_set_size a)]> self in
  let self := <["noise_dim" := VInt (noise_dim a)]> self in
  let self := <["embed_dim" := VInt (embed_dim a)]> self in
  let self := <["latent_dim" := VInt (latent_dim a)]> self in
  let self := <["stack" := VInt (stack a)]> self in
  let self := <["num_heads" := VInt (num_heads a)]> self in
  let self := <["num_anchors" := VInt (num_anchors a)]> self in
  let self := <["use_keras_mha" := VBool (use_keras_mha a)]> self in
  let self := <["use_spectral_norm" := VBool (use_spectral_norm a)]> self in
  let self := <["activation" := VStr (activation a)]> self in
  let self :=
    <["cond_dim" := match cond_dim a with
                    | Some c => VInt c
                    | None => VInt (embed_dim a)
                    end]> self in
  let self := <["ff_dim" := of_option (ff_dim a)]> self in
  self_ff_dim ← getattr self "ff_dim";
  let self :=
    <["mlp_dim" := match mlp_dim a with
                   | Some m => VInt m
                   | None => self_ff_dim
                   end]> self in
  let self := <["pre_layernorm" := VBool (pre_layernorm a)]> self in
  let self := <["include_class" := VBool (include_class a)]> self in
  let self := <["num_classes" := of_option (num_classes a)]> self in
  let self :=
    <["class_dim" := match class_dim a with
                     | Some c => VInt c
                     | None => VInt (noise_dim a)
                     end]> self in
  Ok self.

(** [get_config] *)
Definition get_config (self : gmap string value)
    : result (gmap string value) :=
  let config := CustomModel.get_config in
  max_set_size ← getattr self "max_set_size";
  noise_dim ← getattr self "noise_dim";
  embed_dim ← getattr self "embed_dim";
  latent_dim ← getattr self "latent_dim";
  stack ← getattr self "stack";
  num_heads ← getattr self "num_heads";
  num_anchors ← getattr self "num_anchors";
  use_keras_mha ← getattr self "use_keras_mha";
  use_spectral_norm ← getattr self "use_spectral_norm";
  activation ← getattr self "activation";
  cond_dim ← getattr self "cond_dim";
  ff_dim ← getattr self "ff_dim";
  mlp_dim ← getattr self "mlp_dim";
  pre_layernorm ← getattr self "pre_layernorm";
  include_class ← getattr self "include_class";
  num_classes ← getattr self "num_classes";
  class_dim ← getattr self "class_dim";
  Ok (update config
        [("max_set_size", max_set_size);
         ("noise_dim", noise_dim);
         ("embed_dim", embed_dim);
         ("latent_dim", latent_dim);
         ("stack", stack);
         ("num_heads", num_heads);
         ("num_anchors", num_anchors);
         ("use_keras_mha", use_keras_mha);
         ("use_spectral_norm", use_spectral_norm);
         ("activation", activation);
         ("cond_dim", cond_dim);
         ("ff_dim", ff_dim);
         ("mlp_dim", mlp_dim);
         ("pre_layernorm", pre_layernorm);
         ("include_class", include_class);
         ("num_classes", num_classes);
         ("class_dim", class_dim)]).

(** How a call with keyword arguments [kw] binds the parameters of
    [__init__]. *)
Definition bind_arguments (kw : gmap string value) : result Args :=
  max_set_size ← required kw "max_set_size" ≫= as_int;
  noise_dim ← required kw "noise_dim" ≫= as_int;
  embed_dim ← required kw "embed_dim" ≫= as_int;
  latent_dim ← required kw "latent_dim" ≫= as_int;
  stack ← required kw "stack" ≫= as_int;
  num_heads ← required kw "num_heads" ≫= as_int;
  num_anchors ← required kw "num_anchors" ≫= as_int;
  use_keras_mha ← as_bool (default (VBool false) (kw !! "use_keras_mha"));
  use_spectral_norm ←
    as_bool (default (VBool true) (kw !! "use_spectral_norm"));
  activation ← as_str (default (VStr "relu") (kw !! "activation"));
  cond_dim ← as_optional_int (default VNone (kw !! "cond_dim"));
  ff_dim ← as_optional_int (default VNone (kw !! "ff_dim"));
  mlp_dim ← as_optional_int (default VNone (kw !! "mlp_dim"));
  pre_layernorm ← as_bool (default (VBool true) (kw !! "pre_layernorm"));
  include_class ← as_bool (default (VBool false) (kw !! "include_class"));
  num_classes ← as_optional_int (default VNone (kw !! "num_classes"));
  class_dim ← as_optional_int (default VNone (kw !! "class_dim"));
  Ok (mkArgs max_set_size noise_dim embed_dim latent_dim stack num_heads
        num_anchors use_keras_mha use_spectral_norm activation cond_dim
        ff_dim mlp_dim pre_layernorm include_class num_classes class_dim
        (foldr delete kw parameters)).

Section WithKeras.
Variable keras_Model_init : gmap string value → result (gmap string value).

(** [__init__] *)
Definition init (a : Args) : result Instance :=
  self ← CustomModel.init keras_Model_init (kwargs a);
  self ← assign a self;
  model ← build_model self;
  Ok (mkInstance self model).

(** The class called with keyword arguments. *)
Definition new (kw : gmap string value) : result Instance :=
  a ← bind_arguments kw;
  init a.

Definition from_config (config : gmap string value) : result Instance :=
  CustomModel.from_config new config.
End WithKeras.

End GastGenerator.

(** * common/models/gast.py: GastDiscriminator *)

Module GastDiscriminator.
Import Py Keras.

Record Args := mkArgs {
  latent_dim : Z;
  embed_dim : Z;
  stack : Z;
  num_heads : Z;
  num_anchors : Z;
  use_keras_mha : bool;          (* default False *)
  use_spectral_norm : bool;      (* default True *)
  activation : string;           (* default "relu" *)
  ff_dim : option Z;             (* default None *)
  pre_layernorm : bool;          (* default True *)
  num_classes : Z;               (* default 1 *)
  kwargs : gmap string value
}.

Record Instance := mkInstance {
  attrs : gmap string value;
  model : Model
}.

(** The [st.InducedSetEncoder(...)] of [build_model], which occurs twice
    with the same arguments. *)
Definition encoder (self : gmap string value) : result layer :=
  embed_dim ← getattr self "embed_dim";
  num_heads ← getattr self "num_heads";
  ff_dim ← getattr self "ff_dim";
  activation ← getattr self "activation";
  pre_layernorm ← getattr self "pre_layernorm";
  use_keras_mha ← getattr self "use_keras_mha";
  use_spectral_norm ← getattr self "use_spectral_norm";
  Ok (InducedSetEncoder (VInt 1)
        {| Keras.embed_dim := embed_dim;
           Keras.num_heads := num_heads;
           Keras.ff_dim := ff_dim;
           Keras.ff_activation := activation;
           Keras.prelayernorm := pre_layernorm;
           Keras.is_final := VBool true;
           Keras.use_keras_mha := use_keras_mha;
           Keras.use_spectral_norm := use_spectral_norm |}).

(** The loop [for i in range(self.stack)] of [build_model]. *)
Fixpoint build_stack (self : gmap string value) (count : nat) (i : Z)
    (y : tensor) (enc : list tensor) (g : list node)
    : result (tensor * list tensor * list node) :=
  match count with
  | O => Ok (y, enc, g)
  | S count' =>
      embed_dim ← getattr self "embed_dim";
      num_heads ← getattr self "num_heads";
      num_anchors ← getattr self "num_anchors";
      ff_dim ← getattr self "ff_dim";
      activation ← getattr self "activation";
      use_keras_mha ← getattr self "use_keras_mha";
      use_spectral_norm ← getattr self "use_spectral_norm";
      pre_layernorm ← getattr self "pre_layernorm";
      stack ← getattr self "stack";
      last ← minus stack 1;
      let '(y1, g) :=
        call (InducedSetAttentionBlock num_anchors
                {| Keras.embed_dim := embed_dim;
                   Keras.num_heads := num_heads;
                   Keras.ff_dim := ff_dim;
                   Keras.ff_activation := activation;
                   Keras.use_keras_mha := use_keras_mha;
                   Keras.use_spectral_norm := use_spectral_norm;
                   Keras.prelayernorm := pre_layernorm;
                   Keras.is_final := equal (VInt i) last |})
             [y] g in
      let '(y, g) := call Add [y; y1] g in
      ise ← encoder self;
      let '(e, g) := call ise [y] g in
      build_stack self count' (i + 1) y (enc ++ [e]) g
  end.

Definition build_model (self : gmap string value) : result Model :=
  let g := [] in
  latent_dim ← getattr self "latent_dim";
  let '(x, g) := call (Input [VNone; latent_dim] VNone VNone) [] g in
  let y := x in
  embed_dim ← getattr self "embed_dim";
  let '(y, g) := call (Dense embed_dim VNone) [y] g in
  (* Encode the original set *)
  ise ← encoder self;
  let '(e, g) := call ise [y] g in
  let enc := [e] in
  (* Pass the set through ISABs, encoding along the way *)
  stack ← getattr self "stack";
  count ← range stack;
  '(y, enc, g) ← build_stack self count 0 y enc g;
  let '(y, g) := call Concatenate enc g in
  num_classes ← getattr self "num_classes";
  units ← plus num_classes 1;
  let '(y, g) := call (Dense units (VStr "softmax")) [y] g in
  Ok (mkModel g [x] y).

Definition assign (a : Args) (self : gmap string value)
    : gmap string value :=
  let self := <["latent_dim" := VInt (latent_dim a)]> self in
  let self := <["embed_dim" := VInt (embed_dim a)]> self in
  let self := <["stack" := VInt (stack a)]> self in
  let self := <["num_heads" := VInt (num_heads a)]> self in
  let self := <["num_anchors" := VInt (num_anchors a)]> self in
  let self := <["use_keras_mha" := VBool (use_keras_mha a)]> self in
  let self := <["use_spectral_norm" := VBool (use_spectral_norm a)]> self in
  let self := <["activation" := VStr (activation a)]> self in
  let self := <["ff_dim" := of_option (ff_dim a)]> self in
  let self := <["pre_layernorm" := VBool (pre_layernorm a)]> self in
  let self := <["num_classes" := VInt (num_classes a)]> self in
  self.

(** The names of the parameters of [__init__]. *)
Definition parameters : list string :=
  ["latent_dim"; "embed_dim"; "stack"; "num_heads"; "num_anchors";
   "use_keras_mha"; "use_spectral_norm"; "activation"; "ff_dim";
   "pre_layernorm"; "num_classes"].

(** How a call with keyword arguments [kw] binds the parameters of
    [__init__]. *)
Definition bind_arguments (kw : gmap string value) : result Args :=
  latent_dim ← required kw "latent_dim" ≫= as_int;
  embed_dim ← required kw "embed_dim" ≫= as_int;
  stack ← required kw "stack" ≫= as_int;
  num_heads ← required kw "num_heads" ≫= as_int;
  num_anchors ← required kw "num_anchors" ≫= as_int;
  use_keras_mha ← as_bool (default (VBool false) (kw !! "use_keras_mha"));
  use_spectral_norm ←
    as_bool (default (VBool true) (kw !! "use_spectral_norm"));
  activation ← as_str (default (VStr "relu") (kw !! "activation"));
  ff_dim ← as_optional_int (default VNone (kw !! "ff_dim"));
  pre_layernorm ← as_bool (default (VBool true) (kw !! "pre_layernorm"));
  num_classes ← as_int (default (VInt 1) (kw !! "num_classes"));
  Ok (mkArgs latent_dim embed_dim stack num_heads num_anchors use_keras_mha
        use_spectral_norm activation ff_dim pre_layernorm num_classes
        (foldr delete kw parameters)).

Section WithKeras.
Variable keras_Model_init : gmap string value → result (gmap string value).

(** [__init__] *)
Definition init (a : Args) : result Instance :=
  self ← CustomModel.init keras_Model_init (kwargs a);
  let self := assign a self in
  model ← build_model self;
  Ok (mkInstance self model).

(** The class called with keyword arguments. *)
Definition new (kw : gmap string value) : result Instance :=
  a ← bind_arguments kw;
  init a.
End WithKeras.

End GastDiscriminator.

(** ** The GAST models *)

Module GastSpec.
Import Py Keras.

(** The attributes listed in [recorded] have their values in [self]. *)
Definition holds (recorded : list (string * value))
    (self : gmap string value) : Prop :=
  Forall (λ kv, self !! kv.1 = Some kv.2) recorded.

(** The [use_spectral_norm] argument of an attention layer or spectral
    projection; the other layers have none. *)
Definition spectral_norm_flag (l : layer) : option value :=
  match l with
  | ConditionedSetAttentionBlock _ args
  | InducedSetAttentionBlock _ args
  | InducedSetEncoder _ args => Some (use_spectral_norm args)
  | spectral_dense _ flag => Some flag
  | _ => None
  end.

(** The flags of the layers of a model, in construction order. *)
Definition spectral_norm_flags (m : Model) : list value :=
  omap (λ n, spectral_norm_flag (node_layer n)) (graph m).

(** The [num_anchors] of a conditioned block, the [num_induce] of an
    induced block. *)
Definition anchors (l : layer) : option value :=
  match l with
  | ConditionedSetAttentionBlock k _ => Some k
  | InducedSetAttentionBlock k _ => Some k
  | _ => None
  end.

(** The anchor counts of the blocks of a model, in construction order. *)
Definition stack_anchors (m : Model) : list value :=
  omap (λ n, anchors (node_layer n)) (graph m).

(** Keras defines no attribute [num_samples] on a model. *)
Definition keras_has_no_num_samples
    (keras_Model_init : gmap string value → result (gmap string value))
    : Prop :=
  ∀ kw base, keras_Model_init kw = Ok base → base !! "num_samples" = None.

End GastSpec.

Module GeneratorSpec.
Import Py Keras GastGenerator.

Definition resolved_cond_dim (a : Args) : Z :=
  match cond_dim a with Some c => c | None => embed_dim a end.
Definition resolved_mlp_dim (a : Args) : option Z :=
  match mlp_dim a with Some m => Some m | None => ff_dim a end.
Definition resolved_class_dim (a : Args) : Z :=
  match class_dim a with Some c => c | None => noise_dim a end.

(** The seventeen attribute values [__init__] leaves in the instance. *)
Definition recorded (a : Args) : list (string * value) :=
  [("max_set_size", VInt (max_set_size a));
   ("noise_dim", VInt (noise_dim a));
   ("embed_dim", VInt (embed_dim a));
   ("latent_dim", VInt (latent_dim a));
   ("stack", VInt (stack a));
   ("num_heads", VInt (num_heads a));
   ("num_anchors", VInt (num_anchors a));
   ("use_keras_mha", VBool (use_keras_mha a));
   ("use_spectral_norm", VBool (use_spectral_norm a));
   ("activation", VStr (activation a));
   ("cond_dim", VInt (resolved_cond_dim a));
   ("ff_dim", of_option (ff_dim a));
   ("mlp_dim", of_option (resolved_mlp_dim a));
   ("pre_layernorm", VBool (pre_layernorm a));
   ("include_class", VBool (include_class a));
   ("num_classes", of_option (num_classes a));
   ("class_dim", VInt (resolved_class_dim a))].

(** The arguments of block [i] of the stack. *)
Definition block_args (a : Args) (i : nat) : set_attention :=
  {| Keras.embed_dim := VInt (latent_dim a);
     Keras.num_heads := VInt (num_heads a);
     Keras.ff_dim := of_option (ff_dim a);
     Keras.ff_activation := VStr (activation a);
     Keras.use_keras_mha := VBool (use_keras_mha a);
     Keras.use_spectral_norm := VBool (use_spectral_norm a);
     Keras.prelayernorm := VBool (pre_layernorm a);
     Keras.is_final := VBool (Z.of_nat i =? stack a - 1)%Z |}.

(** Block [i] of the stack, in a graph whose condition is tensor [2 + o]:
    tensor [3 + o + 2 i] enters, is conditioned, and is added to the
    result, which leaves as tensor [5 + o + 2 i]. *)
Definition expected_block (a : Args) (o i : nat) : list node :=
  [mkNode (ConditionedSetAttentionBlock (VInt (num_anchors a))
             (block_args a i))
          [3 + o + 2 * i; 2 + o];
   mkNode Add [3 + o + 2 * i; 4 + o + 2 * i]].

Definition expected_stack (a : Args) (o : nat) : list node :=
  flat_map (expected_block a o) (seq 0 (Z.to_nat (stack a))).

Definition projection (a : Args) : layer :=
  spectral_dense (VInt (latent_dim a)) (VBool (use_spectral_norm a)).

(** The model of a generator without class labels: the noise (tensor 0) is
    projected to the condition (tensor 2), the cardinality (tensor 1)
    selects the sample set (tensor 3), the stack conditions the set, and
    the result is projected to [latent_dim]. *)
Definition expected_model (a : Args) : Model :=
  {| graph :=
       [mkNode (Input [VInt (noise_dim a)] VNone (VStr "noise")) [];
        mkNode (Input [VInt 1] (VStr "int32") (VStr "cardinality")) [];
        mkNode (Dense (VInt (resolved_cond_dim a)) (VStr (activation a)))
               [0];
        mkNode (SampleSet (VInt (max_set_size a)) (VInt (embed_dim a))) [1]]
       ++ expected_stack a 0
       ++ [mkNode (projection a) [3 + 2 * Z.to_nat (stack a)]];
     inputs := [0; 1];
     outputs := 4 + 2 * Z.to_nat (stack a) |}.

(** The model [build_model] would return with class labels, were
    [self.num_samples] defined: the label (tensor 2) is embedded and joined
    to the noise before the projection to the condition (tensor 6). *)
Definition expected_class_model (a : Args) (num_samples : value) : Model :=
  {| graph :=
       [mkNode (Input [VInt (noise_dim a)] VNone (VStr "noise")) [];
        mkNode (Input [VInt 1] (VStr "int32") (VStr "cardinality")) [];
        mkNode (Input [VInt 1] (VStr "int32") (VStr "label")) [];
        mkNode (Embedding num_samples (VInt (resolved_class_dim a))) [2];
        mkNode Flatten [3];
        mkNode Concatenate [0; 4];
        mkNode (Dense (VInt (resolved_cond_dim a)) (VStr (activation a)))
               [5];
        mkNode (SampleSet (VInt (max_set_size a)) (VInt (embed_dim a))) [1]]
       ++ expected_stack a 4
       ++ [mkNode (projection a) [7 + 2 * Z.to_nat (stack a)]];
     inputs := [0; 2; 1];
     outputs := 8 + 2 * Z.to_nat (stack a) |}.

(** The arguments that [from_config] binds from a recorded configuration:
    the defaulted dimensions are explicit, and no keyword argument is left
    for Keras. *)
Definition normalised (a : Args) : Args :=
  {| max_set_size := max_set_size a; noise_dim := noise_dim a;
     embed_dim := embed_dim a; latent_dim := latent_dim a;
     stack := stack a; num_heads := num_heads a;
     num_anchors := num_anchors a; use_keras_mha := use_keras_mha a;
     use_spectral_norm := use_spectral_norm a; activation := activation a;
     cond_dim := Some (resolved_cond_dim a); ff_dim := ff_dim a;
     mlp_dim := resolved_mlp_dim a; pre_layernorm := pre_layernorm a;
     include_class := include_class a; num_classes := num_classes a;
     class_dim := Some (resolved_class_dim a); kwargs := ∅ |}.

End GeneratorSpec.

Module DiscriminatorSpec.
Import Py Keras GastDiscriminator.

(** The eleven attribute values [__init__] leaves in the instance. *)
Definition recorded (a : Args) : list (string * value) :=
  [("latent_dim", VInt (latent_dim a));
   ("embed_dim", VInt (embed_dim a));
   ("stack", VInt (stack a));
   ("num_heads", VInt (num_heads a));
   ("num_anchors", VInt (num_anchors a));
   ("use_keras_mha", VBool (use_keras_mha a));
   ("use_spectral_norm", VBool (use_spectral_norm a));
   ("activation", VStr (activation a));
   ("ff_dim", of_option (ff_dim a));
   ("pre_layernorm", VBool (pre_layernorm a));
   ("num_classes", VInt (num_classes a))].

Definition attention_args (a : Args) (final : bool) : set_attention :=
  {| Keras.embed_dim := VInt (embed_dim a);
     Keras.num_heads := VInt (num_heads a);
     Keras.ff_dim := of_option (ff_dim a);
     Keras.ff_activation := VStr (activation a);
     Keras.use_keras_mha := VBool (use_keras_mha a);
     Keras.use_spectral_norm := VBool (use_spectral_norm a);
     Keras.prelayernorm := VBool (pre_layernorm a);
     Keras.is_final := VBool final |}.

Definition encoder_layer (a : Args) : layer :=
  InducedSetEncoder (VInt 1) (attention_args a true).

(** Block [i] of the stack: tensor [1 + 3 i] enters, passes the induced
    block, is added to the result (tensor [4 + 3 i]), and the sum is
    encoded (tensor [5 + 3 i]). *)
Definition expected_block (a : Args) (i : nat) : list node :=
  [mkNode (InducedSetAttentionBlock (VInt (num_anchors a))
             (attention_args a (Z.of_nat i =? stack a - 1)%Z))
          [1 + 3 * i];
   mkNode Add [1 + 3 * i; 3 + 3 * i];
   mkNode (encoder_layer a) [4 + 3 * i]].

(** The encodings concatenated at the end. *)
Definition expected_encodings (j count : nat) : list tensor :=
  (λ i, 5 + 3 * i) <$> seq j count.

Definition expected_model (a : Args) : Model :=
  {| graph :=
       [mkNode (Input [VNone; VInt (latent_dim a)] VNone VNone) [];
        mkNode (Dense (VInt (embed_dim a)) VNone) [0];
        mkNode (encoder_layer a) [1]]
       ++ flat_map (expected_block a) (seq 0 (Z.to_nat (stack a)))
       ++ [mkNode Concatenate
                  (2 :: expected_encodings 0 (Z.to_nat (stack a)));
           mkNode (Dense (VInt (num_classes a + 1)) (VStr "softmax"))
                  [3 + 3 * Z.to_nat (stack a)]];
     inputs := [0];
     outputs := 4 + 3 * Z.to_nat (stack a) |}.

End DiscriminatorSpec.

Module GastExamples.
Import Py Keras.

(** A stand-in for [keras.Model.__init__] that knows the keyword [name]
    only. *)
Definition keras_Model_init (kw : gmap string value)
    : result (gmap string value) :=
  match map_to_list (delete "name" kw) with
  | [] => Ok {["name" := default (VStr "model") (kw !! "name")]}
  | _ :: _ => Raise (TypeError "unexpected keyword argument")
  end.

(** [GastGenerator(32, 64, 16, 16, 2, 4, 8)], with [include_class] as
    given. *)
Definition generator_args (include_class : bool) : GastGenerator.Args :=
  GastGenerator.mkArgs 32 64 16 16 2 4 8 false true "relu" None None None
    true include_class None None ∅.

(** [GastDiscriminator(16, 16, 2, 4, 8)] *)
Definition discriminator_args : GastDiscriminator.Args :=
  GastDiscriminator.mkArgs 16 16 2 4 8 false true "relu" None true 1 ∅.

End GastExamples.

(** * common/models/gast.py: the shape of the networks *)

Module GastShape.
Import Py Keras.

(** The [is_final] argument of an attention block. *)
Definition final_flag (l : layer) : option value :=
  match l with
  | ConditionedSetAttentionBlock _ args
  | InducedSetAttentionBlock _ args => Some (is_final args)
  | _ => None
  end.

(** The [is_final] arguments of the blocks of a model, in construction
    order. *)
Definition final_flags (m : Model) : list value :=
  omap (λ n, final_flag (node_layer n)) (graph m).

(** [is_final] is [False] for all blocks but the last of [n]. *)
Definition last_only (n : nat) : list value :=
  match n with
  | O => []
  | S k => replicate k (VBool false) ++ [VBool true]
  end.

(** The arguments of a set encoder. *)
Definition set_encoder (l : layer) : option (value * set_attention) :=
  match l with
  | InducedSetEncoder num_seeds args => Some (num_seeds, args)
  | _ => None
  end.

(** The set encoders of a model, in construction order. *)
Definition set_encoders (m : Model) : list (value * set_attention) :=
  omap (λ n, set_encoder (node_layer n)) (graph m).

(** The layer that produced tensor [t]. *)
Definition producer (m : Model) (t : tensor) : option layer :=
  node_layer <$> graph m !! t.

(** The node that produces the output of a model. *)
Definition output_node (m : Model) : option node :=
  graph m !! outputs m.

(** A generator's arguments with other values for [mlp_dim],
    [num_classes] and [class_dim]. *)
Definition with_unused (a : GastGenerator.Args)
    (mlp_dim num_classes class_dim : option Z) : GastGenerator.Args :=
  {| GastGenerator.max_set_size := GastGenerator.max_set_size a;
     GastGenerator.noise_dim := GastGenerator.noise_dim a;
     GastGenerator.embed_dim := GastGenerator.embed_dim a;
     GastGenerator.latent_dim := GastGenerator.latent_dim a;
     GastGenerator.stack := GastGenerator.stack a;
     GastGenerator.num_heads := GastGenerator.num_heads a;
     GastGenerator.num_anchors := GastGenerator.num_anchors a;
     GastGenerator.use_keras_mha := GastGenerator.use_keras_mha a;
     GastGenerator.use_spectral_norm := GastGenerator.use_spectral_norm a;
     GastGenerator.activation := GastGenerator.activation a;
     GastGenerator.cond_dim := GastGenerator.cond_dim a;
     GastGenerator.ff_dim := GastGenerator.ff_dim a;
     GastGenerator.mlp_dim := mlp_dim;
     GastGenerator.pre_layernorm := GastGenerator.pre_layernorm a;
     GastGenerator.include_class := GastGenerator.include_class a;
     GastGenerator.num_classes := num_classes;
     GastGenerator.class_dim := class_dim;
     GastGenerator.kwargs := GastGenerator.kwargs a |}.

(** The keyword arguments of
    [GastGenerator(max_set_size=32, noise_dim=64, embed_dim=16,
    latent_dim=16, stack=2, num_heads=4, num_anchors=8)]. *)
Definition generator_keywords : gmap string value :=
  list_to_map
    [("max_set_size", VInt 32); ("noise_dim", VInt 64);
     ("embed_dim", VInt 16); ("latent_dim", VInt 16); ("stack", VInt 2);
     ("num_heads", VInt 4); ("num_anchors", VInt 8)].

End GastShape.

(** [GastDiscriminator] defines no [get_config]: it has the one of
    [CustomModel], and [from_config] calls the class on its result. *)
Module GastDiscriminatorConfig.
Import Py.

Definition get_config (self : gmap string value) : gmap string value :=
  CustomModel.get_config.

Section WithKeras.
Variable keras_Model_init : gmap string value → result (gmap string value).

Definition from_config (config : gmap string value)
    : result GastDiscriminator.Instance :=
  CustomModel.from_config (GastDiscriminator.new keras_Model_init) config.
End WithKeras.

End GastDiscriminatorConfig.

(** * deepdna/nn/models/custom_model.py: training *)

Module CustomModelFit.
Import Py.

(** How a call ends: it returns, it raises an exception of [Py], or an
    [assert] fails. *)
Inductive outcome (A : Type) :=
| Returns (a : A)
| Raises (e : exn)
| AssertionError (message : string).
Arguments Returns {A}.
Arguments Raises {A}.
Arguments AssertionError {A}.

Definition run {A} (r : result A) : outcome A :=
  match r with
  | Ok a => Returns a
  | Raise e => Raises e
  end.

(** [del self.x] *)
Definition delattr (self : gmap string value) (x : string)
    : result (gmap string value) :=
  match self !! x with
  | Some _ => Ok (delete x self)
  | None => Raise (AttributeError x)
  end.

(** [a != b] *)
Definition differ (a b : value) : bool := negb (truthy (equal a b)).

Section WithKeras.
(** [GradientAccumulator(self.trainable_weights)] for the instance
    [self]. *)
Variable GradientAccumulator : gmap string value → result value.

(** [keras.Model.fit] with the remaining arguments of the call: the
    history it returns and the instance as training leaves it. *)
Variable History : Type.
Variable keras_Model_fit :
  gmap string value → result (History * gmap string value).

(** [fit] *)
Definition fit (self : gmap string value) (accumulation_steps : Z)
    : outcome (History * gmap string value) :=
  if negb (0 <? accumulation_steps)%Z
  then AssertionError "Accumulation steps cannot be less than 1."
  else run (
    current ← getattr self "_accumulation_steps";
    let self :=
      if differ (VInt accumulation_steps) current
      then <["train_function" := VNone]>
             (<["_accumulation_steps" := VInt accumulation_steps]> self)
      else self in
    self ←
      (if (1 <? accumulation_steps)%Z
       then accumulator ← GradientAccumulator self;
            Ok (<["_gradient_accumulator" := accumulator]> self)
       else Ok self);
    '(history, self) ← keras_Model_fit self;
    self ← delattr self "_gradient_accumulator";
    Ok (history, self)).

(** Training leaves the accumulator of an instance as it is. *)
Definition fit_keeps_accumulator : Prop :=
  ∀ self history self',
    keras_Model_fit self = Ok (history, self') →
    self' !! "_gradient_accumulator" = self !! "_gradient_accumulator".
End WithKeras.

(** The property [subbatch_size]: inside the class [CustomModel] the name
    [__subbatch_size] stands for [_CustomModel__subbatch_size]. *)
Definition subbatch_size (self : gmap string value) : result value :=
  getattr self "_CustomModel__subbatch_size".

(** Keras defines no attribute [x] on a model. *)
Definition keras_defines_no (x : string)
    (keras_Model_init : gmap string value → result (gmap string value))
    : Prop :=
  ∀ kw base, keras_Model_init kw = Ok base → base !! x = None.

(** Stand-ins for the accumulator and for [keras.Model.fit]: training
    returns a history and leaves the attributes as they are. *)
Definition accumulator_stand_in (self : gmap string value) : result value :=
  Ok (VStr "accumulator").
Definition fit_stand_in (self : gmap string value)
    : result (string * gmap string value) :=
  Ok ("history", self).

End CustomModelFit.

(** * Proofs *)

(** ** Floats *)

Module FloatFacts.
Import Float.








End FloatFacts.

(** ** The dataset-preparation script *)

Module DatasetFacts.
Import PrepareLocalDataset DatasetSpec.

Local Arguments Ascii.eqb : simpl never.

Lemma starts_with_app p l :
  Py.starts_with p l = true → ∃ l', l = p ++ l'.
Proof.
  revert l. induction p as [|a p IH]; intros l H.
  - by exists l.
  - destruct l as [|b l]; [done|]. simpl in H.
    apply andb_true_iff in H as [Hab Hp].
    apply Ascii.eqb_eq in Hab as ->.
    destruct (IH _ Hp) as [l' ->]. by exists l'.
Qed.

Lemma of_chars_chars s : Py.of_chars (Py.chars s) = s.
Proof. apply string_of_list_ascii_of_string. Qed.

Lemma chars_rev_rev s r : rev (Py.chars s) = r → Py.chars s = rev r.
Proof. intros <-. by rewrite rev_involutive. Qed.

Lemma rstrip_plain s c r :
  rev (Py.chars s) = c :: r → Py.char_in ".gz" c = false →
  Py.rstrip s ".gz" = s ∧ remove_gz_suffix s = s.
Proof.
  intros Hr Hc. unfold Py.rstrip, remove_gz_suffix, Py.endswith.
  rewrite Hr. simpl. rewrite Hc. split.
  - rewrite <- Hr, rev_involutive. apply of_chars_chars.
  - unfold Py.char_in in Hc. simpl in Hc.
    apply orb_false_iff in Hc as [_ Hc].
    apply orb_false_iff in Hc as [_ Hc].
    apply orb_false_iff in Hc as [Hz _].
    rewrite Ascii.eqb_sym in Hz. by rewrite Hz.
Qed.

Lemma rstrip_gz s c r :
  rev (Py.chars s) = rev (Py.chars ".gz") ++ c :: r →
  Py.char_in ".gz" c = false →
  Py.rstrip s ".gz" = remove_gz_suffix s.
Proof.
  intros Hr Hc. unfold Py.rstrip, remove_gz_suffix, Py.endswith.
  rewrite Hr. simpl. rewrite Hc. f_equal.
  apply chars_rev_rev in Hr. rewrite Hr. simpl.
  generalize (rev r ++ [c]). intros l.
  rewrite <- !app_assoc. simpl.
  rewrite length_app. simpl.
  replace (length l + 3 - 3) with (length l) by lia.
  by rewrite take_app_length.
Qed.

Lemma rstrip_accepted (file : Path) :
  is_fasta file || is_fastq file = true →
  Py.rstrip (name file) ".gz" = remove_gz_suffix (name file).
Proof.
  unfold is_fasta, is_fastq, Py.endswith. intros H.
  repeat (apply orb_true_iff in H as [H|H]);
    apply starts_with_app in H as [r Hr]; simpl in Hr.
  - by destruct (rstrip_plain _ _ _ Hr eq_refl) as [-> ->].
  - by apply (rstrip_gz _ "a"%char (rev (Py.chars ".fast") ++ r)).
  - by destruct (rstrip_plain _ _ _ Hr eq_refl) as [-> ->].
  - by apply (rstrip_gz _ "q"%char (rev (Py.chars ".fast") ++ r)).
Qed.









Section ScriptFacts.
Variable Rng : Type.
Variable shuffle : ∀ A : Type, Rng → list A → list A * Rng.
Hypothesis shuffle_perm : ∀ A rng (l : list A), (shuffle A rng l).1 ≡ₚ l.



Variable ALL_BASES : string.
Variable fasta_entries : Path → list FastaEntry.
Variable fastq_entries : Path → list FastqEntry.
Variable path_exists : Path → bool.




Lemma not_accepted_unknown file :
  is_fasta file = false → is_fastq file = false → unknown_type file.
Proof.
  unfold is_fasta, is_fastq, unknown_type. intros Ha Hq.
  apply orb_false_iff in Ha as [? ?]. apply orb_false_iff in Hq as [? ?].
  done.
Qed.

Lemma unknown_not_accepted file :
  unknown_type file → is_fasta file = false ∧ is_fastq file = false.
Proof.
  unfold is_fasta, is_fastq. intros (-> & -> & -> & ->). done.
Qed.

Lemma check_files_None files : ∀ fa fq,
  check_files path_exists files fa fq = None ↔
  Exists (λ file, path_exists file = false) files
  ∨ Exists unknown_type files.
Proof.
  induction files as [|file rest IH]; intros fa fq; simpl.
  - split; [done|]. intros [H|H]; inversion H.
  - destruct (path_exists file) eqn:He; simpl.
    + destruct (is_fasta file) eqn:Ha; [|destruct (is_fastq file) eqn:Hq].
      * rewrite IH. rewrite !Exists_cons.
        split; [tauto|]. intros [[?|?]|[Hu|?]]; try tauto; try congruence.
        apply unknown_not_accepted in Hu as [? ?]. congruence.
      * rewrite IH. rewrite !Exists_cons.
        split; [tauto|]. intros [[?|?]|[Hu|?]]; try tauto; try congruence.
        apply unknown_not_accepted in Hu as [? ?]. congruence.
      * split; [|done]. intros _. right. apply Exists_cons. left.
        by apply not_accepted_unknown.
    + split; [|done]. intros _. left. apply Exists_cons. by left.
Qed.

Local Abbreviation main :=
  (main Rng shuffle ALL_BASES fasta_entries fastq_entries path_exists).

Lemma main_cases config rng0 :
  (invalid_input path_exists config ∧ main config rng0 = (Some 1%Z, []))
  ∨ (¬ invalid_input path_exists config ∧ (main config rng0).1 = None).
Proof.
  unfold PrepareLocalDataset.main, invalid_input.
  destruct (path_exists (parent (output_path config))) eqn:Hp; simpl;
    [|left; split; [by left|done]].
  destruct ((1 <? num_splits config)%Z && Qeq_bool (test_split config) 0)
    eqn:Hs.
  { left. split; [|done]. right. left.
    apply andb_true_iff in Hs as [Hn Ht].
    apply Z.ltb_lt in Hn. by apply Qeq_bool_iff in Ht. }
  destruct (negb (output_fasta_fastq config) && negb (output_db config)) eqn:Ho.
  { left. split; [|done]. right. right. left.
    apply andb_true_iff in Ho as [Ha Hb].
    by apply negb_true_iff in Ha, Hb. }
  destruct (check_files path_exists (data_files config) [] [])
    as [[fa fq]|] eqn:Hc.
  - right. split.
    + intros [H|[[Hn Ht]|[[Ha Hb]|H]]].
      * done.
      * apply Z.ltb_lt in Hn. apply Qeq_bool_iff in Ht.
        rewrite Hn, Ht in Hs. done.
      * rewrite Ha, Hb in Ho. done.
      * apply check_files_None with (fa := []) (fq := []) in H. congruence.
    + destruct (0 <? length fa)%nat;
        [destruct (process_fasta_files _ _ _ _ _ _ _ _) as [[? ?] ?]|];
        (destruct (0 <? length fq)%nat;
          [destruct (process_fastq_files _ _ _ _ _ _ _) as [[? ?] ?]|]); done.
  - left. split; [|done]. right. right. right.
    by apply check_files_None in Hc.
Qed.

(** C2. [main] returns 1 exactly on the five input errors: the parent of
    the output path does not exist, several splits are asked for without a
    test fraction, no output format is selected, a data file does not
    exist, or the name of a data file has none of the endings [.fasta],
    [.fasta.gz], [.fastq], [.fastq.gz]. It then has created no directory
    and written no file. *)
Theorem C2_main_rejects_invalid_input config rng0 :
  ((main config rng0).1 = Some 1%Z ↔ invalid_input path_exists config)
  ∧ ((main config rng0).1 = Some 1%Z → (main config rng0).2 = []).
Proof.
  destruct (main_cases config rng0) as [[Hi Hm]|[Hi Hm]].
  - rewrite Hm. simpl. done.
  - rewrite Hm. split; [split; [done|by intros ?]|done].
Qed.



Lemma name_div p s : name (p // s) = s.
Proof. unfold name, div. simpl. apply last_last. Qed.

Lemma written_paths_app u v :
  written_paths (u ++ v) = written_paths u ++ written_paths v.
Proof. apply omap_app. Qed.

Lemma written_paths_fasta ws :
  written_paths (WriteFasta <$> ws) = w_path <$> ws.
Proof.
  unfold written_paths. induction ws as [|w ws IH]; simpl; [done|].
  by f_equal.
Qed.

Lemma written_paths_fastq ws :
  written_paths (WriteFastq <$> ws) = w_path <$> ws.
Proof.
  unfold written_paths. induction ws as [|w ws IH]; simpl; [done|].
  by f_equal.
Qed.

Lemma written_paths_compress fs : written_paths (Compress <$> fs) = [].
Proof. induction fs as [|f fs IH]; [done|]. done. Qed.

End ScriptFacts.






Import DatasetExamples.



End DatasetFacts.

(** ** The class weights *)

Module WeightsFacts.
Import Py SfdFinetune WeightsSpec.

Lemma sum_pairs_perm l1 l2 : l1 ≡ₚ l2 → sum_pairs l1 = sum_pairs l2.
Proof.
  induction 1; simpl; lia.
Qed.

Lemma sum_values_pairs d : sum_values d = sum_pairs (map_to_list d).
Proof.
  unfold sum_values, sum_pairs. rewrite map_fold_foldr.
  induction (map_to_list d) as [|[k v] l IH]; simpl; [done|]. by rewrite IH.
Qed.

Lemma update_foldr {V} (pairs : list (string * V)) (d : gmap string V) :
  update d pairs = foldr (λ kv, <[kv.1 := kv.2]>) d (rev pairs).
Proof.
  unfold update. revert d.
  induction pairs as [|kv pairs IH]; intros d; simpl; [done|].
  by rewrite IH, foldr_app.
Qed.

Lemma dict_list_to_map {V} (pairs : list (string * V)) :
  dict pairs = list_to_map (rev pairs).
Proof. apply update_foldr. Qed.

Lemma dict_nodup {V} (pairs : list (string * V)) :
  NoDup pairs.*1 →
  (∀ k v, (k, v) ∈ pairs → dict pairs !! k = Some v) ∧
  size (dict pairs) = length pairs ∧
  map_to_list (dict pairs) ≡ₚ pairs.
Proof.
  intros Hnd. rewrite dict_list_to_map.
  assert (Hperm : rev pairs ≡ₚ pairs) by (symmetry; apply Permutation_rev).
  assert (Hrev : NoDup (rev pairs).*1) by by rewrite Hperm.
  split; [|split].
  - intros k v Hin. apply elem_of_list_to_map_1; [done|]. by rewrite Hperm.
  - rewrite map_size_list_to_map by done. by rewrite length_rev.
  - by rewrite map_to_list_to_map.
Qed.

Lemma for_each_ok {A B} (f : A → result B) (g : A → B) l :
  (∀ x, x ∈ l → f x = Ok (g x)) → for_each f l = Ok (g <$> l).
Proof.
  induction l as [|x l IH]; intros H; simpl; [done|].
  rewrite (H x) by by left. simpl.
  rewrite IH; [done|]. intros y Hy. apply H. by right.
Qed.

Lemma elem_of_filter_bool {A} (f : A → bool) (l : list A) x :
  x ∈ List.filter f l ↔ x ∈ l ∧ f x = true.
Proof. by rewrite !list_elem_of_In, filter_In. Qed.

Lemma retained_spec targets loaded s :
  s ∈ retained targets loaded
  ↔ s ∈ loaded ∧ is_Some (targets !! name s).
Proof.
  unfold retained. rewrite !elem_of_filter_bool, !bool_decide_eq_true.
  rewrite elem_of_intersection, elem_of_list_to_set, elem_of_dom,
    list_elem_of_fmap.
  split; [tauto|]. intros [Hs Ht]. repeat split; try done.
  exists s. split; [done|].
  by rewrite elem_of_filter_bool, bool_decide_eq_true, elem_of_dom.
Qed.

Lemma NoDup_names_filter (f : Sample → bool) l :
  NoDup (name <$> l) → NoDup (name <$> List.filter f l).
Proof.
  induction l as [|x l IH]; simpl; [done|]. intros Hnd.
  apply NoDup_cons in Hnd as [Hx Hl].
  destruct (f x); simpl; [|by apply IH].
  apply NoDup_cons. split; [|by apply IH].
  intros Hin. apply Hx. apply list_elem_of_fmap in Hin as (y & -> & Hy).
  apply list_elem_of_fmap. exists y. split; [done|].
  by apply elem_of_filter_bool in Hy as [Hy _].
Qed.

Lemma retained_nodup targets loaded :
  NoDup (name <$> loaded) → NoDup (name <$> retained targets loaded).
Proof. intros H. unfold retained. by do 2 apply NoDup_names_filter. Qed.

Lemma sum_pairs_count (f : Sample → bool) l :
  sum_pairs ((λ s, (name s, f s)) <$> l) = Z.of_nat (count true (f <$> l)).
Proof.
  unfold count, sum_pairs. induction l as [|x l IH]; csimpl; [done|].
  rewrite IH. destruct (f x); simpl; lia.
Qed.

Lemma count_total labels :
  count true labels + count false labels = length labels.
Proof.
  unfold count. induction labels as [|[] l IH]; simpl; lia.
Qed.

Lemma count_true_pos (l : list bool) :
  true ∈ l → 0 < count true l.
Proof.
  unfold count. induction l as [|b l IH]; intros H.
  - by apply elem_of_nil in H.
  - destruct b; simpl; [lia|]. apply elem_of_cons in H as [?|H]; [done|auto].
Qed.

Lemma count_false_pos (l : list bool) :
  false ∈ l → 0 < count false l.
Proof.
  unfold count. induction l as [|b l IH]; intros H.
  - by apply elem_of_nil in H.
  - destruct b; simpl; [|lia]. apply elem_of_cons in H as [?|H]; [done|auto].
Qed.

(** What [class_weights] returns when the names of the retained samples
    are distinct. *)
Lemma class_weights_value metadata loaded :
  NoDup (name <$> retained (dict metadata) loaded) →
  let targets := dict metadata in
  let samples := retained targets loaded in
  let labels := label targets <$> samples in
  class_weights metadata loaded =
    Ok ((λ s, if label targets s
              then (half / Qc_of_Z (Z.of_nat (count true labels)))%Qc
              else (half / Qc_of_Z (Z.of_nat (count false labels)))%Qc)
          <$> samples).
Proof.
  intros Hnd targets samples labels. unfold class_weights.
  fold targets. fold samples.
  rewrite (for_each_ok _ (λ s, (name s, label targets s))).
  2:{ intros s Hs. apply retained_spec in Hs as [_ [t Ht]].
      unfold getitem, label. fold targets. by rewrite Ht. }
  simpl.
  set (pairs := (λ s, (name s, label targets s)) <$> samples).
  assert (Hpairs : NoDup pairs.*1).
  { unfold pairs. by rewrite <- list_fmap_compose. }
  destruct (dict_nodup pairs Hpairs) as (Hlook & Hsize & Hlist).
  assert (Hpos : sum_values (dict pairs) = Z.of_nat (count true labels)).
  { rewrite sum_values_pairs, (sum_pairs_perm _ _ Hlist).
    apply sum_pairs_count. }
  assert (Hneg : (Z.of_nat (size (dict pairs)) - sum_values (dict pairs))%Z
                 = Z.of_nat (count false labels)).
  { rewrite Hpos, Hsize. unfold pairs. rewrite length_fmap.
    pose proof (count_total labels) as Hc. unfold labels in *.
    rewrite length_fmap in Hc. lia. }
  rewrite Hneg, Hpos.
  apply for_each_ok. intros s Hs.
  unfold getitem. rewrite (Hlook (name s) (label targets s)).
  2:{ unfold pairs. apply list_elem_of_fmap. by exists s. }
  simpl. unfold truediv. destruct (label targets s) eqn:Hl.
  - assert (0 < count true labels).
    { apply count_true_pos. rewrite <- Hl. unfold labels.
      apply list_elem_of_fmap. by exists s. }
    destruct (Z.eqb_spec (Z.of_nat (count true labels)) 0); [lia|done].
  - assert (0 < count false labels).
    { apply count_false_pos. rewrite <- Hl. unfold labels.
      apply list_elem_of_fmap. by exists s. }
    destruct (Z.eqb_spec (Z.of_nat (count false labels)) 0); [lia|done].
Qed.


Lemma of_nat_0 : of_nat 0 = 0%Qc.
Proof. apply Z2Qc_inj_0. Qed.

Local Arguments of_nat : simpl never.

Lemma of_nat_S n : of_nat (S n) = (1 + of_nat n)%Qc.
Proof.
  unfold of_nat. rewrite Nat2Z.inj_succ, <- Z.add_1_l, Z2Qc_inj_add.
  by rewrite Z2Qc_inj_1.
Qed.

Lemma of_nat_nonzero n : 0 < n → of_nat n ≠ 0%Qc.
Proof.
  intros Hn H. unfold of_nat in H. rewrite <- Z2Qc_inj_0 in H.
  apply Z2Qc_inj in H. lia.
Qed.

Lemma half_half : (half + half = 1)%Qc.
Proof. by apply Qc_is_canon. Qed.

Section Weights.
Variables (lab : Sample → bool) (a b : Qc).
Let weight (s : Sample) : Qc := if lab s then a else b.

Lemma total_weights samples :
  total (weight <$> samples)
  = (of_nat (count true (lab <$> samples)) * a
     + of_nat (count false (lab <$> samples)) * b)%Qc.
Proof.
  unfold count, weight. induction samples as [|s l IH]; csimpl.
  - rewrite of_nat_0. ring.
  - rewrite IH. destruct (lab s); simpl; rewrite of_nat_S; ring.
Qed.

Lemma mass_true_weights samples :
  mass true (lab <$> samples) (weight <$> samples)
  = (of_nat (count true (lab <$> samples)) * a)%Qc.
Proof.
  unfold mass, count, weight. induction samples as [|s l IH]; csimpl.
  - rewrite of_nat_0. ring.
  - destruct (lab s); csimpl; rewrite IH, ?of_nat_S; ring.
Qed.

Lemma mass_false_weights samples :
  mass false (lab <$> samples) (weight <$> samples)
  = (of_nat (count false (lab <$> samples)) * b)%Qc.
Proof.
  unfold mass, count, weight. induction samples as [|s l IH]; csimpl.
  - rewrite of_nat_0. ring.
  - destruct (lab s); csimpl; rewrite IH, ?of_nat_S; ring.
Qed.

Lemma weights_one_class samples (c : bool) :
  c ∉ lab <$> samples →
  weight <$> samples
  = replicate (length samples) (if c then b else a).
Proof.
  unfold weight. induction samples as [|s l IH]; csimpl; [done|].
  intros Hc. apply not_elem_of_cons in Hc as [Hs Hl].
  rewrite (IH Hl). by destruct c, (lab s).
Qed.
End Weights.

Lemma count_absent c (l : list bool) : c ∉ l → count c l = 0.
Proof.
  unfold count. induction l as [|x l IH]; simpl; [done|]. intros H.
  apply not_elem_of_cons in H as [Hx Hl]. rewrite <- (IH Hl).
  by destruct c, x.
Qed.

Lemma count_present c (l : list bool) : c ∈ l → 0 < count c l.
Proof. destruct c; [apply count_true_pos|apply count_false_pos]. Qed.

Lemma mul_div_cancel (n : Qc) : n ≠ 0%Qc → (n * (half / n) = half)%Qc.
Proof. intros Hn. field. done. Qed.

Lemma total_replicate n w : total (replicate n w) = (of_nat n * w)%Qc.
Proof.
  induction n as [|n IH]; simpl.
  - rewrite of_nat_0. ring.
  - rewrite IH, of_nat_S. ring.
Qed.

(** C9 (amended). For retained samples with distinct names, the class
    weights are always defined: the division by the number of positives is
    evaluated for a positive sample only, the division by the number of
    negatives for a negative sample only, so neither divides by zero. With
    at least one positive and one negative sample retained, the weights sum
    to 1, the positives receiving 1/2 and the negatives 1/2. With a class
    absent, every retained sample has weight 0.5/n for the n retained
    samples, and the weights sum to 1/2, or to 0 when no sample is
    retained. *)
Theorem C9_class_weights metadata loaded :
  let targets := dict metadata in
  let samples := retained targets loaded in
  let labels := label targets <$> samples in
  NoDup (name <$> samples) →
  ∃ ws, class_weights metadata loaded = Ok ws ∧
    length ws = length samples ∧
    (true ∈ labels → false ∈ labels →
       total ws = 1%Qc ∧ mass true labels ws = half
       ∧ mass false labels ws = half) ∧
    (true ∉ labels ∨ false ∉ labels →
       Forall (λ w, w = (half / of_nat (length samples))%Qc) ws
       ∧ total ws = match samples with [] => 0%Qc | _ :: _ => half end).
Proof.
  intros targets samples labels Hnd.
  rewrite (class_weights_value metadata loaded Hnd).
  fold targets samples. subst labels.
  eexists. split; [done|]. split; [by rewrite length_fmap|].
  pose proof (count_total (label targets <$> samples)) as Hc.
  rewrite length_fmap in Hc.
  split.
  - intros Ht Hf. apply count_present in Ht, Hf.
    rewrite total_weights, mass_true_weights, mass_false_weights.
    fold (of_nat (count true (label targets <$> samples))).
    fold (of_nat (count false (label targets <$> samples))).
    rewrite !mul_div_cancel by by apply of_nat_nonzero.
    by rewrite half_half.
  - intros [H|H].
    + rewrite (weights_one_class _ _ _ _ true H).
      pose proof (count_absent _ _ H) as H0.
      assert (Hn : count false (label targets <$> samples) = length samples)
        by lia.
      rewrite Hn. fold (of_nat (length samples)). split.
      * by apply Forall_replicate.
      * rewrite total_replicate. destruct samples as [|s samples'].
        { cbn [length]. rewrite of_nat_0. ring. }
        apply mul_div_cancel, of_nat_nonzero. simpl. lia.
    + rewrite (weights_one_class _ _ _ _ false H).
      pose proof (count_absent _ _ H) as H0.
      assert (Hn : count true (label targets <$> samples) = length samples)
        by lia.
      rewrite Hn. fold (of_nat (length samples)). split.
      * by apply Forall_replicate.
      * rewrite total_replicate. destruct samples as [|s samples'].
        { cbn [length]. rewrite of_nat_0. ring. }
        apply mul_div_cancel, of_nat_nonzero. simpl. lia.
Qed.


(** Two samples of one name that the metadata does not list, before
    three that it lists. *)
Lemma C9_witness :
  NoDup (name <$> retained (dict metadata)
                    [mkSample "blank" 7; mkSample "blank" 8; sa; sb; sc])
  ∧ ∃ ws, class_weights metadata
            [mkSample "blank" 7; mkSample "blank" 8; sa; sb; sc] = Ok ws
          ∧ total ws = 1%Qc.
Proof.
  assert (Hnd : NoDup (name <$> retained (dict metadata)
                    [mkSample "blank" 7; mkSample "blank" 8; sa; sb; sc]))
    by (apply (bool_decide_unpack _); by vm_compute).
  split; [exact Hnd|].
  destruct (C9_class_weights metadata
              [mkSample "blank" 7; mkSample "blank" 8; sa; sb; sc] Hnd)
    as (ws & Hws & _ & Hboth & _).
  exists ws. split; [done|].
  apply Hboth; apply (bool_decide_unpack _); by vm_compute.
Defined.

Lemma C9_counterexample :
  label (dict metadata) <$> retained (dict metadata) [sa; sc] = [true; true]
  ∧ class_weights metadata [sa; sc] = Ok [Q2Qc (1 # 4); Q2Qc (1 # 4)].
Proof. split; by vm_compute. Qed.

End WeightsFacts.

(** ** The GAST models *)

Module GastFacts.
Import Py Keras GastSpec.

(** Reading attributes whose values are known. *)
Ltac reads :=
  unfold getattr;
  repeat match goal with
         | H : ?self !! ?k = Some _ |- context [?self !! ?k] => rewrite H
         end.

Lemma update_lookup {V} (l : list (string * V)) : ∀ base : gmap string V,
  NoDup l.*1 →
  (∀ k v, (k, v) ∈ l → update base l !! k = Some v) ∧
  (∀ k, k ∉ l.*1 → update base l !! k = base !! k).
Proof.
  unfold update.
  induction l as [|[k0 v0] l IH]; intros base Hnd; simpl.
  - split; [|done]. intros k v H. by apply elem_of_nil in H.
  - apply NoDup_cons in Hnd as [Hk0 Hnd].
    destruct (IH (<[k0:=v0]> base) Hnd) as [IH1 IH2]. split.
    + intros k v Hin. apply elem_of_cons in Hin as [[= -> ->]|Hin].
      * rewrite IH2 by done. apply lookup_insert_eq.
      * by apply IH1.
    + intros k Hk. apply not_elem_of_cons in Hk as [Hne Hk].
      rewrite IH2 by done. by apply lookup_insert_ne.
Qed.

Lemma update_holds (l : list (string * value)) base :
  NoDup l.*1 → holds l (update base l).
Proof.
  intros Hnd. destruct (update_lookup l base Hnd) as [H _].
  apply Forall_forall. intros [k v] Hin. by apply H.
Qed.

Lemma holds_agree l self self' :
  holds l self → holds l self' →
  Forall (λ k, self' !! k = self !! k) l.*1.
Proof.
  unfold holds. rewrite !Forall_forall. intros H H'.
  apply Forall_forall, Forall_fmap, Forall_forall. intros kv Hkv. simpl.
  by rewrite (H kv Hkv), (H' kv Hkv).
Qed.

Lemma omap_replicate {A B} (f : A → option B) (block : nat → list A)
    (out : list B) count :
  (∀ i, omap f (block i) = out) →
  ∀ j, omap f (flat_map block (seq j count)) = mjoin (replicate count out).
Proof.
  intros Hb. induction count as [|count IH]; intros j; simpl; [done|].
  by rewrite omap_app, Hb, IH.
Qed.

Lemma join_replicate_1 {B} (v : B) n :
  mjoin (replicate n [v]) = replicate n v.
Proof. induction n as [|n IH]; simpl; [done|]. by rewrite IH. Qed.

Lemma join_replicate_2 {B} (v : B) n :
  mjoin (replicate n [v; v]) = replicate (2 * n) v.
Proof.
  induction n as [|n IH]; simpl; [done|]. rewrite IH.
  replace (n + S (n + 0)) with (S (2 * n)) by lia. done.
Qed.

End GastFacts.

Module GeneratorFacts.
Import Py Keras GastSpec GastGenerator GeneratorSpec GastFacts.

Ltac known H :=
  unfold holds, recorded in H;
  repeat (apply Forall_cons in H as [? H]); clear H; cbn [fst snd] in *.

Lemma recorded_keys a : (recorded a).*1 = parameters.
Proof. reflexivity. Qed.

Lemma recorded_nodup a : NoDup (recorded a).*1.
Proof. rewrite recorded_keys. apply (bool_decide_unpack _). by vm_compute. Qed.

Lemma assign_closed a base : assign a base = Ok (update base (recorded a)).
Proof.
  unfold assign, getattr. rewrite lookup_insert_eq.
  unfold update, recorded, resolved_cond_dim, resolved_mlp_dim,
    resolved_class_dim.
  by destruct (cond_dim a), (mlp_dim a), (class_dim a).
Qed.

Lemma update_other a base k :
  k ∉ parameters → update base (recorded a) !! k = base !! k.
Proof.
  destruct (update_lookup (recorded a) base (recorded_nodup a)) as [_ H].
  intros Hk. apply H. by rewrite recorded_keys.
Qed.

Lemma build_stack_closed a self o :
  holds (recorded a) self →
  ∀ count j i condition y g,
  i = Z.of_nat j → condition = 2 + o → y = 3 + o + 2 * j →
  length g = 4 + o + 2 * j →
  build_stack self condition count i y g
  = Ok (3 + o + 2 * (j + count),
        g ++ flat_map (expected_block a o) (seq j count)).
Proof.
  intros H. known H.
  induction count as [|count IH]; intros j i condition y g -> -> -> Hg.
  - simpl. rewrite app_nil_r. do 3 f_equal. lia.
  - cbn [build_stack]. reads. cbn [mbind result_bind bind minus equal].
    unfold call. rewrite length_app, Hg. cbn [length].
    rewrite (IH (S j)); [|lia|done|lia|rewrite !length_app; simpl; lia].
    rewrite <- !app_assoc. cbn [seq flat_map expected_block app].
    do 2 f_equal. lia.
Qed.

Lemma expected_stack_length a o :
  length (expected_stack a o) = 2 * Z.to_nat (stack a).
Proof.
  unfold expected_stack. generalize 0 at 1.
  induction (Z.to_nat (stack a)) as [|count IH]; intros j; simpl; [done|].
  rewrite IH. lia.
Qed.

Lemma build_model_closed a self :
  holds (recorded a) self → include_class a = false →
  build_model self = Ok (expected_model a).
Proof.
  intros H Hc.
  pose proof (build_stack_closed a self 0 H (Z.to_nat (stack a)) 0) as Hs.
  known H. unfold build_model. reads. rewrite Hc.
  cbn [mbind result_bind bind truthy call length app range].
  rewrite (Hs 0%Z 2 3); [|done..].
  cbn [mbind result_bind bind call]. unfold expected_model.
  fold (expected_stack a 0). rewrite length_app, expected_stack_length.
  rewrite <- app_assoc. cbn [length].
  rewrite Nat.add_0_l, Nat.add_0_r. reflexivity.
Qed.

(** With class labels, [build_model] stops at [self.num_samples] unless
    Keras happened to define that attribute. *)
Lemma build_model_class a self :
  holds (recorded a) self → include_class a = true →
  build_model self
  = match self !! "num_samples" with
    | Some v => Ok (expected_class_model a v)
    | None => Raise (AttributeError "num_samples")
    end.
Proof.
  intros H Hc.
  pose proof (build_stack_closed a self 4 H (Z.to_nat (stack a)) 0) as Hs.
  known H. unfold build_model. reads. rewrite Hc.
  cbn [mbind result_bind bind truthy call length app range].
  destruct (self !! "num_samples") as [v|]; [|done].
  cbn [mbind result_bind bind truthy call length app range from_option].
  rewrite (Hs 0%Z 6 7); [|done..].
  cbn [mbind result_bind bind call from_option]. unfold expected_class_model.
  fold (expected_stack a 4). rewrite length_app, expected_stack_length.
  rewrite <- app_assoc. cbn [length].
  rewrite Nat.add_0_l. reflexivity.
Qed.

Section WithKeras.
Variable keras_Model_init : gmap string value → result (gmap string value).

Local Abbreviation init := (GastGenerator.init keras_Model_init).

(** What [__init__] does, case by case. *)
Lemma init_cases a :
  (∃ e, keras_Model_init (kwargs a) = Raise e ∧ init a = Raise e)
  ∨ (∃ base, keras_Model_init (kwargs a) = Ok base ∧
       let self := update (<["_accumulation_steps" := VInt 1]> base)
                          (recorded a) in
       init a = (model ← build_model self; Ok (mkInstance self model))).
Proof.
  unfold GastGenerator.init, CustomModel.init.
  destruct (keras_Model_init (kwargs a)) as [base|e] eqn:Hk.
  - right. exists base. split; [done|].
    cbn [mbind result_bind bind]. rewrite assign_closed. done.
  - left. by exists e.
Qed.

Lemma init_class a base :
  keras_has_no_num_samples keras_Model_init →
  keras_Model_init (kwargs a) = Ok base → include_class a = true →
  init a = Raise (AttributeError "num_samples").
Proof.
  intros Hk Hb Hc.
  destruct (init_cases a) as [(e & He & _)|(base' & Hb' & ->)];
    [congruence|].
  rewrite Hb in Hb'. injection Hb' as <-.
  rewrite (build_model_class a);
    [|by apply update_holds, recorded_nodup|done].
  rewrite update_other by (by apply (bool_decide_unpack _)).
  rewrite lookup_insert_ne by done. by rewrite (Hk (kwargs a) base).
Qed.

(** A constructed generator holds its seventeen attributes, and one of the
    two models. *)
Lemma init_ok a g :
  init a = Ok g →
  holds (recorded a) (attrs g) ∧
  if include_class a
  then ∃ v, model g = expected_class_model a v
  else model g = expected_model a.
Proof.
  intros Hg.
  destruct (init_cases a) as [(e & He & Hi)|(base & Hb & Hi)];
    [congruence|].
  cbv zeta in Hi. rewrite Hg in Hi. symmetry in Hi.
  set (self := update (<["_accumulation_steps":=VInt 1]> base) (recorded a))
    in Hi.
  assert (Hh : holds (recorded a) self)
    by by apply update_holds, recorded_nodup.
  destruct (include_class a) eqn:Hc.
  - rewrite (build_model_class a self Hh Hc) in Hi.
    destruct (self !! "num_samples") as [v|]; [|done].
    injection Hi as <-. split; [done|]. by exists v.
  - rewrite (build_model_closed a self Hh Hc) in Hi.
    by injection Hi as <-.
Qed.

Lemma init_ok_plain a g :
  keras_has_no_num_samples keras_Model_init → init a = Ok g →
  include_class a = false.
Proof.
  intros Hk Hg.
  destruct (init_cases a) as [(e & He & Hi)|(base & Hb & Hi)];
    [congruence|].
  destruct (include_class a) eqn:Hc; [|done].
  rewrite (init_class a base) in Hg; done.
Qed.

Lemma recorded_normalised a : recorded (normalised a) = recorded a.
Proof.
  unfold recorded, normalised, resolved_mlp_dim. simpl.
  by destruct (mlp_dim a), (ff_dim a).
Qed.

Lemma expected_model_normalised a :
  expected_model (normalised a) = expected_model a.
Proof. reflexivity. Qed.

Lemma get_config_closed a self :
  holds (recorded a) self → get_config self = Ok (dict (recorded a)).
Proof. intros H. known H. unfold get_config. reads. reflexivity. Qed.

Lemma dict_holds a : holds (recorded a) (dict (recorded a)).
Proof. apply update_holds, recorded_nodup. Qed.

Lemma delete_parameters a : foldr delete (dict (recorded a)) parameters = ∅.
Proof.
  apply map_eq. intros k. rewrite lookup_empty.
  destruct (decide (k ∈ parameters)) as [Hk|Hk].
  - clear -Hk. generalize (dict (recorded a)). intros m.
    induction parameters as [|p ps IH]; [by apply elem_of_nil in Hk|].
    simpl. destruct (decide (p = k)) as [->|Hne].
    + apply lookup_delete_eq.
    + rewrite lookup_delete_ne by done. apply IH.
      apply elem_of_cons in Hk as [?|?]; [congruence|done].
  - assert (Hm : dict (recorded a) !! k = None).
    { unfold dict. by rewrite update_other. }
    revert Hm. generalize (dict (recorded a)). clear Hk. intros m Hm.
    induction parameters as [|p ps IH]; simpl; [done|].
    destruct (decide (p = k)) as [->|Hne];
      [apply lookup_delete_eq|by rewrite lookup_delete_ne].
Qed.

Lemma bind_config a : bind_arguments (dict (recorded a)) = Ok (normalised a).
Proof.
  unfold bind_arguments. rewrite delete_parameters.
  pose proof (dict_holds a) as H. revert H.
  generalize (dict (recorded a)). intros kw H. known H.
  unfold required. reads. unfold normalised, resolved_mlp_dim. cbn.
  by destruct (ff_dim a), (mlp_dim a), (num_classes a).
Qed.

Lemma dict_size a : size (dict (recorded a)) = 17.
Proof.
  unfold dict, update. cbn [foldl recorded fst snd].
  repeat (rewrite map_size_insert_None;
          [|repeat (rewrite lookup_insert_ne by done); apply lookup_empty]).
  by rewrite map_size_empty.
Qed.

Lemma round_trip a g base0 :
  keras_has_no_num_samples keras_Model_init →
  keras_Model_init ∅ = Ok base0 →
  init a = Ok g →
  ∃ config g',
    get_config (attrs g) = Ok config ∧
    size config = 17 ∧
    Forall (λ k, config !! k = attrs g !! k) parameters ∧
    GastGenerator.from_config keras_Model_init config = Ok g' ∧
    Forall (λ k, attrs g' !! k = attrs g !! k) parameters ∧
    model g' = model g ∧
    get_config (attrs g') = Ok config.
Proof.
  intros Hk H0 Hg.
  pose proof (init_ok_plain a g Hk Hg) as Hc.
  destruct (init_ok a g Hg) as [Hh Hm]. rewrite Hc in Hm.
  destruct (init_cases (normalised a)) as [(e & He & _)|(b & Hb & Hi)];
    [simpl in *; congruence|].
  cbv zeta in Hi. rewrite recorded_normalised in Hi.
  set (self := update (<["_accumulation_steps":=VInt 1]> b) (recorded a))
    in Hi.
  assert (Hs : holds (recorded a) self)
    by by apply update_holds, recorded_nodup.
  rewrite (build_model_closed (normalised a)) in Hi;
    [|by rewrite recorded_normalised|done].
  rewrite expected_model_normalised in Hi.
  exists (dict (recorded a)), (mkInstance self (expected_model a)).
  split; [by apply get_config_closed|].
  split; [apply dict_size|].
  split; [apply (holds_agree (recorded a)); [done|apply dict_holds]|].
  split.
  { unfold GastGenerator.from_config, CustomModel.from_config, new.
    rewrite bind_config. exact Hi. }
  cbn [attrs model].
  split; [by apply (holds_agree (recorded a))|].
  split; [done|]. by apply get_config_closed.
Qed.
End WithKeras.

Lemma flags_expected_model a :
  spectral_norm_flags (expected_model a)
  = replicate (Z.to_nat (stack a) + 1) (VBool (use_spectral_norm a)).
Proof.
  unfold spectral_norm_flags, expected_model, expected_stack. cbn [graph].
  rewrite !omap_app, (omap_replicate _ _ [VBool (use_spectral_norm a)])
    by done.
  rewrite join_replicate_1, replicate_add. done.
Qed.

Lemma flags_expected_class_model a v :
  spectral_norm_flags (expected_class_model a v)
  = replicate (Z.to_nat (stack a) + 1) (VBool (use_spectral_norm a)).
Proof.
  unfold spectral_norm_flags, expected_class_model, expected_stack.
  cbn [graph].
  rewrite !omap_app, (omap_replicate _ _ [VBool (use_spectral_norm a)])
    by done.
  rewrite join_replicate_1, replicate_add. done.
Qed.

Lemma anchors_expected_model a :
  stack_anchors (expected_model a)
  = replicate (Z.to_nat (stack a)) (VInt (num_anchors a)).
Proof.
  unfold stack_anchors, expected_model, expected_stack. cbn [graph].
  rewrite !omap_app, (omap_replicate _ _ [VInt (num_anchors a)]) by done.
  rewrite join_replicate_1. simpl. by rewrite app_nil_r.
Qed.

Lemma anchors_expected_class_model a v :
  stack_anchors (expected_class_model a v)
  = replicate (Z.to_nat (stack a)) (VInt (num_anchors a)).
Proof.
  unfold stack_anchors, expected_class_model, expected_stack. cbn [graph].
  rewrite !omap_app, (omap_replicate _ _ [VInt (num_anchors a)]) by done.
  rewrite join_replicate_1. simpl. by rewrite app_nil_r.
Qed.
End GeneratorFacts.

Module DiscriminatorFacts.
Import Py Keras GastSpec GastDiscriminator DiscriminatorSpec GastFacts.

Ltac known H :=
  unfold holds, recorded in H;
  repeat (apply Forall_cons in H as [? H]); clear H; cbn [fst snd] in *.

Lemma discriminator_recorded_nodup a : NoDup (recorded a).*1.
Proof. apply (bool_decide_unpack _). by vm_compute. Qed.

Lemma discriminator_assign_closed a base :
  assign a base = update base (recorded a).
Proof. reflexivity. Qed.

Lemma discriminator_encoder_closed a self :
  holds (recorded a) self → encoder self = Ok (encoder_layer a).
Proof. intros H. known H. unfold encoder. reads. reflexivity. Qed.

Lemma discriminator_build_stack_closed a self :
  holds (recorded a) self →
  ∀ count j i y enc g,
  i = Z.of_nat j → y = 1 + 3 * j → length g = 3 + 3 * j →
  build_stack self count i y enc g
  = Ok (1 + 3 * (j + count),
        enc ++ expected_encodings j count,
        g ++ flat_map (expected_block a) (seq j count)).
Proof.
  intros H. pose proof (discriminator_encoder_closed a self H) as He. known H.
  induction count as [|count IH]; intros j i y enc g -> -> Hg.
  - simpl. rewrite !app_nil_r. do 4 f_equal. lia.
  - cbn [build_stack]. reads. rewrite He.
    cbn [mbind result_bind bind minus equal].
    unfold call. rewrite !length_app, Hg. cbn [length].
    rewrite (IH (S j)); [|lia|lia|rewrite !length_app; simpl; lia].
    rewrite <- !app_assoc.
    cbn [seq flat_map expected_block expected_encodings app fmap list_fmap].
    replace (3 + 3 * j + 1 + 1) with (5 + 3 * j) by lia.
    replace (3 + 3 * j + 1) with (4 + 3 * j) by lia.
    replace (1 + 3 * (S j + count)) with (1 + 3 * (j + S count)) by lia.
    reflexivity.
Qed.

Lemma discriminator_expected_blocks_length a count : ∀ j,
  length (flat_map (expected_block a) (seq j count)) = 3 * count.
Proof.
  induction count as [|count IH]; intros j; simpl; [done|].
  rewrite IH. lia.
Qed.

Lemma discriminator_build_model_closed a self :
  holds (recorded a) self → build_model self = Ok (expected_model a).
Proof.
  intros H. pose proof (discriminator_encoder_closed a self H) as He.
  pose proof (discriminator_build_stack_closed a self H
                (Z.to_nat (stack a)) 0) as Hs.
  known H. unfold build_model. reads. rewrite He.
  cbn [mbind result_bind bind call length app range plus].
  rewrite (Hs 0%Z 1); [|done..].
  cbn [mbind result_bind bind call plus]. unfold expected_model.
  rewrite !length_app, discriminator_expected_blocks_length. cbn [length].
  rewrite <- !app_assoc. cbn [app].
  replace (3 + 3 * Z.to_nat (stack a) + 1) with (4 + 3 * Z.to_nat (stack a))
    by lia.
  reflexivity.
Qed.

Section WithKeras.
Variable keras_Model_init : gmap string value → result (gmap string value).

(** A constructed discriminator holds its eleven attributes and its
    model. *)
Lemma discriminator_init_ok a g :
  GastDiscriminator.init keras_Model_init a = Ok g →
  holds (recorded a) (attrs g) ∧ model g = expected_model a.
Proof.
  unfold GastDiscriminator.init, CustomModel.init.
  destruct (keras_Model_init (kwargs a)) as [base|e]; [|done].
  cbn [mbind result_bind bind]. rewrite discriminator_assign_closed.
  set (self := update _ _).
  assert (Hh : holds (recorded a) self)
    by by apply update_holds, discriminator_recorded_nodup.
  rewrite (discriminator_build_model_closed a self Hh).
  cbn [mbind result_bind bind].
  by intros [= <-].
Qed.
End WithKeras.

Lemma discriminator_flags_expected_model a :
  spectral_norm_flags (expected_model a)
  = replicate (1 + 2 * Z.to_nat (stack a)) (VBool (use_spectral_norm a)).
Proof.
  unfold spectral_norm_flags, expected_model. cbn [graph].
  rewrite !omap_app,
    (omap_replicate _ _ [VBool (use_spectral_norm a);
                         VBool (use_spectral_norm a)]) by done.
  rewrite join_replicate_2. simpl. by rewrite app_nil_r.
Qed.

Lemma discriminator_anchors_expected_model a :
  stack_anchors (expected_model a)
  = replicate (Z.to_nat (stack a)) (VInt (num_anchors a)).
Proof.
  unfold stack_anchors, expected_model. cbn [graph].
  rewrite !omap_app, (omap_replicate _ _ [VInt (num_anchors a)]) by done.
  rewrite join_replicate_1. simpl. by rewrite app_nil_r.
Qed.
End DiscriminatorFacts.

(** ** The claims about the models *)

Module GastTheorems.
Import Py Keras GastSpec GastFacts GastExamples.

Lemma Ok_inj {A} (x y : A) : Ok x = Ok y → x = y.
Proof. by intros [= ->]. Qed.

(** Going through the bindings of [bind_arguments] one by one. *)
Ltac bound H :=
  repeat match type of H with
         | (?r ≫= _) = Ok _ =>
             let E := fresh "E" in
             destruct r eqn:E; [cbn [mbind result_bind bind] in H|done]
         end.

Lemma generator_default kw a :
  kw !! "use_spectral_norm" = None →
  GastGenerator.bind_arguments kw = Ok a →
  GastGenerator.use_spectral_norm a = true.
Proof.
  intros Hkw H. unfold GastGenerator.bind_arguments in H.
  rewrite Hkw in H. bound H. apply Ok_inj in H as <-.
  cbn in *. congruence.
Qed.

Lemma discriminator_default kw a :
  kw !! "use_spectral_norm" = None →
  GastDiscriminator.bind_arguments kw = Ok a →
  GastDiscriminator.use_spectral_norm a = true.
Proof.
  intros Hkw H. unfold GastDiscriminator.bind_arguments in H.
  rewrite Hkw in H. bound H. apply Ok_inj in H as <-.
  cbn in *. congruence.
Qed.

Section WithKeras.
Variable keras_Model_init : gmap string value → result (gmap string value).

(** C3. A generator or discriminator constructed with
    [use_spectral_norm=True], which is what the argument defaults to when a
    call leaves it out, passes [use_spectral_norm=True] to every attention
    layer it builds: the conditioned blocks and the final spectral
    projection of the generator, the induced blocks and the encoders of the
    discriminator. *)
Theorem C3_spectral_norm_throughout :
  (∀ kw a g,
     kw !! "use_spectral_norm" = None →
     GastGenerator.bind_arguments kw = Ok a →
     GastGenerator.init keras_Model_init a = Ok g →
     spectral_norm_flags (GastGenerator.model g)
     = replicate (Z.to_nat (GastGenerator.stack a) + 1) (VBool true))
  ∧ (∀ a g,
     GastGenerator.use_spectral_norm a = true →
     GastGenerator.init keras_Model_init a = Ok g →
     spectral_norm_flags (GastGenerator.model g)
     = replicate (Z.to_nat (GastGenerator.stack a) + 1) (VBool true))
  ∧ (∀ kw a g,
     kw !! "use_spectral_norm" = None →
     GastDiscriminator.bind_arguments kw = Ok a →
     GastDiscriminator.init keras_Model_init a = Ok g →
     spectral_norm_flags (GastDiscriminator.model g)
     = replicate (1 + 2 * Z.to_nat (GastDiscriminator.stack a)) (VBool true))
  ∧ (∀ a g,
     GastDiscriminator.use_spectral_norm a = true →
     GastDiscriminator.init keras_Model_init a = Ok g →
     spectral_norm_flags (GastDiscriminator.model g)
     = replicate (1 + 2 * Z.to_nat (GastDiscriminator.stack a)) (VBool true)).
Proof.
  assert (HG : ∀ a g,
     GastGenerator.use_spectral_norm a = true →
     GastGenerator.init keras_Model_init a = Ok g →
     spectral_norm_flags (GastGenerator.model g)
     = replicate (Z.to_nat (GastGenerator.stack a) + 1) (VBool true)).
  { intros a g Hn Hg.
    destruct (GeneratorFacts.init_ok _ a g Hg) as [_ Hm].
    destruct (GastGenerator.include_class a); [destruct Hm as [v Hm]|].
    - by rewrite Hm, GeneratorFacts.flags_expected_class_model, Hn.
    - by rewrite Hm, GeneratorFacts.flags_expected_model, Hn. }
  assert (HD : ∀ a g,
     GastDiscriminator.use_spectral_norm a = true →
     GastDiscriminator.init keras_Model_init a = Ok g →
     spectral_norm_flags (GastDiscriminator.model g)
     = replicate (1 + 2 * Z.to_nat (GastDiscriminator.stack a)) (VBool true)).
  { intros a g Hn Hg.
    destruct (DiscriminatorFacts.discriminator_init_ok _ a g Hg) as [_ Hm].
    by rewrite Hm, DiscriminatorFacts.discriminator_flags_expected_model, Hn. }
  repeat split; [|done| |done].
  - intros kw a g Hkw Ha. apply HG. by apply (generator_default kw).
  - intros kw a g Hkw Ha. apply HD. by apply (discriminator_default kw).
Qed.

(** C4. A call of [GastGenerator] with [include_class=True] that gets as
    far as [build_model] (Keras accepts the remaining keyword arguments)
    fails with an [AttributeError] on [num_samples]: [__init__] leaves that
    attribute as Keras left it, and Keras does not define it. So every
    generator that is constructed has [include_class=False]. *)
Theorem C4_class_labels_cannot_be_built :
  keras_has_no_num_samples keras_Model_init →
  ∀ a,
    (∀ base self, keras_Model_init (GastGenerator.kwargs a) = Ok base →
       GastGenerator.assign a (<["_accumulation_steps" := VInt 1]> base)
       = Ok self →
       self !! "num_samples" = None)
    ∧ (∀ base, keras_Model_init (GastGenerator.kwargs a) = Ok base →
       GastGenerator.include_class a = true →
       GastGenerator.init keras_Model_init a
       = Raise (AttributeError "num_samples"))
    ∧ (∀ g, GastGenerator.init keras_Model_init a = Ok g →
       GastGenerator.include_class a = false ∧
       GastGenerator.attrs g !! "include_class" = Some (VBool false)).
Proof.
  intros Hk a. split; [|split].
  - intros base self Hb Hs. rewrite GeneratorFacts.assign_closed in Hs.
    apply Ok_inj in Hs as <-.
    rewrite GeneratorFacts.update_other by (by apply (bool_decide_unpack _)).
    rewrite lookup_insert_ne by done. by apply (Hk (GastGenerator.kwargs a)).
  - intros base Hb Hc. by apply (GeneratorFacts.init_class _ a base).
  - intros g Hg.
    pose proof (GeneratorFacts.init_ok_plain _ a g Hk Hg) as Hc.
    split; [done|].
    destruct (GeneratorFacts.init_ok _ a g Hg) as [Hh _].
    GeneratorFacts.known Hh. congruence.
Qed.

(** C6. The conditioned blocks of a generator are as many as [stack] says
    and each is constructed with [num_anchors] set to the constructor
    argument [num_anchors]; the induced blocks of a discriminator are as
    many as [stack] says and each is constructed with [num_induce] set to
    the constructor argument [num_anchors]. *)
Theorem C6_anchors_are_the_argument :
  (∀ a g,
     GastGenerator.init keras_Model_init a = Ok g →
     stack_anchors (GastGenerator.model g)
     = replicate (Z.to_nat (GastGenerator.stack a))
                 (VInt (GastGenerator.num_anchors a)))
  ∧ (∀ a g,
     GastDiscriminator.init keras_Model_init a = Ok g →
     stack_anchors (GastDiscriminator.model g)
     = replicate (Z.to_nat (GastDiscriminator.stack a))
                 (VInt (GastDiscriminator.num_anchors a))).
Proof.
  split; intros a g Hg.
  - destruct (GeneratorFacts.init_ok _ a g Hg) as [_ Hm].
    destruct (GastGenerator.include_class a); [destruct Hm as [v Hm]|].
    + by rewrite Hm, GeneratorFacts.anchors_expected_class_model.
    + by rewrite Hm, GeneratorFacts.anchors_expected_model.
  - destruct (DiscriminatorFacts.discriminator_init_ok _ a g Hg) as [_ Hm].
    by rewrite Hm, DiscriminatorFacts.discriminator_anchors_expected_model.
Qed.

(** C7. The model of a generator with [include_class=False] is
    [GeneratorSpec.expected_model]: its two inputs are the noise of shape
    [(noise_dim,)] and the [int32] cardinality of shape [(1,)]; the noise
    is projected to [cond_dim] units, the cardinality selects a
    [SampleSet(max_set_size, embed_dim)], each block of the stack conditions
    the set on the projected noise, and a spectral projection to
    [latent_dim] gives the output. *)
Theorem C7_generator_is_conditional_on_noise a g :
  GastGenerator.init keras_Model_init a = Ok g →
  GastGenerator.include_class a = false →
  GastGenerator.model g = GeneratorSpec.expected_model a.
Proof.
  intros Hg Hc. destruct (GeneratorFacts.init_ok _ a g Hg) as [_ Hm].
  by rewrite Hc in Hm.
Qed.

(** C8 (amended). For a constructed generator [g], [get_config] records
    seventeen values, those of the seventeen attributes set by [__init__];
    [from_config] on that configuration succeeds, and gives a generator
    with the same seventeen attribute values, the same model and the same
    configuration. *)
Theorem C8_config_round_trip a g base0 :
  keras_has_no_num_samples keras_Model_init →
  keras_Model_init ∅ = Ok base0 →
  GastGenerator.init keras_Model_init a = Ok g →
  ∃ config g',
    GastGenerator.get_config (GastGenerator.attrs g) = Ok config ∧
    size config = 17 ∧
    length GastGenerator.parameters = 17 ∧
    Forall (λ k, config !! k = GastGenerator.attrs g !! k)
           GastGenerator.parameters ∧
    GastGenerator.from_config keras_Model_init config = Ok g' ∧
    Forall (λ k, GastGenerator.attrs g' !! k = GastGenerator.attrs g !! k)
           GastGenerator.parameters ∧
    GastGenerator.model g' = GastGenerator.model g ∧
    GastGenerator.get_config (GastGenerator.attrs g') = Ok config.
Proof.
  intros Hk H0 Hg.
  destruct (GeneratorFacts.round_trip _ a g base0 Hk H0 Hg)
    as (config & g' & H1 & H2 & H3 & H4 & H5 & H6 & H7).
  exists config, g'. repeat split; done.
Qed.
End WithKeras.

Lemma stand_in_has_no_num_samples : keras_has_no_num_samples keras_Model_init.
Proof.
  intros kw base. unfold keras_Model_init.
  destruct (map_to_list (delete "name" kw)); [|done].
  intros [= <-]. by rewrite lookup_singleton_ne.
Qed.

Lemma C3_witness :
  ∃ g d,
    GastGenerator.init keras_Model_init (generator_args false) = Ok g ∧
    GastDiscriminator.init keras_Model_init discriminator_args = Ok d ∧
    spectral_norm_flags (GastGenerator.model g) = replicate 3 (VBool true) ∧
    spectral_norm_flags (GastDiscriminator.model d)
    = replicate 5 (VBool true).
Proof.
  destruct (GastGenerator.init keras_Model_init (generator_args false))
    as [g|] eqn:Hg; [|by vm_compute in Hg].
  destruct (GastDiscriminator.init keras_Model_init discriminator_args)
    as [d|] eqn:Hd; [|by vm_compute in Hd].
  exists g, d. repeat split.
  - by apply (proj1 (proj2 (C3_spectral_norm_throughout keras_Model_init))
               (generator_args false) g).
  - by apply (proj2 (proj2 (proj2
               (C3_spectral_norm_throughout keras_Model_init)))
               discriminator_args d).
Defined.

Lemma C4_witness :
  GastGenerator.init keras_Model_init (generator_args true)
  = Raise (AttributeError "num_samples").
Proof.
  apply (proj1 (proj2 (C4_class_labels_cannot_be_built keras_Model_init
                         stand_in_has_no_num_samples (generator_args true)))
           {["name" := VStr "model"]}); reflexivity.
Defined.

Lemma C6_witness :
  ∃ g d,
    GastGenerator.init keras_Model_init (generator_args false) = Ok g ∧
    GastDiscriminator.init keras_Model_init discriminator_args = Ok d ∧
    stack_anchors (GastGenerator.model g) = [VInt 8; VInt 8] ∧
    stack_anchors (GastDiscriminator.model d) = [VInt 8; VInt 8].
Proof.
  destruct (GastGenerator.init keras_Model_init (generator_args false))
    as [g|] eqn:Hg; [|by vm_compute in Hg].
  destruct (GastDiscriminator.init keras_Model_init discriminator_args)
    as [d|] eqn:Hd; [|by vm_compute in Hd].
  exists g, d. repeat split.
  - by apply (proj1 (C6_anchors_are_the_argument keras_Model_init)
               (generator_args false) g).
  - by apply (proj2 (C6_anchors_are_the_argument keras_Model_init)
               discriminator_args d).
Defined.

Lemma C7_witness :
  ∃ g,
    GastGenerator.init keras_Model_init (generator_args false) = Ok g ∧
    GastGenerator.model g
    = GeneratorSpec.expected_model (generator_args false).
Proof.
  destruct (GastGenerator.init keras_Model_init (generator_args false))
    as [g|] eqn:Hg; [|by vm_compute in Hg].
  exists g. split; [done|].
  by apply (C7_generator_is_conditional_on_noise keras_Model_init
              (generator_args false) g).
Defined.

Lemma C8_witness :
  ∃ g config g',
    GastGenerator.init keras_Model_init (generator_args false) = Ok g ∧
    GastGenerator.get_config (GastGenerator.attrs g) = Ok config ∧
    GastGenerator.from_config keras_Model_init config = Ok g' ∧
    GastGenerator.get_config (GastGenerator.attrs g') = Ok config.
Proof.
  destruct (GastGenerator.init keras_Model_init (generator_args false))
    as [g|] eqn:Hg; [|by vm_compute in Hg].
  destruct (C8_config_round_trip keras_Model_init (generator_args false) g
              {["name" := VStr "model"]} stand_in_has_no_num_samples
              eq_refl Hg)
    as (config & g' & H1 & _ & _ & _ & H2 & _ & _ & H3).
  exists g, config, g'. split; [reflexivity|].
  split; [exact H1|]. split; [exact H2|exact H3].
Defined.

Lemma C8_counterexample :
  ∃ g config,
    GastGenerator.init keras_Model_init (generator_args false) = Ok g ∧
    GastGenerator.get_config (GastGenerator.attrs g) = Ok config ∧
    size config = 17 ∧ size config ≠ 14.
Proof.
  destruct (GastGenerator.init keras_Model_init (generator_args false))
    as [g|] eqn:Hg; [|by vm_compute in Hg].
  destruct (GeneratorFacts.round_trip keras_Model_init (generator_args false)
              g {["name" := VStr "model"]} stand_in_has_no_num_samples
              eq_refl Hg)
    as (config & g' & H1 & H2 & _).
  exists g, config. rewrite H2. by repeat split.
Qed.
End GastTheorems.

(** ** The run of the dataset script *)

Module DatasetTraceFacts.
Import PrepareLocalDataset DatasetSpec DatasetTrace DatasetFacts.

Local Arguments Ascii.eqb : simpl never.
Local Set Default Proof Using "Type".

Lemma parent_div p s : parent (p // s) = p.
Proof.
  destruct p as [a l]. unfold parent, div. simpl.
  by rewrite removelast_last.
Qed.

Lemma fasta_is_not_fastq file : is_fasta file = true → is_fastq file = false.
Proof.
  unfold is_fasta, is_fastq, Py.endswith. intros H.
  apply orb_false_iff.
  apply orb_true_iff in H as [H|H];
    apply starts_with_app in H as [r Hr]; rewrite Hr; done.
Qed.

Section Run.
Variable Rng : Type.
Variable shuffle : ∀ A : Type, Rng → list A → list A * Rng.
Variable ALL_BASES : string.
Variable fasta_entries : Path → list FastaEntry.
Variable fastq_entries : Path → list FastqEntry.
Variable path_exists : Path → bool.

Lemma check_files_filter files : ∀ fa0 fq0 fa fq,
  check_files path_exists files fa0 fq0 = Some (fa, fq) →
  fa = fa0 ++ List.filter is_fasta files ∧
  fq = fq0 ++ List.filter is_fastq files.
Proof.
  induction files as [|file rest IH]; intros fa0 fq0 fa fq; simpl.
  - intros [= <- <-]. by rewrite !app_nil_r.
  - destruct (path_exists file); simpl; [|done].
    destruct (is_fasta file) eqn:Ha.
    + rewrite (fasta_is_not_fastq file Ha). intros H.
      apply IH in H as [-> ->]. by rewrite <- app_assoc.
    + destruct (is_fastq file) eqn:Hq; [|done]. intros H.
      apply IH in H as [-> ->]. by rewrite <- app_assoc.
Qed.

Lemma make_directories_closed config out count : ∀ i,
  make_directories config out i count
  = Mkdir <$> flat_map (split_directories config out) (seq i count).
Proof.
  induction count as [|count IH]; intros i; simpl; [done|].
  rewrite IH, fmap_app. unfold split_directories.
  by destruct (Py.gt (test_split config) 0).
Qed.

Lemma split_loop_files {A} config filename k out count :
  ∀ i (entries : list A) rng,
  (split_loop Rng shuffle config filename k out i count entries rng).1.1
  = omap text_file
      (split_loop Rng shuffle config filename k out i count entries rng).1.2.
Proof.
  induction count as [|count IH]; intros i entries rng; simpl; [done|].
  destruct (shuffle A rng entries) as [sh rng1].
  specialize (IH (S i) sh rng1).
  destruct (split_loop _ _ _ _ _ _ _ _ _ _) as [[fs ws] rng2]. simpl in IH |- *.
  unfold output_file, output_database.
  destruct (Py.gt (test_split config) 0), (output_fasta_fastq config),
    (output_db config); simpl; by rewrite IH.
Qed.

Lemma split_loop_parents {A} config filename k out count :
  ∀ i (entries : list A) rng,
  Forall (λ w, parent (w_path w)
               ∈ flat_map (split_directories config out) (seq i count))
    (split_loop Rng shuffle config filename k out i count entries rng).1.2.
Proof.
  induction count as [|count IH]; intros i entries rng; simpl; [done|].
  destruct (shuffle A rng entries) as [sh rng1].
  specialize (IH (S i) sh rng1).
  destruct (split_loop _ _ _ _ _ _ _ _ _ _) as [[fs ws] rng2]. simpl in IH |- *.
  assert (Hrest : Forall (λ w, parent (w_path w)
      ∈ split_directories config out i
        ++ flat_map (split_directories config out) (seq (S i) count)) ws).
  { eapply Forall_impl; [exact IH|]. intros w Hw. apply elem_of_app. by right. }
  unfold output_file, output_database, split_directories in Hrest |- *.
  destruct (Py.gt (test_split config) 0), (output_fasta_fastq config),
    (output_db config); simpl;
    repeat (constructor; [simpl; rewrite parent_div; set_solver -|]); done.
Qed.

Lemma process_fasta_files_trace config files out : ∀ rng,
  let run := process_fasta_files Rng shuffle ALL_BASES fasta_entries
               config files out rng in
  run.1.1 = omap text_file run.1.2 ∧
  Forall (λ w, parent (w_path w)
               ∈ flat_map (split_directories config out)
                   (seq 0 (Z.to_nat (num_splits config)))) run.1.2.
Proof.
  induction files as [|file rest IH]; intros rng; simpl; [done|].
  match goal with |- context [split_loop _ _ ?c ?f ?k ?o ?i ?n ?e ?r] =>
    pose proof (split_loop_files c f k o n i e r) as Hf;
    pose proof (split_loop_parents c f k o n i e r) as Hp;
    destruct (split_loop Rng shuffle c f k o i n e r) as [[fs ws] rng1]
  end.
  destruct (IH rng1) as [IHf IHp].
  destruct (process_fasta_files _ _ _ _ _ _ _ _) as [[fs' ws'] rng2].
  simpl in Hf, Hp, IHf, IHp |- *. split.
  - by rewrite omap_app, Hf, IHf.
  - by apply Forall_app.
Qed.

Lemma process_fastq_files_trace config files out : ∀ rng,
  let run := process_fastq_files Rng shuffle fastq_entries
               config files out rng in
  run.1.1 = omap text_file run.1.2 ∧
  Forall (λ w, parent (w_path w)
               ∈ flat_map (split_directories config out)
                   (seq 0 (Z.to_nat (num_splits config)))) run.1.2.
Proof.
  induction files as [|file rest IH]; intros rng; simpl; [done|].
  match goal with |- context [split_loop _ _ ?c ?f ?k ?o ?i ?n ?e ?r] =>
    pose proof (split_loop_files c f k o n i e r) as Hf;
    pose proof (split_loop_parents c f k o n i e r) as Hp;
    destruct (split_loop Rng shuffle c f k o i n e r) as [[fs ws] rng1]
  end.
  destruct (IH rng1) as [IHf IHp].
  destruct (process_fastq_files _ _ _ _ _ _ _) as [[fs' ws'] rng2].
  simpl in Hf, Hp, IHf, IHp |- *. split.
  - by rewrite omap_app, Hf, IHf.
  - by apply Forall_app.
Qed.

Local Abbreviation main :=
  (main Rng shuffle ALL_BASES fasta_entries fastq_entries path_exists).
Local Abbreviation process_fasta :=
  (process_fasta_files Rng shuffle ALL_BASES fasta_entries).
Local Abbreviation process_fastq :=
  (process_fastq_files Rng shuffle fastq_entries).

Lemma main_run config rng0 :
  (main config rng0).1 = None →
  let out := output_path config in
  let fasta := process_fasta config
                 (List.filter is_fasta (data_files config)) out rng0 in
  let fastq := process_fastq config
                 (List.filter is_fastq (data_files config)) out fasta.2 in
  (main config rng0).2
  = phases
      (flat_map (split_directories config out)
                (seq 0 (Z.to_nat (num_splits config))))
      fasta.1.2 fastq.1.2
      (if compress config then fasta.1.1 ++ fastq.1.1 else []).
Proof.
  unfold PrepareLocalDataset.main, phases.
  destruct (negb _); [done|].
  destruct (_ && _); [done|].
  destruct (_ && _); [done|].
  destruct (check_files _ _ _ _) as [[fa fq]|] eqn:Hc; [|done].
  apply check_files_filter in Hc as [-> ->]. simpl app. intros _.
  rewrite make_directories_closed.
  destruct (List.filter is_fasta (data_files config)) as [|f fa] eqn:Ha;
    destruct (List.filter is_fastq (data_files config)) as [|q fq] eqn:Hq.
  - simpl. by destruct (compress config).
  - cbn [length Nat.ltb Nat.leb process_fasta_files fst snd].
    destruct (process_fastq_files _ _ _ _ _ _ _) as [[fs ws] r].
    simpl. by destruct (compress config).
  - cbn [length Nat.ltb Nat.leb process_fastq_files fst snd].
    destruct (process_fasta_files _ _ _ _ _ _ _ _) as [[fs ws] r].
    simpl. rewrite !app_nil_r. by destruct (compress config).
  - cbn [length Nat.ltb Nat.leb].
    destruct (process_fasta_files _ _ _ _ _ _ _ _) as [[fs ws] r].
    cbn [fst snd].
    destruct (process_fastq_files _ _ _ _ _ _ _) as [[fs' ws'] r'].
    cbn [fst snd]. rewrite <- !app_assoc. by destruct (compress config).
Qed.

(** X1. A run of [main] that passes the input checks works in four phases,
    whatever the order of the data files on the command line: it creates
    the directories of every split, processes the FASTA files in
    command-line order, then the FASTQ files in command-line order with
    the generator as the FASTA files left it, and finally compresses the
    text files written, if asked to. *)
Theorem X1_main_runs_in_phases config rng0 :
  (main config rng0).1 = None →
  let out := output_path config in
  let fasta := process_fasta config
                 (List.filter is_fasta (data_files config)) out rng0 in
  let fastq := process_fastq config
                 (List.filter is_fastq (data_files config)) out fasta.2 in
  (main config rng0).2
  = phases
      (flat_map (split_directories config out)
                (seq 0 (Z.to_nat (num_splits config))))
      fasta.1.2 fastq.1.2
      (if compress config then fasta.1.1 ++ fastq.1.1 else []).
Proof. apply main_run. Qed.

Lemma made_directories_phases dirs fa fq cs :
  made_directories (phases dirs fa fq cs) = dirs.
Proof.
  unfold made_directories, phases. rewrite !omap_app.
  replace (omap made_directory (Mkdir <$> dirs)) with dirs
    by (induction dirs; simpl; by f_equal).
  replace (omap made_directory (WriteFasta <$> fa)) with (@nil Path)
    by (induction fa; simpl; by f_equal).
  replace (omap made_directory (WriteFastq <$> fq)) with (@nil Path)
    by (induction fq; simpl; by f_equal).
  replace (omap made_directory (Compress <$> cs)) with (@nil Path)
    by (induction cs; simpl; by f_equal).
  by rewrite !app_nil_r.
Qed.

Lemma written_paths_phases dirs fa fq cs :
  written_paths (phases dirs fa fq cs) = (w_path <$> fa) ++ (w_path <$> fq).
Proof.
  unfold phases. rewrite !written_paths_app, written_paths_fasta,
    written_paths_fastq, written_paths_compress.
  replace (written_paths (Mkdir <$> dirs)) with (@nil Path)
    by (induction dirs; simpl; by f_equal).
  by rewrite app_nil_r.
Qed.

Lemma compressed_files_phases dirs fa fq cs :
  compressed_files (phases dirs fa fq cs) = cs.
Proof.
  unfold compressed_files, phases. rewrite !omap_app.
  replace (omap compressed_file (Mkdir <$> dirs)) with (@nil Path)
    by (induction dirs; simpl; by f_equal).
  replace (omap compressed_file (WriteFasta <$> fa)) with (@nil Path)
    by (induction fa; simpl; by f_equal).
  replace (omap compressed_file (WriteFastq <$> fq)) with (@nil Path)
    by (induction fq; simpl; by f_equal).
  replace (omap compressed_file (Compress <$> cs)) with cs
    by (induction cs; simpl; by f_equal).
  done.
Qed.

Lemma written_text_files_app u v :
  written_text_files (u ++ v) = written_text_files u ++ written_text_files v.
Proof. apply omap_app. Qed.

Lemma written_text_files_fasta ws :
  written_text_files (WriteFasta <$> ws) = omap text_file ws.
Proof.
  unfold written_text_files. induction ws as [|w ws IH]; [done|].
  cbn [fmap list_fmap omap list_omap written_text_file].
  by rewrite <- IH.
Qed.

Lemma written_text_files_fastq ws :
  written_text_files (WriteFastq <$> ws) = omap text_file ws.
Proof.
  unfold written_text_files. induction ws as [|w ws IH]; [done|].
  cbn [fmap list_fmap omap list_omap written_text_file].
  by rewrite <- IH.
Qed.

Lemma written_text_files_phases dirs fa fq cs :
  written_text_files (phases dirs fa fq cs)
  = omap text_file fa ++ omap text_file fq.
Proof.
  unfold phases. rewrite !written_text_files_app.
  rewrite written_text_files_fasta, written_text_files_fastq.
  replace (written_text_files (Mkdir <$> dirs)) with (@nil Path)
    by (induction dirs; simpl; by f_equal).
  replace (written_text_files (Compress <$> cs)) with (@nil Path)
    by (induction cs; simpl; by f_equal).
  by rewrite !app_nil_r.
Qed.

(** X2. [main] writes every file and database into a directory that it
    has created. *)
Theorem X2_outputs_lie_in_created_directories config rng0 :
  Forall (λ p, parent p ∈ made_directories (main config rng0).2)
         (written_paths (main config rng0).2).
Proof.
  destruct (main_cases Rng shuffle ALL_BASES fasta_entries fastq_entries
              path_exists config rng0) as [[_ Hm]|[_ Hm]].
  - by rewrite Hm.
  - rewrite (main_run config rng0 Hm). cbv zeta.
    rewrite made_directories_phases, written_paths_phases.
    apply Forall_app. split; apply Forall_fmap.
    + apply process_fasta_files_trace.
    + apply process_fastq_files_trace.
Qed.

(** X3. With [--compress], [main] compresses exactly the FASTA and FASTQ
    text files it has written, in the order in which it wrote them, and no
    database; without, it compresses nothing. *)
Theorem X3_compresses_the_text_files config rng0 :
  compressed_files (main config rng0).2
  = if compress config then written_text_files (main config rng0).2 else [].
Proof.
  destruct (main_cases Rng shuffle ALL_BASES fasta_entries fastq_entries
              path_exists config rng0) as [[_ Hm]|[_ Hm]].
  - rewrite Hm. by destruct (compress config).
  - rewrite (main_run config rng0 Hm). cbv zeta.
    rewrite compressed_files_phases, written_text_files_phases.
    destruct (compress config); [|done]. f_equal.
    + apply process_fasta_files_trace.
    + apply process_fastq_files_trace.
Qed.
End Run.
End DatasetTraceFacts.

(** ** Cleaning and output formats *)

Module CleaningFacts.
Import PrepareLocalDataset DatasetSpec DatasetTrace DatasetFacts.

Local Arguments Ascii.eqb : simpl never.
Local Set Default Proof Using "Type".

Lemma chars_of_chars l : Py.chars (Py.of_chars l) = l.
Proof. apply list_ascii_of_string_of_list_ascii. Qed.

Lemma filter_all {A} (f : A → bool) l :
  List.filter f l = l ↔ Forall (λ x, f x = true) l.
Proof.
  induction l as [|x l IH]; simpl; [by split|].
  destruct (f x) eqn:Hx.
  - split.
    + intros [= H]. constructor; [done|]. by apply IH.
    + intros H. inversion H; subst. f_equal. by apply IH.
  - split.
    + intros H. exfalso.
      assert (Hl : (length (List.filter f l) <= length l)%nat)
        by apply List.filter_length_le.
      rewrite H in Hl. simpl in Hl. lia.
    + intros H. inversion H; subst. congruence.
Qed.

Lemma filter_sublist {A} (f : A → bool) l : sublist (List.filter f l) l.
Proof.
  induction l as [|x l IH]; simpl; [constructor|].
  destruct (f x); by constructor.
Qed.

Lemma filter_twice {A} (f : A → bool) l :
  List.filter f (List.filter f l) = List.filter f l.
Proof.
  apply filter_all, Forall_forall. intros x Hx.
  apply list_elem_of_In, filter_In in Hx. tauto.
Qed.

Section Cleaning.
Variable ALL_BASES : string.

(** X4. Cleaning an entry keeps its identifier and its extra text, and
    deletes from its sequence the characters that are not in [ALL_BASES]:
    what remains are characters of [ALL_BASES], in their order in the
    sequence. Cleaning a second time changes nothing, and an entry is left
    as it is exactly when its sequence has characters of [ALL_BASES]
    only. *)
Theorem X4_cleaning_keeps_the_known_bases entry :
  let cleaned := clean ALL_BASES entry in
  fa_identifier cleaned = fa_identifier entry
  ∧ fa_extra cleaned = fa_extra entry
  ∧ sublist (Py.chars (fa_sequence cleaned)) (Py.chars (fa_sequence entry))
  ∧ Forall (λ c, Py.char_in ALL_BASES c = true)
           (Py.chars (fa_sequence cleaned))
  ∧ clean ALL_BASES cleaned = cleaned
  ∧ (cleaned = entry
     ↔ Forall (λ c, Py.char_in ALL_BASES c = true)
              (Py.chars (fa_sequence entry))).
Proof.
  destruct entry as [i s x]. unfold clean, Py.re_sub_outside. simpl.
  rewrite !chars_of_chars.
  split; [done|]. split; [done|]. split; [apply filter_sublist|].
  split.
  { apply Forall_forall. intros c Hc.
    apply list_elem_of_In, filter_In in Hc. tauto. }
  split; [by rewrite filter_twice|].
  rewrite <- filter_all. split.
  - intros [= H]. by rewrite <- H at 2; rewrite chars_of_chars.
  - intros H. by rewrite H, of_chars_chars.
Qed.
End Cleaning.

Section Run.
Variable Rng : Type.
Variable shuffle : ∀ A : Type, Rng → list A → list A * Rng.
Variable ALL_BASES : string.
Variable fasta_entries : Path → list FastaEntry.
Variable fastq_entries : Path → list FastqEntry.

Lemma slice_to_map {A B} (f : A → B) l k :
  Py.slice_to (map f l) k = map f (Py.slice_to l k).
Proof.
  unfold Py.slice_to. rewrite length_map. symmetry. apply fmap_take.
Qed.

Lemma slice_from_map {A B} (f : A → B) l k :
  Py.slice_from (map f l) k = map f (Py.slice_from l k).
Proof.
  unfold Py.slice_from. rewrite length_map. symmetry. apply fmap_drop.
Qed.

Lemma split_index_same {A B} config config' (l : list A) (l' : list B) :
  test_split config' = test_split config → length l' = length l →
  split_index config' l' = split_index config l.
Proof.
  unfold split_index, split_product. by intros -> ->.
Qed.

Lemma split_loop_map {A B} (f : A → B) config config' filename k out count :
  by_position shuffle →
  test_split config' = test_split config →
  output_fasta_fastq config' = output_fasta_fastq config →
  output_db config' = output_db config →
  ∀ i entries rng,
  let run := split_loop Rng shuffle config filename k out i count
               entries rng in
  split_loop Rng shuffle config' filename k out i count (map f entries) rng
  = (run.1.1, map_entries f <$> run.1.2, run.2).
Proof.
  intros Hsh Ht Hf Hd.
  induction count as [|count IH]; intros i entries rng; simpl; [done|].
  rewrite Hsh. destruct (shuffle A rng entries) as [sh rng1]. simpl.
  rewrite IH. clear IH.
  destruct (split_loop _ _ config _ _ _ _ _ _ _) as [[fs ws] rng2]. simpl.
  rewrite Ht, Hf, Hd.
  unfold output_file, output_database. rewrite Ht.
  destruct (Py.gt (test_split config) 0), (output_fasta_fastq config),
    (output_db config); simpl;
    rewrite ?slice_to_map, ?slice_from_map; done.
Qed.

Local Abbreviation process_fasta :=
  (process_fasta_files Rng shuffle ALL_BASES fasta_entries).
Local Abbreviation process_fastq :=
  (process_fastq_files Rng shuffle fastq_entries).

Lemma cleaning_commutes config files out :
  by_position shuffle →
  ∀ rng,
  let plain := process_fasta (with_clean_sequences config false)
                 files out rng in
  process_fasta (with_clean_sequences config true) files out rng
  = (plain.1.1, map_entries (clean ALL_BASES) <$> plain.1.2, plain.2).
Proof.
  intros Hsh. induction files as [|file rest IH]; intros rng; [done|].
  cbn [process_fasta_files]. unfold read_fasta.
  cbn [clean_sequences with_clean_sequences test_split num_splits].
  rewrite (split_index_same (with_clean_sequences config false)
             (with_clean_sequences config true) (fasta_entries file))
    by (try done; apply length_map).
  rewrite (split_loop_map (clean ALL_BASES)
             (with_clean_sequences config false)
             (with_clean_sequences config true)) by done.
  cbv zeta.
  destruct (split_loop _ _ _ _ _ _ _ _ _ _) as [[fs ws] rng1].
  cbn [fst snd]. rewrite IH. cbv zeta.
  destruct (process_fasta_files _ _ _ _ _ _ _ _) as [[fs' ws'] rng2].
  cbn [fst snd]. by rewrite fmap_app.
Qed.

(** X5. Cleaning commutes with splitting, when [rng.shuffle] moves the
    elements of a list without looking at them: with [--clean-sequences]
    the FASTA files are split exactly as without it, into the same files
    and databases and with the same entries in the same order, each entry
    cleaned; and the generator ends in the same state. *)
Theorem X5_cleaning_commutes_with_splitting config files out rng :
  by_position shuffle →
  let plain := process_fasta (with_clean_sequences config false)
                 files out rng in
  let cleaned := process_fasta (with_clean_sequences config true)
                   files out rng in
  cleaned.1.1 = plain.1.1
  ∧ cleaned.1.2 = map_entries (clean ALL_BASES) <$> plain.1.2
  ∧ cleaned.2 = plain.2.
Proof.
  intros Hsh. cbv zeta. by rewrite cleaning_commutes.
Qed.

Lemma split_loop_flag {A} config b filename k out count :
  ∀ i (entries : list A) rng,
  split_loop Rng shuffle (with_clean_sequences config b) filename k out
    i count entries rng
  = split_loop Rng shuffle config filename k out i count entries rng.
Proof.
  induction count as [|count IH]; intros i entries rng; simpl; [done|].
  destruct (shuffle A rng entries) as [sh rng1]. by rewrite IH.
Qed.

(** X6. [--clean-sequences] has no effect on FASTQ files: they are read,
    split and written alike with and without it. *)
Theorem X6_fastq_files_are_never_cleaned config b files out rng :
  process_fastq (with_clean_sequences config b) files out rng
  = process_fastq config files out rng.
Proof.
  revert rng. induction files as [|file rest IH]; intros rng; [done|].
  cbn [process_fastq_files]. rewrite split_loop_flag.
  cbn [test_split num_splits with_clean_sequences].
  destruct (split_loop _ _ _ _ _ _ _ _ _ _) as [[fs ws] rng1].
  by rewrite IH.
Qed.

Lemma text_writes_app {A} (u v : list (write A)) :
  text_writes (u ++ v) = text_writes u ++ text_writes v.
Proof. apply List.filter_app. Qed.

Lemma database_writes_app {A} (u v : list (write A)) :
  database_writes (u ++ v) = database_writes u ++ database_writes v.
Proof. apply List.filter_app. Qed.

Lemma split_loop_stores {A} config filename k out count :
  output_fasta_fastq config = true → output_db config = true →
  ∀ i (entries : list A) rng,
  let ws := (split_loop Rng shuffle config filename k out i count
               entries rng).1.2 in
  content <$> text_writes ws = content <$> database_writes ws.
Proof.
  intros Hf Hd.
  induction count as [|count IH]; intros i entries rng; [done|].
  cbn [split_loop].
  destruct (shuffle A rng entries) as [sh rng1].
  specialize (IH (S i) sh rng1).
  destruct (split_loop _ _ _ _ _ _ _ _ _ _) as [[fs ws] rng2].
  rewrite Hf, Hd. unfold output_file, output_database.
  destruct (Py.gt (test_split config) 0); cbn [fst snd] in IH |- *;
    rewrite !text_writes_app, !database_writes_app, !fmap_app, IH; done.
Qed.

(** X7. With both [--output-fasta-fastq] and [--output-db], the databases
    hold what the text files hold: listed in the order of writing, the
    text files and the databases have the same roles (test or train), are
    built from the same paths and receive the same entries in the same
    order. *)
Theorem X7_databases_hold_what_the_files_hold config files out rng :
  output_fasta_fastq config = true → output_db config = true →
  let fasta := (process_fasta config files out rng).1.2 in
  let fastq := (process_fastq config files out rng).1.2 in
  content <$> text_writes fasta = content <$> database_writes fasta
  ∧ content <$> text_writes fastq = content <$> database_writes fastq.
Proof.
  intros Hf Hd. cbv zeta. split.
  - revert rng. induction files as [|file rest IH]; intros rng; [done|].
    cbn [process_fasta_files].
    match goal with |- context [split_loop _ _ ?c ?f ?k ?o ?i ?n ?e ?r] =>
      pose proof (split_loop_stores c f k o n Hf Hd i e r) as Hs;
      destruct (split_loop Rng shuffle c f k o i n e r) as [[fs ws] rng1]
    end.
    specialize (IH rng1).
    destruct (process_fasta_files _ _ _ _ _ _ _ _) as [[fs' ws'] rng2].
    cbn [fst snd] in Hs, IH |- *.
    by rewrite text_writes_app, database_writes_app, !fmap_app, Hs, IH.
  - revert rng. induction files as [|file rest IH]; intros rng; [done|].
    cbn [process_fastq_files].
    match goal with |- context [split_loop _ _ ?c ?f ?k ?o ?i ?n ?e ?r] =>
      pose proof (split_loop_stores c f k o n Hf Hd i e r) as Hs;
      destruct (split_loop Rng shuffle c f k o i n e r) as [[fs ws] rng1]
    end.
    specialize (IH rng1).
    destruct (process_fastq_files _ _ _ _ _ _ _) as [[fs' ws'] rng2].
    cbn [fst snd] in Hs, IH |- *.
    by rewrite text_writes_app, database_writes_app, !fmap_app, Hs, IH.
Qed.
End Run.
End CleaningFacts.

(** ** Where the outputs go *)

Module DatasetPathFacts.
Import PrepareLocalDataset DatasetSpec DatasetTrace DatasetFacts.
Import DatasetTraceFacts.

Local Arguments Ascii.eqb : simpl never.
Local Set Default Proof Using "Type".

Lemma str_inj i j : Py.str i = Py.str j → i = j.
Proof.
  unfold Py.str. intros H.
  apply DecimalNat.Unsigned.to_uint_inj.
  assert (Some (Nat.to_uint i) = Some (Nat.to_uint j)) as [= E]; [|done].
  by rewrite <- !NilEmpty.usu, H.
Qed.

Lemma div_inj p q s t : p // s = q // t → p = q ∧ s = t.
Proof.
  destruct p as [a l], q as [b k]. unfold div. simpl. intros [= -> H].
  apply app_inj_tail in H as [-> ->]. done.
Qed.

Lemma NoDup_files {B} (D : list Path) (g : B → string) (files : list B) :
  NoDup D → NoDup (g <$> files) →
  NoDup (flat_map (λ file, (λ d, d // g file) <$> D) files).
Proof.
  intros HD. induction files as [|file rest IH]; simpl; [constructor|].
  intros Hn. apply NoDup_cons in Hn as [Hfile Hrest].
  apply NoDup_app. split; [|split; [|by apply IH]].
  - apply NoDup_fmap_2; [|done]. intros d d' H. by apply div_inj in H as [? _].
  - intros p Hp Hp'.
    apply list_elem_of_fmap in Hp as (d & -> & Hd).
    apply list_elem_of_In, in_flat_map in Hp' as (file' & Hf' & Hp').
    apply list_elem_of_In, list_elem_of_fmap in Hp' as (d' & E & Hd').
    apply div_inj in E as [_ E]. apply Hfile. rewrite E.
    apply list_elem_of_fmap. exists file'. split; [done|].
    by apply list_elem_of_In.
Qed.

Lemma NoDup_split_directories config out count : ∀ i,
  Py.gt (test_split config) 0 = true →
  NoDup (flat_map (split_directories config out) (seq i count)).
Proof.
  intros i Ht. revert i.
  induction count as [|count IH]; intros i; simpl; [constructor|].
  apply NoDup_app. split; [|split; [|apply IH]].
  - unfold split_directories. rewrite Ht.
    apply NoDup_cons. split; [|apply NoDup_singleton].
    rewrite list_elem_of_singleton. intros H. by apply div_inj in H as [_ ?].
  - intros p Hp Hp'.
    apply list_elem_of_In, in_flat_map in Hp' as (j & Hj & Hp').
    apply in_seq in Hj. apply list_elem_of_In in Hp'.
    unfold split_directories in Hp, Hp'. rewrite Ht in Hp, Hp'.
    assert (∃ r r', p = out // Py.str i // r ∧ p = out // Py.str j // r')
      as (r & r' & E & E').
    { apply elem_of_cons in Hp as [Hp|Hp];
        [|apply list_elem_of_singleton in Hp];
        (apply elem_of_cons in Hp' as [Hp'|Hp'];
         [|apply list_elem_of_singleton in Hp']); eauto. }
    rewrite E in E'. apply div_inj in E' as [E' _].
    apply div_inj in E' as [_ E']. apply str_inj in E'. lia.
Qed.

Lemma flat_map_fmap {B C D} (f : B → list C) (g : C → D) l :
  flat_map (λ x, g <$> f x) l = g <$> flat_map f l.
Proof.
  induction l as [|x l IH]; simpl; [done|]. by rewrite fmap_app, IH.
Qed.

Section Run.
Variable Rng : Type.
Variable shuffle : ∀ A : Type, Rng → list A → list A * Rng.
Variable ALL_BASES : string.
Variable fasta_entries : Path → list FastaEntry.
Variable fastq_entries : Path → list FastqEntry.
Variable path_exists : Path → bool.

Lemma split_loop_text_files {A} config filename k out count :
  ∀ i (entries : list A) rng,
  omap text_file
    (split_loop Rng shuffle config filename k out i count entries rng).1.2
  = if output_fasta_fastq config
    then (λ d, d // filename)
         <$> flat_map (split_directories config out) (seq i count)
    else [].
Proof.
  induction count as [|count IH]; intros i entries rng.
  { simpl. by destruct (output_fasta_fastq config). }
  cbn [split_loop seq flat_map].
  destruct (shuffle A rng entries) as [sh rng1].
  specialize (IH (S i) sh rng1).
  destruct (split_loop _ _ _ _ _ _ _ _ _ _) as [[fs ws] rng2].
  cbn [fst snd] in IH |- *. rewrite fmap_app.
  unfold output_file, output_database, split_directories in IH |- *.
  destruct (Py.gt (test_split config) 0), (output_fasta_fastq config),
    (output_db config); cbn [fst snd];
    rewrite ?omap_app, IH; done.
Qed.

Lemma split_loop_databases {A} config filename k out count :
  ∀ i (entries : list A) rng,
  omap database
    (split_loop Rng shuffle config filename k out i count entries rng).1.2
  = if output_db config
    then (λ d, d // filename)
         <$> flat_map (split_directories config out) (seq i count)
    else [].
Proof.
  induction count as [|count IH]; intros i entries rng.
  { simpl. by destruct (output_db config). }
  cbn [split_loop seq flat_map].
  destruct (shuffle A rng entries) as [sh rng1].
  specialize (IH (S i) sh rng1).
  destruct (split_loop _ _ _ _ _ _ _ _ _ _) as [[fs ws] rng2].
  cbn [fst snd] in IH |- *. rewrite fmap_app.
  unfold output_file, output_database, split_directories in IH |- *.
  destruct (Py.gt (test_split config) 0), (output_fasta_fastq config),
    (output_db config); cbn [fst snd];
    rewrite ?omap_app, IH; done.
Qed.

Local Abbreviation main :=
  (main Rng shuffle ALL_BASES fasta_entries fastq_entries path_exists).
Local Abbreviation process_fasta :=
  (process_fasta_files Rng shuffle ALL_BASES fasta_entries).
Local Abbreviation process_fastq :=
  (process_fastq_files Rng shuffle fastq_entries).

(** The paths of all files of the data files [files], file by file. *)
Local Abbreviation all_paths config out files :=
  (flat_map (λ file, (λ d, d // output_name file)
      <$> flat_map (split_directories config out)
            (seq 0 (Z.to_nat (num_splits config)))) files).

Lemma process_fasta_paths config files out : ∀ rng,
  let ws := (process_fasta config files out rng).1.2 in
  omap text_file ws
  = (if output_fasta_fastq config then all_paths config out files else [])
  ∧ omap database ws
  = (if output_db config then all_paths config out files else []).
Proof.
  induction files as [|file rest IH]; intros rng.
  { simpl. by destruct (output_fasta_fastq config), (output_db config). }
  cbn [process_fasta_files flat_map].
  match goal with |- context [split_loop _ _ ?c ?f ?k ?o ?i ?n ?e ?r] =>
    pose proof (split_loop_text_files c f k o n i e r) as Hf;
    pose proof (split_loop_databases c f k o n i e r) as Hd;
    destruct (split_loop Rng shuffle c f k o i n e r) as [[fs ws] rng1]
  end.
  destruct (IH rng1) as [IHf IHd].
  destruct (process_fasta_files _ _ _ _ _ _ _ _) as [[fs' ws'] rng2].
  cbn [fst snd] in Hf, Hd, IHf, IHd |- *.
  rewrite !omap_app, Hf, Hd, IHf, IHd.
  unfold output_name.
  by destruct (output_fasta_fastq config), (output_db config).
Qed.

Lemma process_fastq_paths config files out : ∀ rng,
  let ws := (process_fastq config files out rng).1.2 in
  omap text_file ws
  = (if output_fasta_fastq config then all_paths config out files else [])
  ∧ omap database ws
  = (if output_db config then all_paths config out files else []).
Proof.
  induction files as [|file rest IH]; intros rng.
  { simpl. by destruct (output_fasta_fastq config), (output_db config). }
  cbn [process_fastq_files flat_map].
  match goal with |- context [split_loop _ _ ?c ?f ?k ?o ?i ?n ?e ?r] =>
    pose proof (split_loop_text_files c f k o n i e r) as Hf;
    pose proof (split_loop_databases c f k o n i e r) as Hd;
    destruct (split_loop Rng shuffle c f k o i n e r) as [[fs ws] rng1]
  end.
  destruct (IH rng1) as [IHf IHd].
  destruct (process_fastq_files _ _ _ _ _ _ _) as [[fs' ws'] rng2].
  cbn [fst snd] in Hf, Hd, IHf, IHd |- *.
  rewrite !omap_app, Hf, Hd, IHf, IHd.
  unfold output_name.
  by destruct (output_fasta_fastq config), (output_db config).
Qed.

Lemma accepted_files files :
  List.filter is_fasta files ++ List.filter is_fastq files ⊆+ files.
Proof.
  induction files as [|file rest IH]; simpl; [done|].
  destruct (is_fasta file) eqn:Ha.
  - rewrite (fasta_is_not_fastq file Ha). simpl. by constructor.
  - destruct (is_fastq file).
    + rewrite <- Permutation_middle. by constructor.
    + by constructor.
Qed.

Lemma NoDup_accepted_names files :
  NoDup (output_name <$> files) →
  NoDup (output_name
         <$> (List.filter is_fasta files ++ List.filter is_fastq files)).
Proof.
  intros Hn.
  destruct (submseteq_Permutation _ _
              (fmap_submseteq output_name _ _ (accepted_files files)))
    as [k Hk].
  rewrite Hk in Hn. by apply NoDup_app in Hn as [? _].
Qed.

Lemma written_databases_phases dirs fa fq cs :
  written_databases (phases dirs fa fq cs)
  = omap database fa ++ omap database fq.
Proof.
  unfold phases, written_databases. rewrite !omap_app.
  replace (omap written_database (Mkdir <$> dirs)) with (@nil Path)
    by (induction dirs; simpl; by f_equal).
  replace (omap written_database (Compress <$> cs)) with (@nil Path)
    by (induction cs; simpl; by f_equal).
  replace (omap written_database (WriteFasta <$> fa))
    with (omap database fa).
  2:{ induction fa as [|w fa IH]; [done|].
      cbn [fmap list_fmap omap list_omap written_database].
      by rewrite <- IH. }
  replace (omap written_database (WriteFastq <$> fq))
    with (omap database fq).
  2:{ induction fq as [|w fq IH]; [done|].
      cbn [fmap list_fmap omap list_omap written_database].
      by rewrite <- IH. }
  by rewrite app_nil_r.
Qed.

Lemma NoDup_directories config :
  ¬ invalid_input path_exists config →
  (0 <= test_split config)%Q →
  NoDup (flat_map (split_directories config (output_path config))
           (seq 0 (Z.to_nat (num_splits config)))).
Proof.
  intros Hv Ht.
  destruct (Py.gt (test_split config) 0) eqn:Hgt.
  { by apply NoDup_split_directories. }
  assert (Hn : (num_splits config <= 1)%Z).
  { destruct (Z.le_gt_cases (num_splits config) 1) as [|Hlt]; [done|].
    exfalso. apply Hv. right. left. split; [lia|].
    apply Qle_antisym; [|done].
    unfold Py.gt in Hgt. apply negb_false_iff in Hgt.
    by apply Qle_bool_iff. }
  unfold split_directories. rewrite Hgt.
  destruct (Z.to_nat (num_splits config)) as [|[|n]] eqn:E; simpl.
  - constructor.
  - apply NoDup_singleton.
  - lia.
Qed.

(** X8. [main] writes no text file twice and no database twice, when the
    test split is not negative and no two data files have the same name
    up to trailing [.gz] characters: every split of every file has a path
    of its own. *)
Theorem X8_no_output_is_written_twice config rng0 :
  (0 <= test_split config)%Q →
  NoDup (output_name <$> data_files config) →
  NoDup (written_text_files (main config rng0).2)
  ∧ NoDup (written_databases (main config rng0).2).
Proof.
  intros Ht Hn.
  destruct (main_cases Rng shuffle ALL_BASES fasta_entries fastq_entries
              path_exists config rng0) as [[_ Hm]|[Hv Hm]].
  { rewrite Hm. split; constructor. }
  rewrite (main_run Rng shuffle ALL_BASES fasta_entries fastq_entries
             path_exists config rng0 Hm). cbv zeta.
  rewrite written_text_files_phases, written_databases_phases.
  match goal with |- context [process_fastq _ _ _ ?r] =>
    destruct (process_fastq_paths config
                (List.filter is_fastq (data_files config))
                (output_path config) r) as [Hqf Hqd]
  end.
  destruct (process_fasta_paths config
              (List.filter is_fasta (data_files config))
              (output_path config) rng0) as [Haf Had].
  cbv zeta in Haf, Had, Hqf, Hqd. rewrite Haf, Had, Hqf, Hqd.
  assert (Hall : NoDup (all_paths config (output_path config)
      (List.filter is_fasta (data_files config)
       ++ List.filter is_fastq (data_files config)))).
  { apply NoDup_files; [by apply NoDup_directories|].
    by apply NoDup_accepted_names. }
  rewrite flat_map_app in Hall.
  split.
  - destruct (output_fasta_fastq config); [done|constructor].
  - destruct (output_db config); [done|constructor].
Qed.

(** X9. Without a positive test split, every split of a data file goes to
    the same path, the file's output name in the output directory: the
    list of files that [process_fasta_files] and [process_fastq_files]
    return names that path [num_splits] times. *)
Theorem X9_without_test_split_one_path_per_file config files out rng :
  Py.gt (test_split config) 0 = false →
  output_fasta_fastq config = true →
  let paths := flat_map (λ file, replicate (Z.to_nat (num_splits config))
                                   (out // output_name file)) files in
  (process_fasta config files out rng).1.1 = paths
  ∧ (process_fastq config files out rng).1.1 = paths.
Proof.
  intros Ht Hf. cbv zeta.
  destruct (process_fasta_files_trace Rng shuffle ALL_BASES fasta_entries
              config files out rng) as [-> _].
  destruct (process_fastq_files_trace Rng shuffle fastq_entries
              config files out rng) as [-> _].
  destruct (process_fasta_paths config files out rng) as [-> _].
  destruct (process_fastq_paths config files out rng) as [-> _].
  rewrite Hf.
  assert (E : ∀ file,
    (λ d, d // output_name file)
      <$> flat_map (split_directories config out)
            (seq 0 (Z.to_nat (num_splits config)))
    = replicate (Z.to_nat (num_splits config)) (out // output_name file)).
  { intros file. unfold split_directories. rewrite Ht.
    generalize 0%nat.
    induction (Z.to_nat (num_splits config)) as [|n IH]; intros i; [done|].
    simpl. by rewrite IH. }
  split; induction files as [|file rest IH]; simpl; try done;
    by rewrite E, IH.
Qed.
End Run.

Section Destinations.
Variable Rng Rng' : Type.
Variable shuffle : ∀ A : Type, Rng → list A → list A * Rng.
Variable shuffle' : ∀ A : Type, Rng' → list A → list A * Rng'.
Variable ALL_BASES ALL_BASES' : string.
Variable fasta_entries fasta_entries' : Path → list FastaEntry.
Variable fastq_entries fastq_entries' : Path → list FastqEntry.

Lemma split_loop_destinations {A} config filename k k' out count :
  ∀ i (entries entries' : list A) rng rng',
  destination
    <$> (split_loop Rng shuffle config filename k out i count
           entries rng).1.2
  = destination
    <$> (split_loop Rng' shuffle' config filename k' out i count
           entries' rng').1.2.
Proof.
  induction count as [|count IH]; intros i entries entries' rng rng';
    [done|].
  cbn [split_loop].
  destruct (shuffle A rng entries) as [sh rng1].
  destruct (shuffle' A rng' entries') as [sh' rng1'].
  specialize (IH (S i) sh sh' rng1 rng1').
  destruct (split_loop Rng _ _ _ _ _ _ _ _ _) as [[fs ws] rng2].
  destruct (split_loop Rng' _ _ _ _ _ _ _ _ _) as [[fs' ws'] rng2'].
  cbn [fst snd] in IH |- *.
  unfold output_file, output_database.
  destruct (Py.gt (test_split config) 0), (output_fasta_fastq config),
    (output_db config); cbn [fst snd]; rewrite ?fmap_app, IH; done.
Qed.

(** X10. Where the outputs go is settled by the command line: two runs
    over data files with the same output names, in the same order, write
    to the same text files and databases in the same order, whatever the
    files contain and however the generator shuffles. In particular two
    data files whose names differ in trailing [.gz] characters only are
    written to the same paths. *)
Theorem X10_destinations_depend_on_names_only config files files' out
    rng rng' :
  output_name <$> files = output_name <$> files' →
  destination
    <$> (process_fasta_files Rng shuffle ALL_BASES fasta_entries
           config files out rng).1.2
  = destination
    <$> (process_fasta_files Rng' shuffle' ALL_BASES' fasta_entries'
           config files' out rng').1.2
  ∧ destination
    <$> (process_fastq_files Rng shuffle fastq_entries
           config files out rng).1.2
  = destination
    <$> (process_fastq_files Rng' shuffle' fastq_entries'
           config files' out rng').1.2.
Proof.
  revert files' rng rng'.
  induction files as [|file rest IH]; intros [|file' rest'] rng rng' Hn;
    try done.
  injection Hn as Hfile Hrest. unfold output_name in Hfile.
  cbn [process_fasta_files process_fastq_files]. rewrite Hfile. split.
  - match goal with
    |- context [split_loop Rng shuffle ?c ?f ?k ?o ?i ?n ?e ?r] =>
      match goal with
      |- context [split_loop Rng' shuffle' c f ?k' o i n ?e' ?r'] =>
        pose proof (split_loop_destinations c f k k' o n i e e' r r') as Hs
      end
    end.
    destruct (split_loop Rng _ _ _ _ _ _ _ _ _) as [[fs ws] rng1].
    destruct (split_loop Rng' _ _ _ _ _ _ _ _ _) as [[fs' ws'] rng1'].
    destruct (IH rest' rng1 rng1' Hrest) as [IHa _].
    destruct (process_fasta_files Rng _ _ _ _ _ _ _) as [[gs vs] rng2].
    destruct (process_fasta_files Rng' _ _ _ _ _ _ _) as [[gs' vs'] rng2'].
    cbn [fst snd] in Hs, IHa |- *. by rewrite !fmap_app, Hs, IHa.
  - match goal with
    |- context [split_loop Rng shuffle ?c ?f ?k ?o ?i ?n ?e ?r] =>
      match goal with
      |- context [split_loop Rng' shuffle' c f ?k' o i n ?e' ?r'] =>
        pose proof (split_loop_destinations c f k k' o n i e e' r r') as Hs
      end
    end.
    destruct (split_loop Rng _ _ _ _ _ _ _ _ _) as [[fs ws] rng1].
    destruct (split_loop Rng' _ _ _ _ _ _ _ _ _) as [[fs' ws'] rng1'].
    destruct (IH rest' rng1 rng1' Hrest) as [_ IHq].
    destruct (process_fastq_files Rng _ _ _ _ _ _) as [[gs vs] rng2].
    destruct (process_fastq_files Rng' _ _ _ _ _ _) as [[gs' vs'] rng2'].
    cbn [fst snd] in Hs, IHq |- *. by rewrite !fmap_app, Hs, IHq.
Qed.
End Destinations.
End DatasetPathFacts.

(** ** The names of the outputs *)

Module DatasetNameFacts.
Import PrepareLocalDataset DatasetSpec DatasetTrace DatasetFacts.
Import DatasetTraceFacts DatasetPathFacts.

Local Arguments Ascii.eqb : simpl never.
Local Set Default Proof Using "Type".

Lemma split_outputs_names config out filename i :
  Forall (λ p, name p = filename) (split_outputs config out filename i).
Proof.
  unfold split_outputs, split_directories.
  destruct (Py.gt _ _), (output_fasta_fastq config), (output_db config);
    cbn [fmap list_fmap app];
    repeat (constructor; [apply name_div|]); constructor.
Qed.

Lemma split_outputs_length config out filename i :
  length (split_outputs config out filename i)
  = (b2n (output_fasta_fastq config) + b2n (output_db config))
    * (if Py.gt (test_split config) 0 then 2 else 1).
Proof.
  unfold split_outputs, split_directories.
  by destruct (Py.gt _ _), (output_fasta_fastq config), (output_db config).
Qed.

Lemma outputs_of_names config file :
  Forall (λ p, name p = remove_gz_suffix (name file))
         (outputs_of config file).
Proof.
  unfold outputs_of. apply Forall_flat_map, Forall_forall.
  intros i _. apply split_outputs_names.
Qed.

Lemma flat_map_length {B C} (f : B → list C) c l :
  (∀ x, length (f x) = c) → length (flat_map f l) = length l * c.
Proof.
  intros Hf. induction l as [|x l IH]; [done|].
  cbn [flat_map length Nat.mul]. by rewrite length_app, Hf, IH.
Qed.

Lemma outputs_of_length config file :
  length (outputs_of config file)
  = Z.to_nat (num_splits config)
    * ((b2n (output_fasta_fastq config) + b2n (output_db config))
       * (if Py.gt (test_split config) 0 then 2 else 1)).
Proof.
  unfold outputs_of.
  rewrite (flat_map_length _ _ _ (split_outputs_length config _ _)).
  by rewrite length_seq.
Qed.

Lemma accepted_all files :
  Forall (λ file, is_fasta file || is_fastq file = true) files →
  List.filter is_fasta files ++ List.filter is_fastq files ≡ₚ files.
Proof.
  induction files as [|file rest IH]; intros H; [done|].
  apply Forall_cons in H as [Hf H]. specialize (IH H). cbn [List.filter].
  destruct (is_fasta file) eqn:Ha.
  - rewrite (fasta_is_not_fastq file Ha). cbn [app]. by constructor.
  - cbn [orb] in Hf. rewrite Hf. rewrite <- Permutation_middle.
    by constructor.
Qed.

Section Run.
Variable Rng : Type.
Variable shuffle : ∀ A : Type, Rng → list A → list A * Rng.
Variable ALL_BASES : string.
Variable fasta_entries : Path → list FastaEntry.
Variable fastq_entries : Path → list FastqEntry.
Variable path_exists : Path → bool.

Lemma split_loop_written_paths {A} config filename k out count :
  ∀ i (entries : list A) rng,
  w_path
  <$> (split_loop Rng shuffle config filename k out i count entries rng).1.2
  = flat_map (split_outputs config out filename) (seq i count).
Proof.
  induction count as [|count IH]; intros i entries rng; [done|].
  cbn [split_loop seq flat_map].
  destruct (shuffle A rng entries) as [sh rng1].
  specialize (IH (S i) sh rng1).
  destruct (split_loop _ _ _ _ _ _ _ _ _ _) as [[fs ws] rng2].
  cbn [fst snd] in IH |- *. rewrite <- IH.
  unfold output_file, output_database, split_outputs, split_directories.
  by destruct (Py.gt (test_split config) 0), (output_fasta_fastq config),
    (output_db config).
Qed.

Local Abbreviation main :=
  (main Rng shuffle ALL_BASES fasta_entries fastq_entries path_exists).
Local Abbreviation process_fasta :=
  (process_fasta_files Rng shuffle ALL_BASES fasta_entries).
Local Abbreviation process_fastq :=
  (process_fastq_files Rng shuffle fastq_entries).

(** The paths written for [files], each under [file.name.rstrip('.gz')]. *)
Local Abbreviation written_for config out files :=
  (flat_map (λ file, flat_map (split_outputs config out (output_name file))
                       (seq 0 (Z.to_nat (num_splits config)))) files).

Lemma process_fasta_written_paths config files out : ∀ rng,
  w_path <$> (process_fasta config files out rng).1.2
  = written_for config out files.
Proof.
  induction files as [|file rest IH]; intros rng; [done|].
  cbn [process_fasta_files flat_map].
  match goal with |- context [split_loop _ _ ?c ?f ?k ?o ?i ?n ?e ?r] =>
    pose proof (split_loop_written_paths c f k o n i e r) as H;
    destruct (split_loop Rng shuffle c f k o i n e r) as [[fs ws] rng1]
  end.
  specialize (IH rng1).
  destruct (process_fasta_files _ _ _ _ _ _ _ _) as [[fs' ws'] rng2].
  cbn [fst snd] in H, IH |- *. by rewrite fmap_app, H, IH.
Qed.

Lemma process_fastq_written_paths config files out : ∀ rng,
  w_path <$> (process_fastq config files out rng).1.2
  = written_for config out files.
Proof.
  induction files as [|file rest IH]; intros rng; [done|].
  cbn [process_fastq_files flat_map].
  match goal with |- context [split_loop _ _ ?c ?f ?k ?o ?i ?n ?e ?r] =>
    pose proof (split_loop_written_paths c f k o n i e r) as H;
    destruct (split_loop Rng shuffle c f k o i n e r) as [[fs ws] rng1]
  end.
  specialize (IH rng1).
  destruct (process_fastq_files _ _ _ _ _ _ _) as [[fs' ws'] rng2].
  cbn [fst snd] in H, IH |- *. by rewrite fmap_app, H, IH.
Qed.

Lemma written_for_accepted config files :
  Forall (λ file, is_fasta file || is_fastq file = true) files →
  written_for config (output_path config) files
  = flat_map (outputs_of config) files.
Proof.
  induction files as [|file rest IH]; intros H; [done|].
  apply Forall_cons in H as [Hf H]. cbn [flat_map]. rewrite (IH H).
  unfold outputs_of, output_name. by rewrite (rstrip_accepted file Hf).
Qed.

Lemma valid_run_accepts config rng0 :
  (main config rng0).1 = None →
  Forall (λ file, is_fasta file || is_fastq file = true) (data_files config).
Proof.
  intros Hrun.
  destruct (main_cases Rng shuffle ALL_BASES fasta_entries fastq_entries
              path_exists config rng0) as [[_ Hm]|[Hv _]].
  { rewrite Hm in Hrun. done. }
  apply Forall_forall. intros file Hin.
  destruct (is_fasta file) eqn:Ha; [done|].
  destruct (is_fastq file) eqn:Hq; [done|].
  exfalso. apply Hv. do 4 right. apply Exists_exists. exists file.
  split; [done|]. by apply not_accepted_unknown.
Qed.

(** C5. In a run of [main] that passes the input checks every data file
    is an accepted one, and the files and databases written are, data file
    by data file in the order of processing, the outputs of that file: in
    every directory of every split, once per output format, a path whose
    name is the name of the data file with one trailing [".gz"] removed,
    and the name itself when it has none.  For an accepted name that is
    what [rstrip('.gz')] gives. *)
Theorem C5_outputs_carry_the_input_name config rng0 :
  (main config rng0).1 = None →
  accepted_in_order config ≡ₚ data_files config
  ∧ written_paths (main config rng0).2
    = flat_map (outputs_of config) (accepted_in_order config)
  ∧ Forall (λ file,
      (is_fasta file || is_fastq file) = true
      ∧ Py.rstrip (name file) ".gz" = remove_gz_suffix (name file)
      ∧ Forall (λ p, name p = remove_gz_suffix (name file))
               (outputs_of config file)
      ∧ length (outputs_of config file)
        = Z.to_nat (num_splits config)
          * ((b2n (output_fasta_fastq config) + b2n (output_db config))
             * (if Py.gt (test_split config) 0 then 2 else 1)))
    (data_files config).
Proof.
  intros Hrun. pose proof (valid_run_accepts config rng0 Hrun) as Hacc.
  pose proof (accepted_all _ Hacc) as Hperm.
  split; [exact Hperm|]. split.
  - rewrite (main_run Rng shuffle ALL_BASES fasta_entries fastq_entries
               path_exists config rng0 Hrun).
    rewrite written_paths_phases, process_fasta_written_paths,
      process_fastq_written_paths.
    unfold accepted_in_order. rewrite flat_map_app.
    assert (Hall : Forall (λ file, is_fasta file || is_fastq file = true)
                     (accepted_in_order config))
      by by rewrite Hperm.
    apply Forall_app in Hall as [Ha Hq].
    by rewrite !written_for_accepted.
  - eapply Forall_impl; [exact Hacc|]. intros file Hf.
    split; [done|]. split; [by apply rstrip_accepted|].
    split; [apply outputs_of_names|apply outputs_of_length].
Qed.
End Run.

Import DatasetExamples.

Lemma C5_witness :
  written_paths
    (main Z Lcg.shuffle ALL_BASES fasta_entries fastq_entries (λ _, true)
       (config (1 # 2) 1 false) 42%Z).2
  = [out // "0" // "test" // "reads.fasta";
     out // "0" // "train" // "reads.fasta";
     out // "0" // "test" // "reads.fasta";
     out // "0" // "train" // "reads.fasta"].
Proof.
  apply (proj1 (proj2
    (C5_outputs_carry_the_input_name Z Lcg.shuffle ALL_BASES fasta_entries
       fastq_entries (λ _, true) (config (1 # 2) 1 false) 42%Z
       (eq_refl : _ = None)))).
Defined.

End DatasetNameFacts.

(** ** Splits with a test fraction above one *)

Module DatasetSplitFacts.
Import PrepareLocalDataset DatasetSpec DatasetTrace DatasetFacts.

Local Arguments Ascii.eqb : simpl never.
Local Set Default Proof Using "Type".


Section Run.
Variable Rng : Type.
Variable shuffle : ∀ A : Type, Rng → list A → list A * Rng.
Variable ALL_BASES : string.
Variable fasta_entries : Path → list FastaEntry.
Variable fastq_entries : Path → list FastqEntry.


Local Abbreviation process_fasta :=
  (process_fasta_files Rng shuffle ALL_BASES fasta_entries).
Local Abbreviation process_fastq :=
  (process_fastq_files Rng shuffle fastq_entries).

End Run.
End DatasetSplitFacts.

(** ** Runs of the dataset script *)

Module DatasetRuns.
Import PrepareLocalDataset DatasetSpec DatasetTrace DatasetFacts.
Import DatasetTraceFacts CleaningFacts DatasetPathFacts DatasetSplitFacts.
Import DatasetExamples.

Lemma insert_at_map {A B} (f : A → B) n x l :
  Lcg.insert_at n (f x) (map f l) = map f (Lcg.insert_at n x l).
Proof.
  revert n. induction l as [|y l IH]; intros [|n]; simpl; try done.
  by rewrite IH.
Qed.

Lemma lcg_shuffle_by_position : by_position Lcg.shuffle.
Proof.
  intros A B f rng l. induction l as [|x l IH]; simpl; [done|].
  rewrite IH. destruct (Lcg.shuffle A rng l) as [sh s]. simpl.
  by rewrite length_map, insert_at_map.
Qed.

Lemma X1_witness :
  (main Z Lcg.shuffle ALL_BASES fasta_entries fastq_entries (λ _, true)
     (config (1 # 2) 2 false) 42%Z).2
  = phases
      (flat_map (split_directories (config (1 # 2) 2 false) out) (seq 0 2))
      (process_fasta (1 # 2) 2 false)
      []
      [].
Proof.
  apply (X1_main_runs_in_phases Z Lcg.shuffle ALL_BASES fasta_entries
           fastq_entries (λ _, true) (config (1 # 2) 2 false) 42%Z).
  reflexivity.
Defined.

Lemma X5_witness :
  (process_fasta_files Z Lcg.shuffle ALL_BASES fasta_entries
     (with_clean_sequences (config (1 # 2) 2 false) true)
     [reads] out 42%Z).1.2
  = map_entries (clean ALL_BASES)
    <$> (process_fasta_files Z Lcg.shuffle ALL_BASES fasta_entries
           (with_clean_sequences (config (1 # 2) 2 false) false)
           [reads] out 42%Z).1.2.
Proof.
  apply (X5_cleaning_commutes_with_splitting Z Lcg.shuffle ALL_BASES
           fasta_entries (config (1 # 2) 2 false) [reads] out 42%Z).
  exact lcg_shuffle_by_position.
Defined.

Lemma X7_witness :
  content <$> text_writes (process_fasta (1 # 2) 2 false)
  = content <$> database_writes (process_fasta (1 # 2) 2 false).
Proof.
  apply (X7_databases_hold_what_the_files_hold Z Lcg.shuffle ALL_BASES
           fasta_entries fastq_entries (config (1 # 2) 2 false)
           [reads] out 42%Z); reflexivity.
Defined.

Lemma X8_witness :
  NoDup (written_text_files
           (main Z Lcg.shuffle ALL_BASES fasta_entries fastq_entries
              (λ _, true) (config (1 # 2) 2 false) 42%Z).2).
Proof.
  apply (X8_no_output_is_written_twice Z Lcg.shuffle ALL_BASES
           fasta_entries fastq_entries (λ _, true)
           (config (1 # 2) 2 false) 42%Z).
  - unfold Qle. simpl. lia.
  - apply NoDup_singleton.
Defined.

Lemma X9_witness :
  (process_fasta_files Z Lcg.shuffle ALL_BASES fasta_entries
     (config (-1 # 2) 3 false) [reads] out 42%Z).1.1
  = replicate 3 (out // "reads.fasta").
Proof.
  apply (X9_without_test_split_one_path_per_file Z Lcg.shuffle ALL_BASES
           fasta_entries fastq_entries (config (-1 # 2) 3 false)
           [reads] out 42%Z); reflexivity.
Defined.

Lemma X10_witness :
  destination
    <$> (process_fasta_files Z Lcg.shuffle ALL_BASES fasta_entries
           (config (1 # 2) 2 false) [mkPath "" ["reads.fasta.gz"]]
           out 42%Z).1.2
  = destination
    <$> (process_fasta_files Z Lcg.shuffle ALL_BASES fasta_entries
           (config (1 # 2) 2 false) [mkPath "" ["data"; "reads.fasta"]]
           out 7%Z).1.2.
Proof.
  apply (X10_destinations_depend_on_names_only Z Z Lcg.shuffle Lcg.shuffle
           ALL_BASES ALL_BASES fasta_entries fasta_entries
           fastq_entries fastq_entries (config (1 # 2) 2 false)
           [mkPath "" ["reads.fasta.gz"]] [mkPath "" ["data"; "reads.fasta"]]
           out 42%Z 7%Z).
  reflexivity.
Defined.
End DatasetRuns.

(** ** Bounds of the class weights *)

Module WeightsBoundsFacts.
Import Py SfdFinetune WeightsSpec WeightsFacts.

Local Set Default Proof Using "Type".

Lemma lookup_list_to_map_fn {V} (g : string → V) (l : list (string * V)) k :
  (∀ kv, kv ∈ l → kv.2 = g kv.1) → k ∈ l.*1 →
  (list_to_map l : gmap string V) !! k = Some (g k).
Proof.
  induction l as [|[k' v] l IH]; intros Hg Hk.
  - by apply elem_of_nil in Hk.
  - cbn [list_to_map foldr fst snd uncurry]. simpl.
    destruct (decide (k' = k)) as [->|Hne].
    + rewrite lookup_insert_eq. f_equal. apply (Hg (k, v)). by left.
    + rewrite lookup_insert_ne by done. apply IH.
      * intros kv H. apply Hg. by right.
      * simpl in Hk. apply elem_of_cons in Hk as [?|?]; [congruence|done].
Qed.

Lemma dict_fn {V} (g : string → V) (l : list (string * V)) k :
  (∀ kv, kv ∈ l → kv.2 = g kv.1) → k ∈ l.*1 → dict l !! k = Some (g k).
Proof.
  intros Hg Hk. rewrite dict_list_to_map. apply lookup_list_to_map_fn.
  - intros kv H. apply Hg. by apply list_elem_of_In, in_rev, list_elem_of_In.
  - apply list_elem_of_fmap in Hk as (kv & -> & H).
    apply list_elem_of_fmap. exists kv. split; [done|].
    by apply list_elem_of_In, in_rev, list_elem_of_In in H.
Qed.

Lemma sum_pairs_bounds l : (0 ≤ sum_pairs l ≤ Z.of_nat (length l))%Z.
Proof.
  unfold sum_pairs. induction l as [|[k []] l IH]; simpl length; simpl foldr;
    cbn [snd Z.b2z]; lia.
Qed.

Lemma sum_pairs_true l k : (k, true) ∈ l → (1 ≤ sum_pairs l)%Z.
Proof.
  induction l as [|kv l IH]; intros H.
  - by apply elem_of_nil in H.
  - pose proof (sum_pairs_bounds l). unfold sum_pairs in *. simpl foldr.
    apply elem_of_cons in H as [<-|H]; [simpl; lia|].
    specialize (IH H). destruct kv as [? []]; simpl; lia.
Qed.

Lemma sum_pairs_false l k :
  (k, false) ∈ l → (sum_pairs l + 1 ≤ Z.of_nat (length l))%Z.
Proof.
  induction l as [|kv l IH]; intros H.
  - by apply elem_of_nil in H.
  - pose proof (sum_pairs_bounds l). unfold sum_pairs in *.
    simpl foldr. simpl length.
    apply elem_of_cons in H as [<-|H]; [simpl; lia|].
    specialize (IH H). destruct kv as [? []]; simpl; lia.
Qed.

Lemma sum_values_true (d : gmap string bool) k :
  d !! k = Some true → (1 ≤ sum_values d)%Z.
Proof.
  intros H. rewrite sum_values_pairs. apply (sum_pairs_true _ k).
  by apply elem_of_map_to_list.
Qed.

Lemma sum_values_false (d : gmap string bool) k :
  d !! k = Some false → (1 ≤ Z.of_nat (size d) - sum_values d)%Z.
Proof.
  intros H. rewrite sum_values_pairs, <- length_map_to_list.
  apply elem_of_map_to_list in H. apply sum_pairs_false in H. lia.
Qed.

Lemma weight_bounds n :
  (1 ≤ n)%Z → (0 < half / Qc_of_Z n)%Qc ∧ (half / Qc_of_Z n ≤ half)%Qc.
Proof.
  intros Hn.
  assert (H1 : (1 ≤ Qc_of_Z n)%Qc)
    by (rewrite <- Z2Qc_inj_1; by apply (proj1 (Z2Qc_inj_le 1 n))).
  assert (H0 : (0 < Qc_of_Z n)%Qc).
  { eapply Qclt_le_trans; [|exact H1]. done. }
  assert (Hh : (0 < half)%Qc) by done.
  split.
  - unfold Qcdiv. apply Qcmult_pos_pos; [done|]. by apply Qcinv_pos.
  - apply (Qcmult_le_mono_pos_r _ _ (Qc_of_Z n)); [done|].
    replace (half / Qc_of_Z n * Qc_of_Z n)%Qc with half.
    2:{ field. by apply Qclt_not_eq in H0. }
    rewrite <- (Qcmult_1_r half) at 1.
    apply Qcmult_le_mono_nonneg_l; [|done]. by apply Qclt_le_weak.
Qed.

(** X11. The class weights are computed without an exception for every
    metadata table and every list of loaded samples, also when names
    repeat or a class is missing: there is one weight for each retained
    sample, and every weight is positive and at most one half. *)
Theorem X11_class_weights_never_fail metadata loaded :
  ∃ ws, class_weights metadata loaded = Ok ws
    ∧ length ws = length (retained (dict metadata) loaded)
    ∧ Forall (λ w, (0 < w)%Qc ∧ (w ≤ half)%Qc) ws.
Proof.
  unfold class_weights.
  set (targets := dict metadata). set (samples := retained targets loaded).
  set (lab := λ k : string, default false (targets !! k)).
  rewrite (for_each_ok _ (λ s, (name s, lab (name s)))).
  2:{ intros s Hs. apply retained_spec in Hs as [_ [t Ht]].
      unfold getitem, lab. by rewrite Ht. }
  cbn [mbind result_bind bind].
  set (pairs := (λ s, (name s, lab (name s))) <$> samples).
  assert (Hlook : ∀ s, s ∈ samples →
            dict pairs !! name s = Some (lab (name s))).
  { intros s Hs. apply dict_fn.
    - intros kv Hkv. unfold pairs in Hkv.
      by apply list_elem_of_fmap in Hkv as (s' & -> & _).
    - unfold pairs. rewrite <- list_fmap_compose.
      apply list_elem_of_fmap. by exists s. }
  set (weight := λ s : Sample,
    if lab (name s)
    then (half / Qc_of_Z (sum_values (dict pairs)))%Qc
    else (half / Qc_of_Z (Z.of_nat (size (dict pairs))
                          - sum_values (dict pairs)))%Qc).
  assert (Hbound : ∀ s, s ∈ samples →
    (if lab (name s)
     then (1 ≤ sum_values (dict pairs))%Z
     else (1 ≤ Z.of_nat (size (dict pairs))
               - sum_values (dict pairs))%Z)).
  { intros s Hs. specialize (Hlook s Hs). destruct (lab (name s)).
    - by apply (sum_values_true _ (name s)).
    - by apply (sum_values_false _ (name s)). }
  exists (weight <$> samples). split; [|split].
  - apply for_each_ok. intros s Hs. unfold getitem.
    rewrite (Hlook s Hs). cbn [mbind result_bind bind].
    specialize (Hbound s Hs). unfold weight, truediv.
    destruct (lab (name s)).
    + destruct (Z.eqb_spec (sum_values (dict pairs)) 0); [lia|done].
    + destruct (Z.eqb_spec (Z.of_nat (size (dict pairs))
                            - sum_values (dict pairs)) 0); [lia|done].
  - by rewrite length_fmap.
  - apply Forall_fmap, Forall_forall. intros s Hs.
    specialize (Hbound s Hs). unfold weight. simpl.
    destruct (lab (name s)); by apply weight_bounds.
Qed.

(** X12. The second filter of [data_generators] removes no sample: the
    names it keeps, those of the samples that passed the first filter and
    are keys of [targets], are the names of all these samples. The
    retained samples are the loaded samples whose name is a key of
    [targets], in the order in which they were loaded. *)
Theorem X12_second_filter_keeps_every_sample targets loaded :
  retained targets loaded
  = List.filter (λ s, bool_decide (name s ∈ dom targets)) loaded.
Proof.
  unfold retained. apply CleaningFacts.filter_all, Forall_forall.
  intros s Hs. apply bool_decide_eq_true.
  apply elem_of_intersection. split.
  - apply elem_of_list_to_set, list_elem_of_fmap. by exists s.
  - apply list_elem_of_In, filter_In in Hs as [_ Hs].
    by apply bool_decide_eq_true in Hs.
Qed.
End WeightsBoundsFacts.

(** ** The shape of the networks *)

Module GastShapeFacts.
Import Py Keras GastSpec GastFacts GastShape GastExamples.

Local Set Default Proof Using "Type".

Lemma omap_blocks {A B} (f : A → option B) (block : nat → list A)
    (g : nat → list B) count :
  (∀ i, omap f (block i) = g i) →
  ∀ j, omap f (flat_map block (seq j count)) = flat_map g (seq j count).
Proof.
  intros Hb. induction count as [|count IH]; intros j; simpl; [done|].
  by rewrite omap_app, Hb, IH.
Qed.

Lemma fmap_constant {A B} (g : A → B) v l :
  Forall (λ x, g x = v) l → g <$> l = replicate (length l) v.
Proof.
  induction 1 as [|x l Hx _ IH]; [done|].
  cbn [fmap list_fmap length replicate]. rewrite Hx. f_equal. exact IH.
Qed.

Lemma flat_map_singleton {A B} (g : A → B) l :
  flat_map (λ x, [g x]) l = g <$> l.
Proof. induction l as [|x l IH]; simpl; [done|]. by rewrite IH. Qed.

Lemma final_last_only (stack : Z) :
  (λ i, VBool (Z.of_nat i =? stack - 1)%Z) <$> seq 0 (Z.to_nat stack)
  = last_only (Z.to_nat stack).
Proof.
  destruct (Z.to_nat stack) as [|k] eqn:E; [done|].
  rewrite seq_S, fmap_app. cbn [last_only]. f_equal.
  - rewrite (fmap_constant _ (VBool false)).
    + by rewrite length_seq.
    + apply Forall_forall. intros i Hi.
      apply list_elem_of_In, in_seq in Hi. f_equal. lia.
  - simpl. do 2 f_equal. lia.
Qed.

Lemma generator_final_flags a :
  final_flags (GeneratorSpec.expected_model a)
  = last_only (Z.to_nat (GastGenerator.stack a)).
Proof.
  unfold final_flags, GeneratorSpec.expected_model,
    GeneratorSpec.expected_stack. cbn [graph].
  rewrite !omap_app.
  rewrite (omap_blocks _ _
    (λ i, [VBool (Z.of_nat i =? GastGenerator.stack a - 1)%Z])) by done.
  rewrite flat_map_singleton, final_last_only. simpl.
  by rewrite app_nil_r.
Qed.

Lemma discriminator_final_flags a :
  final_flags (DiscriminatorSpec.expected_model a)
  = last_only (Z.to_nat (GastDiscriminator.stack a)).
Proof.
  unfold final_flags, DiscriminatorSpec.expected_model. cbn [graph].
  rewrite !omap_app.
  rewrite (omap_blocks _ _
    (λ i, [VBool (Z.of_nat i =? GastDiscriminator.stack a - 1)%Z]))
    by done.
  rewrite flat_map_singleton, final_last_only. simpl.
  by rewrite app_nil_r.
Qed.

Lemma discriminator_set_encoders a :
  set_encoders (DiscriminatorSpec.expected_model a)
  = replicate (Z.to_nat (GastDiscriminator.stack a) + 1)
      (VInt 1, DiscriminatorSpec.attention_args a true).
Proof.
  unfold set_encoders, DiscriminatorSpec.expected_model. cbn [graph].
  rewrite !omap_app.
  rewrite (omap_blocks _ _
    (λ _, [(VInt 1, DiscriminatorSpec.attention_args a true)])) by done.
  rewrite flat_map_singleton.
  rewrite (fmap_constant _ (VInt 1, DiscriminatorSpec.attention_args a true))
    by by apply Forall_forall.
  rewrite length_seq. simpl. rewrite app_nil_r.
  by rewrite Nat.add_1_r.
Qed.

Lemma discriminator_block_lookup a count : ∀ j i,
  i < count →
  flat_map (DiscriminatorSpec.expected_block a) (seq j count) !! (2 + 3 * i)
  = Some (mkNode (DiscriminatorSpec.encoder_layer a) [4 + 3 * (j + i)]).
Proof.
  induction count as [|count IH]; intros j i Hi; [lia|].
  cbn [seq flat_map]. destruct i as [|i].
  - simpl. do 4 f_equal. lia.
  - rewrite lookup_app_r by (simpl; lia).
    replace (2 + 3 * S i - length (DiscriminatorSpec.expected_block a j))
      with (2 + 3 * i) by (simpl; lia).
    rewrite IH by lia. do 4 f_equal. lia.
Qed.

Lemma discriminator_blocks_size a count : ∀ j,
  length (flat_map (DiscriminatorSpec.expected_block a) (seq j count))
  = 3 * count.
Proof.
  induction count as [|count IH]; intros j; simpl; [done|].
  rewrite IH. lia.
Qed.

Lemma required_int kw x z :
  required kw x ≫= as_int = Ok z → kw !! x = Some (VInt z).
Proof.
  unfold required. destruct (kw !! x) as [[]|]; try done.
  cbn. by intros [= ->].
Qed.

Lemma optional_int_absent v o :
  as_optional_int v = Ok o → v = VNone → o = None.
Proof. intros H ->. by injection H. Qed.

Lemma optional_int_value v o :
  as_optional_int v = Ok o → v = of_option o.
Proof. destruct v; try done; by intros [= <-]. Qed.

Lemma generator_bound_arguments kw a :
  GastGenerator.bind_arguments kw = Ok a →
  kw !! "embed_dim" = Some (VInt (GastGenerator.embed_dim a))
  ∧ kw !! "noise_dim" = Some (VInt (GastGenerator.noise_dim a))
  ∧ as_optional_int (default VNone (kw !! "cond_dim"))
    = Ok (GastGenerator.cond_dim a)
  ∧ as_optional_int (default VNone (kw !! "ff_dim"))
    = Ok (GastGenerator.ff_dim a)
  ∧ as_optional_int (default VNone (kw !! "mlp_dim"))
    = Ok (GastGenerator.mlp_dim a)
  ∧ as_optional_int (default VNone (kw !! "class_dim"))
    = Ok (GastGenerator.class_dim a).
Proof.
  intros H. unfold GastGenerator.bind_arguments in H.
  GastTheorems.bound H. apply GastTheorems.Ok_inj in H as <-.
  cbn [GastGenerator.embed_dim GastGenerator.noise_dim
       GastGenerator.cond_dim GastGenerator.ff_dim GastGenerator.mlp_dim
       GastGenerator.class_dim].
  repeat split; try done; by apply required_int.
Qed.

Section WithKeras.
Variable keras_Model_init : gmap string value → result (gmap string value).

(** X13. The network of a discriminator: the input set of [latent_dim]
    vectors is projected to [embed_dim], encoded once, and encoded again
    after each of the [stack] induced blocks; the [stack + 1] encodings,
    each made by an [InducedSetEncoder] with one seed and [is_final=True],
    are concatenated in that order, and a softmax layer of
    [num_classes + 1] units gives the output. *)
Theorem X13_discriminator_architecture a d :
  GastDiscriminator.init keras_Model_init a = Ok d →
  let n := Z.to_nat (GastDiscriminator.stack a) in
  let m := GastDiscriminator.model d in
  m = DiscriminatorSpec.expected_model a
  ∧ inputs m = [0]
  ∧ producer m 0
    = Some (Input [VNone; VInt (GastDiscriminator.latent_dim a)] VNone VNone)
  ∧ graph m !! 1
    = Some (mkNode (Dense (VInt (GastDiscriminator.embed_dim a)) VNone) [0])
  ∧ output_node m
    = Some (mkNode (Dense (VInt (GastDiscriminator.num_classes a + 1))
                          (VStr "softmax")) [3 + 3 * n])
  ∧ graph m !! (3 + 3 * n)
    = Some (mkNode Concatenate
              (2 :: DiscriminatorSpec.expected_encodings 0 n))
  ∧ length (2 :: DiscriminatorSpec.expected_encodings 0 n) = n + 1
  ∧ Forall (λ t, producer m t = Some (DiscriminatorSpec.encoder_layer a))
           (2 :: DiscriminatorSpec.expected_encodings 0 n)
  ∧ set_encoders m
    = replicate (n + 1) (VInt 1, DiscriminatorSpec.attention_args a true).
Proof.
  intros Hd.
  destruct (DiscriminatorFacts.discriminator_init_ok keras_Model_init a d Hd)
    as [_ Hm].
  cbv zeta. rewrite Hm.
  split; [done|]. split; [done|]. split; [done|]. split; [done|].
  refine (conj _ (conj _ (conj _ (conj _ (discriminator_set_encoders a)))));
    unfold output_node, producer, DiscriminatorSpec.expected_model;
    cbn [graph outputs];
    pose proof (discriminator_blocks_size a
                  (Z.to_nat (GastDiscriminator.stack a)) 0) as Hlen;
    pose proof (discriminator_block_lookup a
                  (Z.to_nat (GastDiscriminator.stack a)) 0) as Hlook;
    revert Hlen Hlook;
    generalize (flat_map (DiscriminatorSpec.expected_block a)
                  (seq 0 (Z.to_nat (GastDiscriminator.stack a))));
    generalize (Z.to_nat (GastDiscriminator.stack a));
    intros n blocks Hlen Hlook.
  - rewrite lookup_app_r by (simpl; lia).
    rewrite lookup_app_r by (simpl; lia).
    replace (4 + 3 * n - _ - length blocks) with 1 by (simpl; lia).
    done.
  - rewrite lookup_app_r by (simpl; lia).
    rewrite lookup_app_r by (simpl; lia).
    replace (3 + 3 * n - _ - length blocks) with 0 by (simpl; lia).
    done.
  - unfold DiscriminatorSpec.expected_encodings. simpl.
    rewrite length_fmap, length_seq. lia.
  - constructor; [done|].
    unfold DiscriminatorSpec.expected_encodings.
    apply Forall_fmap, Forall_forall. intros i Hi.
    apply list_elem_of_In, in_seq in Hi. unfold compose. cbv beta.
    rewrite lookup_app_r by (simpl; lia).
    rewrite lookup_app_l by (simpl; lia).
    replace (5 + 3 * i - _) with (2 + 3 * i) by (simpl; lia).
    by rewrite Hlook by lia.
Qed.

(** X14. In the stack of a generator and in that of a discriminator,
    [is_final] is [True] for the last attention block and [False] for
    every block before it; with [stack <= 0] there is no block. *)
Theorem X14_only_the_last_block_is_final :
  (∀ a g,
     GastGenerator.init keras_Model_init a = Ok g →
     final_flags (GastGenerator.model g)
     = last_only (Z.to_nat (GastGenerator.stack a)))
  ∧ (∀ a d,
     GastDiscriminator.init keras_Model_init a = Ok d →
     final_flags (GastDiscriminator.model d)
     = last_only (Z.to_nat (GastDiscriminator.stack a))).
Proof.
  split.
  - intros a g Hg.
    destruct (GeneratorFacts.init_ok keras_Model_init a g Hg) as [_ Hm].
    destruct (GastGenerator.include_class a).
    + destruct Hm as [v ->].
      unfold final_flags, GeneratorSpec.expected_class_model,
        GeneratorSpec.expected_stack. cbn [graph].
      rewrite !omap_app.
      rewrite (omap_blocks _ _
        (λ i, [VBool (Z.of_nat i =? GastGenerator.stack a - 1)%Z]))
        by done.
      rewrite flat_map_singleton, final_last_only. simpl.
      by rewrite app_nil_r.
    + rewrite Hm. apply generator_final_flags.
  - intros a d Hd.
    destruct (DiscriminatorFacts.discriminator_init_ok
                keras_Model_init a d Hd) as [_ ->].
    apply discriminator_final_flags.
Qed.

(** X15. The arguments [mlp_dim], [num_classes] and [class_dim] of a
    generator do not reach its network: when a generator can be built,
    it can be built with any other values for the three, and the network
    is the same. *)
Theorem X15_unused_generator_arguments a g mlp_dim num_classes class_dim :
  keras_has_no_num_samples keras_Model_init →
  GastGenerator.init keras_Model_init a = Ok g →
  ∃ g',
    GastGenerator.init keras_Model_init
      (with_unused a mlp_dim num_classes class_dim) = Ok g'
    ∧ GastGenerator.model g' = GastGenerator.model g.
Proof.
  intros Hk Hg.
  pose proof (GeneratorFacts.init_ok_plain keras_Model_init a g Hk Hg)
    as Hplain.
  destruct (GeneratorFacts.init_ok keras_Model_init a g Hg) as [_ Hm].
  rewrite Hplain in Hm.
  set (a' := with_unused a mlp_dim num_classes class_dim).
  destruct (GeneratorFacts.init_cases keras_Model_init a)
    as [(e & _ & He)|(base & Hbase & _)]; [congruence|].
  destruct (GeneratorFacts.init_cases keras_Model_init a')
    as [(e & He & _)|(base' & _ & Hinit)].
  { change (GastGenerator.kwargs a') with (GastGenerator.kwargs a) in He.
    congruence. }
  cbv zeta in Hinit.
  rewrite (GeneratorFacts.build_model_closed a') in Hinit.
  - eexists. split; [exact Hinit|]. by rewrite Hm.
  - apply update_holds, GeneratorFacts.recorded_nodup.
  - exact Hplain.
Qed.

(** X16. A discriminator cannot be restored from its configuration:
    [get_config] is the one of [CustomModel] and records nothing, so
    [from_config] calls the class without its five required arguments,
    which raises [TypeError] before [keras.Model.__init__] is reached. *)
Theorem X16_discriminator_config_is_empty d :
  GastDiscriminatorConfig.get_config (GastDiscriminator.attrs d) = ∅
  ∧ GastDiscriminatorConfig.from_config keras_Model_init
      (GastDiscriminatorConfig.get_config (GastDiscriminator.attrs d))
    = Raise (TypeError "missing a required argument").
Proof. split; reflexivity. Qed.

(** X17. The defaults of a generator's dimensions: in a generator built
    from keyword arguments, [cond_dim] is the [embed_dim] argument when
    it is left out or [None], [class_dim] is the [noise_dim] argument
    when it is left out or [None], and [mlp_dim] is [ff_dim], itself
    [None] by default, when it is left out or [None]. *)
Theorem X17_defaults_of_the_generator kw g :
  GastGenerator.new keras_Model_init kw = Ok g →
  let self := GastGenerator.attrs g in
  (default VNone (kw !! "cond_dim") = VNone →
     self !! "cond_dim" = kw !! "embed_dim")
  ∧ (default VNone (kw !! "class_dim") = VNone →
     self !! "class_dim" = kw !! "noise_dim")
  ∧ (default VNone (kw !! "mlp_dim") = VNone →
     self !! "mlp_dim" = Some (default VNone (kw !! "ff_dim"))
     ∧ self !! "ff_dim" = Some (default VNone (kw !! "ff_dim"))).
Proof.
  unfold GastGenerator.new. intros H.
  destruct (GastGenerator.bind_arguments kw) as [a|] eqn:Ha; [|done].
  cbn [mbind result_bind bind] in H.
  destruct (generator_bound_arguments kw a Ha)
    as (He & Hn & Hc & Hf & Hm & Hcl).
  destruct (GeneratorFacts.init_ok keras_Model_init a g H) as [Hh _].
  GeneratorFacts.known Hh. cbv zeta.
  rewrite He, Hn, (optional_int_value _ _ Hf).
  unfold GeneratorSpec.resolved_cond_dim, GeneratorSpec.resolved_mlp_dim,
    GeneratorSpec.resolved_class_dim in *.
  split; [|split].
  - intros E. by rewrite (optional_int_absent _ _ Hc E) in *.
  - intros E. by rewrite (optional_int_absent _ _ Hcl E) in *.
  - intros E. by rewrite (optional_int_absent _ _ Hm E) in *.
Qed.
End WithKeras.
End GastShapeFacts.

(** ** Training with CustomModel *)

Module CustomModelFacts.
Import Py GastSpec GastFacts CustomModelFit.

Local Set Default Proof Using "Type".

Lemma fresh_instance keras_Model_init kwargs self x :
  keras_defines_no x keras_Model_init →
  x ≠ "_accumulation_steps" →
  CustomModel.init keras_Model_init kwargs = Ok self →
  self !! x = None ∧ self !! "_accumulation_steps" = Some (VInt 1).
Proof.
  intros Hk Hx. unfold CustomModel.init.
  destruct (keras_Model_init kwargs) as [base|] eqn:Hb; [|done].
  cbn [mbind result_bind bind]. intros [= <-]. split.
  - rewrite lookup_insert_ne by done. by apply (Hk kwargs).
  - apply lookup_insert_eq.
Qed.

Section WithKeras.
Variable keras_Model_init : gmap string value → result (gmap string value).
Variable GradientAccumulator : gmap string value → result value.
Variable History : Type.
Variable keras_Model_fit :
  gmap string value → result (History * gmap string value).

Local Abbreviation fit := (fit GradientAccumulator History keras_Model_fit).

(** X18. How [fit] fails. With [accumulation_steps] below one the
    assertion fails before anything is done. With the default
    [accumulation_steps=1] on a model as [__init__] leaves it, whose
    [_gradient_accumulator] is declared but never assigned, Keras trains
    the model and [del self._gradient_accumulator] then raises
    [AttributeError], so the history is not returned. *)
Theorem X18_fit_without_accumulation_raises kwargs self history self' :
  keras_defines_no "_gradient_accumulator" keras_Model_init →
  fit_keeps_accumulator History keras_Model_fit →
  CustomModel.init keras_Model_init kwargs = Ok self →
  keras_Model_fit self = Ok (history, self') →
  (∀ n, (n ≤ 0)%Z →
     fit self n
     = AssertionError "Accumulation steps cannot be less than 1.")
  ∧ fit self 1 = Raises (AttributeError "_gradient_accumulator").
Proof.
  intros Hk Hkeep Hinit Hfit.
  destruct (fresh_instance keras_Model_init kwargs self
              "_gradient_accumulator" Hk ltac:(done) Hinit) as [Hacc Hsteps].
  split.
  - intros n Hn. unfold CustomModelFit.fit.
    destruct (Z.ltb_spec 0 n); [lia|done].
  - unfold CustomModelFit.fit, getattr. rewrite Hsteps. simpl.
    rewrite Hfit. simpl. unfold delattr.
    by rewrite (Hkeep self history self' Hfit), Hacc.
Qed.

(** X19. When [fit] returns, gradients were accumulated: on a model
    without a gradient accumulator, [fit] returns only if
    [accumulation_steps] is more than one. Keras was then given the model
    with a fresh accumulator, and with [_accumulation_steps] set and
    [train_function] reset if the number of steps changed; [fit] leaves
    the model as Keras trained it, without the accumulator. *)
Theorem X19_fit_returns_only_when_accumulating self n history self' :
  fit_keeps_accumulator History keras_Model_fit →
  self !! "_gradient_accumulator" = None →
  fit self n = Returns (history, self') →
  (1 < n)%Z
  ∧ self' !! "_gradient_accumulator" = None
  ∧ ∃ accumulator trained,
      keras_Model_fit
        (<["_gradient_accumulator" := accumulator]>
           (if differ (VInt n) (default VNone (self !! "_accumulation_steps"))
            then <["train_function" := VNone]>
                   (<["_accumulation_steps" := VInt n]> self)
            else self))
      = Ok (history, trained)
      ∧ self' = delete "_gradient_accumulator" trained.
Proof.
  intros Hkeep Hacc. unfold CustomModelFit.fit.
  destruct (Z.ltb_spec 0 n) as [Hpos|]; [|done]. cbn [negb].
  unfold getattr.
  destruct (self !! "_accumulation_steps") as [current|] eqn:Hc; [|done].
  cbn [mbind result_bind bind default].
  set (self1 := if differ (VInt n) current then _ else self).
  assert (H1 : self1 !! "_gradient_accumulator" = None).
  { unfold self1. destruct (differ _ _); [|done].
    by rewrite !lookup_insert_ne by done. }
  destruct (Z.ltb_spec 1 n) as [Hn|Hn].
  - destruct (GradientAccumulator self1) as [acc|]; [|done].
    cbn [mbind result_bind bind].
    destruct (keras_Model_fit _) as [[h trained]|] eqn:Hfit; [|done].
    cbn [mbind result_bind bind]. unfold delattr.
    destruct (trained !! "_gradient_accumulator"); [|done].
    cbn [mbind result_bind bind run]. intros [= <- <-].
    split; [done|]. split; [apply lookup_delete_eq|].
    by exists acc, trained.
  - cbn [mbind result_bind bind].
    destruct (keras_Model_fit self1) as [[h trained]|] eqn:Hfit; [|done].
    cbn [mbind result_bind bind]. unfold delattr.
    by rewrite (Hkeep self1 h trained Hfit), H1.
Qed.

(** X20. The property [subbatch_size] raises [AttributeError] on every
    model as [__init__] leaves it, a plain [CustomModel] or a generator:
    it reads [_CustomModel__subbatch_size], which no code assigns. *)
Theorem X20_subbatch_size_is_never_set :
  keras_defines_no "_CustomModel__subbatch_size" keras_Model_init →
  (∀ kwargs self,
     CustomModel.init keras_Model_init kwargs = Ok self →
     subbatch_size self
     = Raise (AttributeError "_CustomModel__subbatch_size"))
  ∧ (∀ a g,
     GastGenerator.init keras_Model_init a = Ok g →
     subbatch_size (GastGenerator.attrs g)
     = Raise (AttributeError "_CustomModel__subbatch_size"))
  ∧ (∀ a d,
     GastDiscriminator.init keras_Model_init a = Ok d →
     subbatch_size (GastDiscriminator.attrs d)
     = Raise (AttributeError "_CustomModel__subbatch_size")).
Proof.
  intros Hk. unfold subbatch_size, getattr. split; [|split].
  - intros kwargs self Hinit.
    destruct (fresh_instance keras_Model_init kwargs self
                "_CustomModel__subbatch_size" Hk ltac:(done) Hinit)
      as [-> _].
    done.
  - intros a g. unfold GastGenerator.init.
    destruct (CustomModel.init keras_Model_init (GastGenerator.kwargs a))
      as [self|] eqn:Hinit; [|done].
    cbn [mbind result_bind bind].
    rewrite GeneratorFacts.assign_closed. cbn [mbind result_bind bind].
    destruct (GastGenerator.build_model _) as [m|]; [|done].
    cbn [mbind result_bind bind]. intros [= <-]. cbn [GastGenerator.attrs].
    rewrite !lookup_insert_ne by done.
    destruct (fresh_instance keras_Model_init _ self
                "_CustomModel__subbatch_size" Hk ltac:(done) Hinit)
      as [-> _].
    done.
  - intros a d. unfold GastDiscriminator.init.
    destruct (CustomModel.init keras_Model_init (GastDiscriminator.kwargs a))
      as [self|] eqn:Hinit; [|done].
    cbn [mbind result_bind bind].
    destruct (GastDiscriminator.build_model _) as [m|]; [|done].
    cbn [mbind result_bind bind]. intros [= <-].
    cbn [GastDiscriminator.attrs]. unfold GastDiscriminator.assign.
    rewrite !lookup_insert_ne by done.
    destruct (fresh_instance keras_Model_init _ self
                "_CustomModel__subbatch_size" Hk ltac:(done) Hinit)
      as [-> _].
    done.
Qed.
End WithKeras.
End CustomModelFacts.

(** ** Models built with the stand-in for Keras *)

Module GastRuns.
Import Py Keras GastSpec GastFacts GastShape GastExamples GastShapeFacts.
Import CustomModelFit CustomModelFacts.

Lemma stand_in_defines_name_only x :
  x ≠ "name" → keras_defines_no x keras_Model_init.
Proof.
  intros Hx kw base. unfold keras_Model_init.
  destruct (map_to_list (delete "name" kw)); [|done].
  intros [= <-]. by rewrite lookup_singleton_ne.
Qed.

Lemma X13_witness :
  ∃ d,
    GastDiscriminator.init keras_Model_init discriminator_args = Ok d ∧
    output_node (GastDiscriminator.model d)
    = Some (mkNode (Dense (VInt 2) (VStr "softmax")) [9]) ∧
    set_encoders (GastDiscriminator.model d)
    = replicate 3
        (VInt 1, DiscriminatorSpec.attention_args discriminator_args true).
Proof.
  destruct (GastDiscriminator.init keras_Model_init discriminator_args)
    as [d|] eqn:Hd; [|by vm_compute in Hd].
  destruct (X13_discriminator_architecture keras_Model_init
              discriminator_args d Hd)
    as (_ & _ & _ & _ & Hout & _ & _ & _ & Henc).
  exists d. split; [reflexivity|]. split; [exact Hout|exact Henc].
Defined.

Lemma X14_witness :
  ∃ g d,
    GastGenerator.init keras_Model_init (generator_args false) = Ok g ∧
    GastDiscriminator.init keras_Model_init discriminator_args = Ok d ∧
    final_flags (GastGenerator.model g) = [VBool false; VBool true] ∧
    final_flags (GastDiscriminator.model d) = [VBool false; VBool true].
Proof.
  destruct (GastGenerator.init keras_Model_init (generator_args false))
    as [g|] eqn:Hg; [|by vm_compute in Hg].
  destruct (GastDiscriminator.init keras_Model_init discriminator_args)
    as [d|] eqn:Hd; [|by vm_compute in Hd].
  exists g, d. repeat split.
  - by apply (proj1 (X14_only_the_last_block_is_final keras_Model_init)
               (generator_args false) g).
  - by apply (proj2 (X14_only_the_last_block_is_final keras_Model_init)
               discriminator_args d).
Defined.

Lemma X15_witness :
  ∃ g g',
    GastGenerator.init keras_Model_init (generator_args false) = Ok g ∧
    GastGenerator.init keras_Model_init
      (with_unused (generator_args false) (Some 128%Z) (Some 10%Z)
         (Some 5%Z)) = Ok g' ∧
    GastGenerator.model g' = GastGenerator.model g.
Proof.
  destruct (GastGenerator.init keras_Model_init (generator_args false))
    as [g|] eqn:Hg; [|by vm_compute in Hg].
  destruct (X15_unused_generator_arguments keras_Model_init
              (generator_args false) g (Some 128%Z) (Some 10%Z) (Some 5%Z)
              (stand_in_defines_name_only "num_samples" ltac:(done)) Hg)
    as (g' & Hg' & Hm).
  exists g, g'. split; [reflexivity|]. split; [exact Hg'|exact Hm].
Defined.

Lemma X17_witness :
  ∃ g,
    GastGenerator.new keras_Model_init generator_keywords = Ok g ∧
    GastGenerator.attrs g !! "cond_dim" = Some (VInt 16) ∧
    GastGenerator.attrs g !! "class_dim" = Some (VInt 64) ∧
    GastGenerator.attrs g !! "mlp_dim" = Some VNone.
Proof.
  destruct (GastGenerator.new keras_Model_init generator_keywords)
    as [g|] eqn:Hg; [|by vm_compute in Hg].
  destruct (X17_defaults_of_the_generator keras_Model_init
              generator_keywords g Hg) as (Hc & Hcl & Hm).
  exists g. split; [reflexivity|]. split; [|split].
  - by apply Hc.
  - by apply Hcl.
  - by apply Hm.
Defined.

Lemma X18_witness :
  fit accumulator_stand_in string fit_stand_in
    (<["_accumulation_steps" := VInt 1]> {["name" := VStr "model"]}) 1
  = Raises (AttributeError "_gradient_accumulator").
Proof.
  apply (X18_fit_without_accumulation_raises keras_Model_init
           accumulator_stand_in string fit_stand_in ∅
           (<["_accumulation_steps" := VInt 1]> {["name" := VStr "model"]})
           "history"
           (<["_accumulation_steps" := VInt 1]> {["name" := VStr "model"]})).
  - by apply stand_in_defines_name_only.
  - by intros self history self' [= _ ->].
  - reflexivity.
  - reflexivity.
Defined.

Lemma X19_witness :
  ∃ trained,
    fit accumulator_stand_in string fit_stand_in
      (<["_accumulation_steps" := VInt 1]> {["name" := VStr "model"]}) 4
    = Returns ("history", trained)
    ∧ trained !! "_gradient_accumulator" = None.
Proof.
  destruct (fit accumulator_stand_in string fit_stand_in
              (<["_accumulation_steps" := VInt 1]> {["name" := VStr "model"]})
              4) as [[history trained]| |] eqn:Hfit;
    [|by vm_compute in Hfit|by vm_compute in Hfit].
  assert (Hh : history = "history") by (by vm_compute in Hfit; injection Hfit).
  destruct (X19_fit_returns_only_when_accumulating
              accumulator_stand_in string fit_stand_in
              (<["_accumulation_steps" := VInt 1]> {["name" := VStr "model"]})
              4 history trained) as (_ & Hacc & _).
  - by intros self h self' [= _ ->].
  - reflexivity.
  - exact Hfit.
  - exists trained. rewrite Hh. split; [reflexivity|exact Hacc].
Defined.

Lemma X20_witness :
  ∃ g,
    GastGenerator.init keras_Model_init (generator_args false) = Ok g ∧
    subbatch_size (GastGenerator.attrs g)
    = Raise (AttributeError "_CustomModel__subbatch_size").
Proof.
  destruct (GastGenerator.init keras_Model_init (generator_args false))
    as [g|] eqn:Hg; [|by vm_compute in Hg].
  exists g. split; [reflexivity|].
  by apply (proj1 (proj2 (X20_subbatch_size_is_never_set keras_Model_init
                            (stand_in_defines_name_only
                               "_CustomModel__subbatch_size" ltac:(done))))
              (generator_args false) g).
Defined.
End GastRuns.
